(** * Model.py: preprocessing, splitting, scaling and evaluation pipeline

    A shallow embedding of [src/Model.py].  The script is a chain of calls
    into pandas, NumPy and scikit-learn; each library call the script makes
    is given an executable model here, and the script's own functions
    ([preprocess_data], [split_data], [standardize_data], [evaluate_model],
    [run_models]) are written over those models in the order of the source.

    Conventions.
    - A Python exception is a value of [exn]; a call that may raise returns
      a [result].
    - A table cell is a string, a number or the missing value NaN.  Numbers
      are carried as integers ([Z]).  A column of numbers is an [int64]
      column; a column of numbers with a missing value is a [float64]
      column, whose numbers are whole doubles; a column that holds a string
      is a column of Python objects.  A [datetime64] cell is carried as its
      count of nanoseconds since the epoch, the way pandas stores it, the
      count [- 2 ^ 63] being the one pandas reserves for NaT.
    - The library calls are modelled as pandas 3, NumPy 2 and scikit-learn
      1.x make them; where an earlier release did otherwise, the definition
      says so.
    - What the library leaves open to the platform (the date parsers, the
      pseudo-random generator, the learning algorithms and the metrics) is a
      [Variable] of the section that uses it.
    - Console output ([print], [tqdm]) is not part of the state. *)

From Stdlib Require Import ZArith QArith Qround List String Ascii Lia Bool DecimalString Floats.
From stdpp Require Import base tactics option list strings sorting.
Import ListNotations.

Local Open Scope string_scope.
Local Open Scope Z_scope.
Local Open Scope list_scope.

(** ** Exceptions *)

Inductive exn : Type :=
  | KeyError (key : string)
  | ValueError (msg : string)
  | TypeError (msg : string)
  | IndexError
  | NotFittedError.

Inductive result (A : Type) : Type :=
  | Ok (a : A)
  | Raise (e : exn).

Arguments Ok {A} a.
Arguments Raise {A} e.

#[global] Instance result_ret : MRet result := @Ok.
#[global] Instance result_bind : MBind result :=
  fun A B f m => match m with Ok a => f a | Raise e => Raise e end.
#[global] Instance result_fmap : FMap result :=
  fun A B f m => match m with Ok a => Ok (f a) | Raise e => Raise e end.

Definition is_Ok {A} (r : result A) : bool :=
  match r with Ok _ => true | Raise _ => false end.

(** ** Cells, columns and tables *)

Inductive cell : Type :=
  | CStr (s : string)
  | CNum (z : Z)
  | CNaN.

#[global] Instance cell_eq_dec : EqDecision cell.
Proof. solve_decision. Defined.

Abbreviation column := (list cell).

(** [pd.isna] on one cell. *)
Definition isna (c : cell) : bool :=
  match c with CNaN => true | _ => false end.

(** A [DataFrame]: the row labels and the named columns, in column order. *)
Record DataFrame : Type := mkDataFrame {
  index : list nat;
  columns : list (string * column)
}.

(** A [Series]: one column together with its row labels. *)
Record Series : Type := mkSeries {
  s_index : list nat;
  s_values : column
}.

Definition names (df : DataFrame) : list string := map fst (columns df).

Definition nrows (df : DataFrame) : nat := length (index df).

(** Every column is as long as the index; pandas keeps this invariant. *)
Definition wf_cols (n : nat) (cols : list (string * column)) : bool :=
  forallb (fun kc => Nat.eqb (length (snd kc)) n) cols.

Definition wf_frame (df : DataFrame) : bool := wf_cols (nrows df) (columns df).

Fixpoint lookup_col (k : string) (cols : list (string * column)) : option column :=
  match cols with
  | [] => None
  | (k', c) :: rest => if String.eqb k' k then Some c else lookup_col k rest
  end.

(** [df[k]] *)
Definition getitem (df : DataFrame) (k : string) : result column :=
  match lookup_col k (columns df) with
  | Some c => Ok c
  | None => Raise (KeyError k)
  end.

Fixpoint assign_col (k : string) (v : column) (cols : list (string * column))
  : list (string * column) :=
  match cols with
  | [] => [(k, v)]
  | (k', c) :: rest =>
      if String.eqb k' k then (k', v) :: rest else (k', c) :: assign_col k v rest
  end.

(** [df[k] = v]: replaces the column in place, or appends a new last column. *)
Definition setitem (df : DataFrame) (k : string) (v : column) : result DataFrame :=
  if Nat.eqb (length v) (nrows df)
  then Ok (mkDataFrame (index df) (assign_col k v (columns df)))
  else Raise (ValueError "Length of values does not match length of index").

Definition mem_string (k : string) (l : list string) : bool :=
  existsb (String.eqb k) l.

(** [df.drop(labels, axis=1)]: every label has to name a column. *)
Definition df_drop (df : DataFrame) (labels : list string) : result DataFrame :=
  match List.filter (fun k => negb (mem_string k (names df))) labels with
  | [] => Ok (mkDataFrame (index df)
                (List.filter (fun kc => negb (mem_string (fst kc) labels)) (columns df)))
  | k :: _ => Raise (KeyError k)
  end.

(** [Series.fillna(v)] *)
Definition fillna (v : cell) (c : column) : column :=
  map (fun x => if isna x then v else x) c.

Definition is_str (c : cell) : bool :=
  match c with CStr _ => true | _ => false end.

Definition is_num (c : cell) : bool :=
  match c with CNum _ => true | _ => false end.

(** The dtype pandas gives a column, as far as the script can tell one
    from another: [float64] when the column holds numbers and a missing
    value (or missing values only), [int64] when it holds numbers only, and
    otherwise, when it holds a string, Python objects or strings ([str]
    since pandas 3), which behave alike here. *)
Inductive dtype : Type := Int64 | Float64 | Object.

Definition dtype_of (c : column) : dtype :=
  if existsb is_str c then Object
  else if existsb isna c then Float64
  else Int64.

(** [str] of a Python [int], and of a whole [float] (below 10^16, where
    Python writes no exponent). *)
Definition int_text (z : Z) : string := NilZero.string_of_int (Z.to_int z).

Definition float_text (z : Z) : string := (int_text z ++ ".0")%string.

(** [Series.astype(str)]: every number becomes its text, a string stays, and
    a missing value stays missing (pandas before 3 wrote the text [nan]
    there). *)
Definition astype_str (c : column) : column :=
  map (fun x => match x with
                | CNum z => CStr (match dtype_of c with
                                  | Float64 => float_text z
                                  | _ => int_text z
                                  end)
                | _ => x
                end) c.

(** [+] on two cells of string series: the texts are joined, and the sum
    is missing where a side is. *)
Definition str_add_cell (a b : cell) : cell :=
  match a, b with
  | CStr x, CStr y => CStr (x ++ y)
  | _, _ => CNaN
  end.

(** Elementwise [+] of two string series. *)
Fixpoint str_add (a b : column) : column :=
  match a, b with
  | x :: a', y :: b' => str_add_cell x y :: str_add a' b'
  | _, _ => []
  end.

Fixpoint str_repeat (s : string) (n : nat) : string :=
  match n with
  | O => ""
  | S n' => (s ++ str_repeat s n')%string
  end.

(** The [int64] that a product wraps around to. *)
Definition int64_wrap (z : Z) : Z := (z + 2 ^ 63) mod 2 ^ 64 - 2 ^ 63.

(** The double nearest to a whole number, as a whole number.  A number too
    large for a double is kept as it is, and stands for an infinity. *)
Definition round_double (z : Z) : Z :=
  match binary_normalize prec emax z 0 false with
  | S754_zero _ => 0
  | S754_finite s m e => cond_Zopp s (Z.shiftl (Z.pos m) e)
  | _ => z
  end.

(** The product of two numbers, by the dtypes of their columns: doubles
    when a side is a [float64] column, [int64] when both sides are [int64]
    columns, and Python integers, which do not wrap, when a side is a column
    of objects and the other holds no double. *)
Definition num_mul (da db : dtype) (x y : Z) : Z :=
  match da, db with
  | Float64, _ | _, Float64 => round_double (round_double x * round_double y)
  | Int64, Int64 => int64_wrap (x * y)
  | _, _ => x * y
  end.

(** Elementwise [*] on one pair of cells, given the dtypes of the two
    columns.  Numbers multiply, and a missing operand gives a missing
    result.  A string is repeated by an integer, not at all by a negative
    one; it cannot be multiplied by a double, by a missing value (a double
    in Python) or by a string. *)
Definition cell_mul (da db : dtype) (a b : cell) : result cell :=
  match a, b with
  | CStr s, CNum n =>
      match db with
      | Float64 => Raise (TypeError "can't multiply sequence by non-int of type 'float'")
      | _ => Ok (CStr (str_repeat s (Z.to_nat n)))
      end
  | CNum n, CStr s =>
      match da with
      | Float64 => Raise (TypeError "can't multiply sequence by non-int of type 'float'")
      | _ => Ok (CStr (str_repeat s (Z.to_nat n)))
      end
  | CStr _, CStr _ => Raise (TypeError "can't multiply sequence by non-int of type 'str'")
  | CStr _, CNaN | CNaN, CStr _ =>
      Raise (TypeError "can't multiply sequence by non-int of type 'float'")
  | CNum x, CNum y => Ok (CNum (num_mul da db x y))
  | CNaN, _ | _, CNaN => Ok CNaN
  end.

Fixpoint mul_cells (da db : dtype) (a b : column) : result column :=
  match a, b with
  | x :: a', y :: b' =>
      z ← cell_mul da db x y; rest ← mul_cells da db a' b'; Ok (z :: rest)
  | _, _ => Ok []
  end.

(** [a * b] on two series with the same row labels. *)
Definition series_mul (a b : column) : result column :=
  mul_cells (dtype_of a) (dtype_of b) a b.

(** [np.where(series == lit, 1, 0)] *)
Definition eq_lit (lit : string) (c : cell) : bool :=
  match c with CStr s => String.eqb s lit | _ => false end.

Definition np_where (cond : list bool) (a b : Z) : column :=
  map (fun t : bool => CNum (if t then a else b)) cond.

(** ** Calendar fields of a [datetime64[ns]] value

    pandas stores a timestamp as a count of nanoseconds since 1970-01-01
    00:00; [.year], [.month], [.weekday] and [.hour] are read off that count
    in the proleptic Gregorian calendar, Monday being weekday 0. *)

Definition ns_per_hour : Z := 3600000000000.
Definition ns_per_day : Z := 24 * ns_per_hour.

Definition days_of_ns (ns : Z) : Z := ns / ns_per_day.

(** Year and month of a day count (days since 1970-01-01), by eras of 400
    years starting on 1 March. *)
Definition civil_of_days (days : Z) : Z * Z :=
  let z := days + 719468 in
  let era := z / 146097 in
  let doe := z - era * 146097 in
  let yoe := (doe - doe / 1460 + doe / 36524 - doe / 146096) / 365 in
  let doy := doe - (365 * yoe + yoe / 4 - yoe / 100) in
  let mp := (5 * doy + 2) / 153 in
  let m := if mp <? 10 then mp + 3 else mp - 9 in
  let y := yoe + era * 400 in
  (if m <=? 2 then y + 1 else y, m).

Definition dt_year (ns : Z) : Z := fst (civil_of_days (days_of_ns ns)).
Definition dt_month (ns : Z) : Z := snd (civil_of_days (days_of_ns ns)).
Definition dt_weekday (ns : Z) : Z := (days_of_ns ns + 3) mod 7.
Definition dt_hour (ns : Z) : Z := (ns mod ns_per_day) / ns_per_hour.

(** A field of a [DatetimeIndex] entry: NaT has no fields, and the
    accessor yields NaN there. *)
Definition dt_field (f : Z -> Z) (t : option Z) : cell :=
  match t with
  | Some ns => CNum (f ns)
  | None => CNaN
  end.

(** ** [LabelEncoder] *)

Record LabelEncoder : Type := mkLabelEncoder {
  classes_ : option (list cell)
}.

(** [LabelEncoder()] *)
Definition LabelEncoder_new : LabelEncoder := mkLabelEncoder None.

(** The order [sorted] uses inside one column: strings by code point,
    numbers by value.  Columns that mix the two are rejected before any
    comparison is made. *)
Definition cell_leb (a b : cell) : bool :=
  match a, b with
  | CStr x, CStr y => String.leb x y
  | CNum x, CNum y => x <=? y
  | CStr _, _ => false
  | _, CStr _ => true
  | CNum _, CNaN => true
  | CNaN, _ => false
  end.

Definition cell_le (a b : cell) : Prop := cell_leb a b = true.

#[global] Instance cell_le_dec : RelDecision cell_le.
Proof. intros a b. unfold cell_le. apply _. Defined.

(** The distinct values of a column, sorted, a missing value last. *)
Definition unique (y : column) : result (list cell) :=
  if existsb is_str y && existsb is_num y
  then Raise (TypeError "Encoders require their input argument must be uniformly strings or numbers.")
  else Ok (merge_sort cell_le (remove_dups (List.filter (fun c => negb (isna c)) y))
           ++ (if existsb isna y then [CNaN] else []))%list.

Fixpoint index_of (v : cell) (l : list cell) : option nat :=
  match l with
  | [] => None
  | x :: rest => if decide (x = v) then Some O else S <$> index_of v rest
  end.

(** The code of each value: its position among the classes. *)
Definition encode (classes : list cell) (y : column) : result column :=
  mapM (fun v => match index_of v classes with
                 | Some i => Ok (CNum (Z.of_nat i))
                 | None => Raise (ValueError "y contains previously unseen labels")
                 end) y.

(** [le.fit_transform(y)]: the fitted encoder and the codes.  Whatever the
    encoder held before is overwritten. *)
Definition fit_transform (le : LabelEncoder) (y : column)
  : result (LabelEncoder * column) :=
  classes ← unique y;
  codes ← encode classes y;
  Ok (mkLabelEncoder (Some classes), codes).

(** [le.inverse_transform(codes)], the decoder that goes with an encoder. *)
Definition inverse_transform (le : LabelEncoder) (codes : column) : result column :=
  match classes_ le with
  | None => Raise NotFittedError
  | Some classes =>
      mapM (fun c => match c with
                     | CNum z =>
                         match (if 0 <=? z then classes !! Z.to_nat z else None) with
                         | Some v => Ok v
                         | None => Raise (ValueError "y contains previously unseen labels")
                         end
                     | _ => Raise (ValueError "y contains previously unseen labels")
                     end) codes
  end.

(** ** [preprocess_data] *)

Definition dropped_first : list string :=
  ["Customer Email"; "Product Status"; "Customer Password"; "Customer Street";
   "Customer Fname"; "Customer Lname"; "Latitude"; "Longitude";
   "Product Description"; "Product Image"; "Order Zipcode";
   "shipping date (DateOrders)"].

Definition dropped_second : list string :=
  ["Delivery Status"; "Late_delivery_risk"; "Order Status"; "order date (DateOrders)"].

Definition categorical_columns : list string :=
  ["Customer Country"; "Market"; "Type"; "Product Name"; "Customer Segment";
   "Customer State"; "Order Region"; "Order City"; "Category Name";
   "Customer City"; "Department Name"; "Order State"; "Shipping Mode";
   "order_week_day"; "Order Country"; "Customer Full Name"].

(** The loop of lines 72-73: one encoder object, refitted on each column in
    turn; the codes replace the column. *)
Fixpoint encode_columns (le : LabelEncoder) (data : DataFrame) (cols : list string)
  : result (LabelEncoder * DataFrame) :=
  match cols with
  | [] => Ok (le, data)
  | col :: rest =>
      y ← getitem data col;
      '(le, codes) ← fit_transform le y;
      data ← setitem data col codes;
      encode_columns le data rest
  end.

(** The count pandas reserves for NaT, the smallest [int64]. *)
Definition iNaT : Z := - 2 ^ 63.

(** A count read as an entry of a [DatetimeIndex]: NaT or a timestamp. *)
Definition stamp (ns : Z) : option Z :=
  if ns =? iNaT then None else Some ns.

(** The strings pandas takes for NaT wherever it reads dates. *)
Definition nat_strings : list string := ["NaT"; "nat"; "NAT"; "nan"; "NaN"; "NAN"].

Definition is_nat_string (s : string) : bool :=
  String.eqb s "" || mem_string s nat_strings.

(** [tslib.first_non_null]: the first entry that is neither missing nor a
    string for NaT or for the current time. *)
Definition is_null_date (x : cell) : bool :=
  match x with
  | CNaN => true
  | CStr s => is_nat_string s || mem_string s ["now"; "today"]
  | CNum _ => false
  end.

Definition first_non_null (c : column) : option cell :=
  List.find (fun x => negb (is_null_date x)) c.

Section Preprocess.

(** What pandas makes of one date string when it reads the strings one by
    one ([pd.DatetimeIndex], and [pd.to_datetime] when it infers no
    format): the nanosecond count, the count [iNaT] for a string that
    stands for NaT, or nothing when the string is not a date. *)
Variable parse_datetime : string -> option Z.

(** The format [pd.to_datetime] infers from the first date string, if it
    infers one, and the reading of a string in a given format, which is
    strict: nothing when the string is not written in that format. *)
Variable guess_datetime_format : string -> option string.
Variable strptime : string -> string -> option Z.

(** One entry of the column: a string is read by the parser, a number is
    the nanosecond count itself and has to be an [int64], and a missing
    value is NaT. *)
Definition to_timestamp (c : cell) : result (option Z) :=
  match c with
  | CStr s =>
      match parse_datetime s with
      | Some ns => Ok (stamp ns)
      | None => Raise (ValueError "Unknown datetime string format")
      end
  | CNum z =>
      if (- 2 ^ 63 <=? z) && (z <? 2 ^ 63) then Ok (stamp z)
      else Raise (ValueError "Out of bounds nanosecond timestamp")
  | CNaN => Ok None
  end.

(** [pd.DatetimeIndex(series)] *)
Definition DatetimeIndex (c : column) : result (list (option Z)) :=
  mapM to_timestamp c.

(** One entry read in an inferred format.  An entry that is not a string
    is read through its text. *)
Definition strptime_cell (fmt : string) (c : cell) : result (option Z) :=
  let read s :=
    match strptime fmt s with
    | Some ns => Ok (stamp ns)
    | None => Raise (ValueError "time data doesn't match format")
    end in
  match c with
  | CStr s => if is_nat_string s then Ok None else read s
  | CNum z => if z =? iNaT then Ok None else read (int_text z)
  | CNaN => Ok None
  end.

(** [pd.to_datetime(series)], each timestamp carried as its nanoseconds.
    When the first date is a string and a format is inferred from it, every
    entry is read in that format; otherwise the entries are read one by one
    as [pd.DatetimeIndex] reads them.  (pandas before 2 always read them
    one by one.) *)
Definition to_datetime (c : column) : result column :=
  map (dt_field (fun ns => ns)) <$>
    match first_non_null c with
    | Some (CStr s0) =>
        match guess_datetime_format s0 with
        | Some fmt => mapM (strptime_cell fmt) c
        | None => DatetimeIndex c
        end
    | _ => DatetimeIndex c
    end.

(** Lines 37-64: the derived columns and the two drops.  The first
    assignment changes the caller's table in place; the caller does not
    read it again, and only the returned table is kept here.  Every series
    assigned carries the table's own row labels, so an assignment goes
    position by position.  The local [present] of line 56 is never read
    and is left out. *)
Definition derive_columns (dataset : DataFrame) : result DataFrame :=
  fname ← getitem dataset "Customer Fname";
  lname ← getitem dataset "Customer Lname";
  dataset ← setitem dataset "Customer Full Name"
              (str_add (astype_str fname) (astype_str lname));
  data ← df_drop dataset dropped_first;
  zipcode ← getitem data "Customer Zipcode";
  data ← setitem data "Customer Zipcode" (fillna (CNum 0) zipcode);
  d ← getitem data "order date (DateOrders)";
  ix ← DatetimeIndex d;
  data ← setitem data "order_year" (map (dt_field dt_year) ix);
  d ← getitem data "order date (DateOrders)";
  ix ← DatetimeIndex d;
  data ← setitem data "order_month" (map (dt_field dt_month) ix);
  d ← getitem data "order date (DateOrders)";
  ix ← DatetimeIndex d;
  data ← setitem data "order_week_day" (map (dt_field dt_weekday) ix);
  d ← getitem data "order date (DateOrders)";
  ix ← DatetimeIndex d;
  data ← setitem data "order_hour" (map (dt_field dt_hour) ix);
  qty ← getitem data "Order Item Quantity";
  tot ← getitem data "Order Item Total";
  price ← series_mul qty tot;
  data ← setitem data "TotalPrice" price;
  d ← getitem data "order date (DateOrders)";
  stamps ← to_datetime d;
  data ← setitem data "order date (DateOrders)" stamps;
  status ← getitem data "Order Status";
  data ← setitem data "fraud" (np_where (map (eq_lit "SUSPECTED_FRAUD") status) 1 0);
  delivery ← getitem data "Delivery Status";
  data ← setitem data "late_delivery" (np_where (map (eq_lit "Late delivery") delivery) 1 0);
  df_drop data dropped_second.

Definition preprocess_data (dataset : DataFrame) : result DataFrame :=
  data ← derive_columns dataset;
  '(_, data) ← encode_columns LabelEncoder_new data categorical_columns;
  Ok data.

End Preprocess.

(** ** [train_test_split] and [split_data] *)

(** [df.iloc[rows]] on one column: positional selection. *)
Definition take_rows {A : Type} (rows : list nat) (l : list A) : result (list A) :=
  mapM (fun i => match l !! i with
                 | Some x => Ok x
                 | None => Raise IndexError
                 end) rows.

Definition iloc (df : DataFrame) (rows : list nat) : result DataFrame :=
  ix ← take_rows rows (index df);
  cols ← mapM (fun kc : string * column =>
                 c ← take_rows rows (snd kc); Ok (fst kc, c)) (columns df);
  Ok (mkDataFrame ix cols).

Definition iloc_series (s : Series) (rows : list nat) : result Series :=
  ix ← take_rows rows (s_index s);
  v ← take_rows rows (s_values s);
  Ok (mkSeries ix v).

(** [ceil(test_size * n_samples)].  The source passes the double nearest to
    0.2; for every row count below 2^50 the rounded double product has the
    ceiling of the exact fifth, which is what is computed here. *)
Definition n_test_of (test_size : Q) (n_samples : nat) : nat :=
  Z.to_nat (Qceiling (test_size * inject_Z (Z.of_nat n_samples))).

(** The size validation of [train_test_split] when only [test_size] is
    given, as a fraction. *)
Definition validate_shuffle_split (n_samples : nat) (test_size : Q)
  : result (nat * nat) :=
  if Qle_bool test_size 0 || Qle_bool 1 test_size
  then Raise (ValueError "test_size should be in the (0, 1) range")
  else
    let n_test := n_test_of test_size n_samples in
    let n_train := (n_samples - n_test)%nat in
    if Nat.eqb n_train 0
    then Raise (ValueError "the resulting train set will be empty")
    else Ok (n_train, n_test).

(** Exchange of two entries of an array. *)
Definition swap (l : list nat) (i j : nat) : list nat :=
  match l !! i, l !! j with
  | Some a, Some b => <[i := b]> (<[j := a]> l)
  | _, _ => l
  end.

Section Split.

(** The state of a NumPy [RandomState], its seeding, and one bounded draw:
    [random_interval s m] is a number between 0 and [m], both included. *)
Variable rng : Type.
Variable RandomState : Z -> rng.
Variable random_interval : rng -> nat -> nat * rng.

(** [RandomState.shuffle]: for [i] from the last position down to 1, the
    entry at [i] is exchanged with the one at a drawn position [j <= i]. *)
Fixpoint shuffle (s : rng) (i : nat) (l : list nat) : list nat * rng :=
  match i with
  | O => (l, s)
  | S i' =>
      let '(j, s') := random_interval s i in
      shuffle s' i' (swap l i j)
  end.

(** [RandomState.permutation(n)] *)
Definition permutation (s : rng) (n : nat) : list nat * rng :=
  shuffle s (n - 1) (seq 0 n).

(** [train_test_split(X, y, test_size=..., random_state=...)]: a generator
    is created from the seed on every call, the first [n_test] entries of
    its permutation are the test rows and the next [n_train] the train
    rows. *)
Definition train_test_split (X : DataFrame) (y : Series) (test_size : Q)
    (random_state : Z) : result (DataFrame * DataFrame * Series * Series) :=
  if negb (Nat.eqb (nrows X) (length (s_index y)))
  then Raise (ValueError "Found input variables with inconsistent numbers of samples")
  else
    '(n_train, n_test) ← validate_shuffle_split (nrows X) test_size;
    let perm := fst (permutation (RandomState random_state) (nrows X)) in
    let test := take n_test perm in
    let train := take n_train (drop n_test perm) in
    X_train ← iloc X train;
    X_test ← iloc X test;
    y_train ← iloc_series y train;
    y_test ← iloc_series y test;
    Ok (X_train, X_test, y_train, y_test).

(** Line 81: every column whose name differs from the target. *)
Definition features_of (data : DataFrame) (target_col : string) : DataFrame :=
  mkDataFrame (index data)
    (List.filter (fun kc => negb (String.eqb (fst kc) target_col)) (columns data)).

Definition split_data (data : DataFrame) (target_col : string)
  : result (DataFrame * DataFrame * Series * Series) :=
  let X := features_of data target_col in
  y ← getitem data target_col;
  train_test_split X (mkSeries (index data) y) (1 # 5) 42.

End Split.

(** ** [StandardScaler] and [standardize_data] *)

(** A two-dimensional [float64] array, row by row. *)
Abbreviation ndarray := (list (list float)).

Record scaler_stats : Type := mkStats {
  mean_ : list float;
  scale_ : list float
}.

(** A scaler object: nothing learned yet, or the statistics of a fit. *)
Abbreviation StandardScaler := (option scaler_stats).

Definition StandardScaler_new : StandardScaler := None.

Definition float_of_nat (n : nat) : float :=
  PrimFloat.of_uint63 (Uint63.of_Z (Z.of_nat n)).

(** ** [np.sum] over one column

    The columns of a table lie one after the other in memory, and NumPy adds
    a run of doubles that way: fewer than eight one by one; up to 128 in
    eight lanes, entry [i] going to lane [i mod 8], the lanes then added two
    by two and the entries after the last full block of eight one by one;
    more than 128 in two parts, the first a multiple of eight, each summed
    this way.  A reduction over no entry gives 0; any other starts from the
    negative zero, which added to a double leaves it as it is, its sign
    included. *)

Definition lane (a : list float) (k : nat) : float :=
  fold_left PrimFloat.add
    (map (fun b => nth (8 * b + k) a 0%float) (seq 1 (length a / 8 - 1)))
    (nth k a 0%float).

Definition sum_unrolled (a : list float) : float :=
  fold_left PrimFloat.add (drop (8 * (length a / 8)) a)
    (((lane a 0 + lane a 1) + (lane a 2 + lane a 3))
     + ((lane a 4 + lane a 5) + (lane a 6 + lane a 7)))%float.

Fixpoint pairwise_sum_rec (fuel : nat) (a : list float) : float :=
  if (length a <? 8)%nat then fold_left PrimFloat.add a (-0)%float
  else if (length a <=? 128)%nat then sum_unrolled a
  else
    match fuel with
    | O => 0%float
    | S fuel' =>
        let n2 := (length a / 2 - (length a / 2) mod 8)%nat in
        (pairwise_sum_rec fuel' (take n2 a) + pairwise_sum_rec fuel' (drop n2 a))%float
    end.

Definition pairwise_sum (a : list float) : float := pairwise_sum_rec (length a) a.

Definition np_sum (a : list float) : float :=
  match a with [] => 0%float | _ => (-0 + pairwise_sum a)%float end.

(** [np.nansum]: the sum with every NaN taken as 0. *)
Definition nan_to_zero (x : float) : float :=
  if PrimFloat.is_nan x then 0%float else x.

Definition np_nansum (a : list float) : float := np_sum (map nan_to_zero a).

Definition n_features (X : ndarray) : nat :=
  match X with [] => O | row :: _ => length row end.

Definition column_of (j : nat) (X : ndarray) : list float :=
  map (fun row => nth j row nan) X.

Definition has_nan (X : ndarray) : bool := existsb (existsb PrimFloat.is_nan) X.

(** The sum the scaler takes over a column: [np.nansum] when the matrix
    holds a NaN anywhere, [np.sum] otherwise. *)
Definition sum_op (nans : bool) (c : list float) : float :=
  if nans then np_nansum c else np_sum c.

(** The count of the entries of a column that are not NaN: the scaler
    ignores NaN when it fits. *)
Definition n_observed (c : list float) : float :=
  float_of_nat (length (List.filter (fun x => negb (PrimFloat.is_nan x)) c)).

(** The first fit of [_incremental_mean_and_var]: the mean is the sum over
    the count, and the variance comes from a second pass over the
    deviations from it, corrected by their sum. *)
Definition col_mean (nans : bool) (c : list float) : float :=
  ((0 + sum_op nans c) / n_observed c)%float.

Definition col_var (nans : bool) (c : list float) : float :=
  let n := n_observed c in
  let dev := map (fun x => (x - sum_op nans c / n)%float) c in
  ((sum_op nans (map (fun d => (d * d)%float) dev)
    - sum_op nans dev * sum_op nans dev / n) / n)%float.

(** The machine epsilon of a double. *)
Definition eps : float := 0x1p-52%float.

(** [_is_constant_feature]: a variance within rounding of 0. *)
Definition is_constant_feature (var mean n : float) : bool :=
  (var <=? n * eps * var + (n * mean * eps) * (n * mean * eps))%float.

(** The standard deviation, 1 for a constant feature. *)
Definition col_scale (nans : bool) (c : list float) : float :=
  let var := col_var nans c in
  if is_constant_feature var (col_mean nans c) (n_observed c)
  then 1%float else PrimFloat.sqrt var.

(** Input validation of the scaler: at least one row and one feature, and
    no infinite entry. *)
Definition check_array (X : ndarray) : result ndarray :=
  match X with
  | [] => Raise (ValueError "Found array with 0 sample(s)")
  | row :: _ =>
      if Nat.eqb (length row) 0
      then Raise (ValueError "Found array with 0 feature(s)")
      else if existsb (existsb PrimFloat.is_infinity) X
      then Raise (ValueError "Input X contains infinity")
      else Ok X
  end.

(** [scaler.fit(X)] *)
Definition fit (X : ndarray) : result scaler_stats :=
  X ← check_array X;
  let cols := map (fun j => column_of j X) (seq 0 (n_features X)) in
  Ok (mkStats (map (col_mean (has_nan X)) cols) (map (col_scale (has_nan X)) cols)).

Fixpoint scale_row (row means scales : list float) : list float :=
  match row, means, scales with
  | x :: row', m :: means', s :: scales' =>
      ((x - m) / s)%float :: scale_row row' means' scales'
  | _, _, _ => []
  end.

(** [scaler.transform(X)] *)
Definition transform (scaler : StandardScaler) (X : ndarray) : result ndarray :=
  match scaler with
  | None => Raise NotFittedError
  | Some st =>
      X ← check_array X;
      if negb (Nat.eqb (n_features X) (length (mean_ st)))
      then Raise (ValueError "X has a different number of features than the scaler was fitted with")
      else Ok (map (fun row => scale_row row (mean_ st) (scale_ st)) X)
  end.

(** [scaler.fit_transform(X)]: fit, then transform with what was fitted. *)
Definition scaler_fit_transform (scaler : StandardScaler) (X : ndarray)
  : result (StandardScaler * ndarray) :=
  st ← fit X;
  Xs ← transform (Some st) X;
  Ok (Some st, Xs).

(** [standardize_data], together with the scaler object it leaves behind.
    The two feature tables are taken as the [float64] arrays that the
    scaler's input validation makes of them. *)
Definition standardize_data_scaler (X_train X_test : ndarray)
  : result (StandardScaler * (ndarray * ndarray)) :=
  let scaler := StandardScaler_new in
  '(scaler, X_train) ← scaler_fit_transform scaler X_train;
  X_test ← transform scaler X_test;
  Ok (scaler, (X_train, X_test)).

Definition standardize_data (X_train X_test : ndarray) : result (ndarray * ndarray) :=
  snd <$> standardize_data_scaler X_train X_test.

(** ** [evaluate_model] and [run_models] *)

(** The nine estimators of the roster, by class. *)
Inductive classifier : Type :=
  | LogisticRegression
  | GaussianNB
  | LinearSVC
  | KNeighborsClassifier
  | LinearDiscriminantAnalysis
  | RandomForestClassifier
  | ExtraTreesClassifier
  | XGBClassifier
  | DecisionTreeClassifier.

#[global] Instance classifier_eq_dec : EqDecision classifier.
Proof. solve_decision. Defined.

(** [model.__class__.__name__] *)
Definition class_name (c : classifier) : string :=
  match c with
  | LogisticRegression => "LogisticRegression"
  | GaussianNB => "GaussianNB"
  | LinearSVC => "LinearSVC"
  | KNeighborsClassifier => "KNeighborsClassifier"
  | LinearDiscriminantAnalysis => "LinearDiscriminantAnalysis"
  | RandomForestClassifier => "RandomForestClassifier"
  | ExtraTreesClassifier => "ExtraTreesClassifier"
  | XGBClassifier => "XGBClassifier"
  | DecisionTreeClassifier => "DecisionTreeClassifier"
  end.

(** The list built at lines 125-133, in order. *)
Definition roster : list classifier :=
  [LogisticRegression; GaussianNB; LinearSVC; KNeighborsClassifier;
   LinearDiscriminantAnalysis; RandomForestClassifier; ExtraTreesClassifier;
   XGBClassifier; DecisionTreeClassifier].

(** One entry of [results]. *)
Record result_row : Type := mkRow {
  Model : string;
  Fraud_Detection_Accuracy : float;
  Fraud_Detection_Recall : float;
  Fraud_Detection_F1 : float;
  Late_Delivery_Accuracy : float;
  Late_Delivery_Recall : float;
  Late_Delivery_F1 : float
}.

(** What the run does to the outside and to its model objects, in order:
    a call of [fit] on the object at an address (and whether that object
    had been fitted before), a call of [predict], and the writing of the
    results file. *)
Inductive event : Type :=
  | EvFit (m : nat) (target_name : string) (refit : bool)
  | EvPredict (m : nat) (target_name : string)
  | EvToCsv (path : string) (rows : list result_row).

Section Runner.

(** What an estimator learns, the state of the global NumPy generator that
    randomised estimators draw from, the learning and the prediction of
    each class, and the metrics of scikit-learn. *)
Variable params : Type.
Variable entropy : Type.
Variable learn : classifier -> entropy -> ndarray -> Series -> entropy * result params.
Variable predict_with : classifier -> params -> ndarray -> result column.
Variable accuracy_score : Series -> column -> result float.
Variable recall_score : Series -> column -> result float.
Variable f1_score : Series -> column -> result float.
Variable confusion_matrix : Series -> column -> result (list (list nat)).

(** A model object: its class and what its last successful [fit] left. *)
Record model_obj : Type := mkModel {
  cls : classifier;
  learned : option params
}.

(** The store of model objects (an object is known by its address), the
    global generator, and the events so far. *)
Record world : Type := mkWorld {
  heap : list model_obj;
  np_random : entropy;
  trace : list event
}.

(** A computation that reads and changes the world and may raise; what it
    changed before raising stays changed. *)
Definition M (A : Type) : Type := world -> world * result A.

#[global] Instance M_ret : MRet M := fun A a w => (w, Ok a).
#[global] Instance M_bind : MBind M := fun A B f m w =>
  match m w with
  | (w', Ok a) => f a w'
  | (w', Raise e) => (w', Raise e)
  end.

Definition lift {A : Type} (r : result A) : M A := fun w => (w, r).

Definition emit (e : event) : M unit :=
  fun w => (mkWorld (heap w) (np_random w) (trace w ++ [e]), Ok tt).

Definition deref (m : nat) : M model_obj :=
  fun w => match heap w !! m with
           | Some o => (w, Ok o)
           | None => (w, Raise IndexError)
           end.

(** The learning itself: on success the object at [m] holds the new
    parameters in place of whatever it held. *)
Definition relearn (m : nat) (c : classifier) (X : ndarray) (y : Series) : M unit :=
  fun w =>
    let '(g, r) := learn c (np_random w) X y in
    match r with
    | Ok p => (mkWorld (<[m := mkModel c (Some p)]> (heap w)) g (trace w), Ok tt)
    | Raise e => (mkWorld (heap w) g (trace w), Raise e)
    end.

(** [model.fit(X, y)] *)
Definition model_fit (m : nat) (target_name : string) (X : ndarray) (y : Series)
  : M unit :=
  o ← deref m;
  _ ← emit (EvFit m target_name (bool_decide (is_Some (learned o))));
  relearn m (cls o) X y.

(** [model.predict(X)] *)
Definition model_predict (m : nat) (target_name : string) (X : ndarray) : M column :=
  o ← deref m;
  _ ← emit (EvPredict m target_name);
  match learned o with
  | Some p => lift (predict_with (cls o) p X)
  | None => lift (Raise NotFittedError)
  end.

Definition evaluate_model (model : nat) (X_train X_test : ndarray)
    (y_train y_test : Series) (target_name : string) : M (float * float * float) :=
  _ ← model_fit model target_name X_train y_train;
  y_pred ← model_predict model target_name X_test;
  accuracy ← lift (accuracy_score y_test y_pred);
  recall ← lift (recall_score y_test y_pred);
  f1 ← lift (f1_score y_test y_pred);
  conf_matrix ← lift (confusion_matrix y_test y_pred);
  mret (accuracy, recall, f1).

(** A call of [evaluate_model] for a classifier of class [c] on some data
    can raise [e]: its fit, its prediction or one of the four metrics
    raises it. *)
Definition call_raises (c : classifier) (X_train X_test : ndarray)
    (y_train y_test : Series) (e : exn) : Prop :=
  (exists g, snd (learn c g X_train y_train) = Raise e) \/
  (exists p, predict_with c p X_test = Raise e) \/
  (exists y_pred,
     accuracy_score y_test y_pred = Raise e \/
     recall_score y_test y_pred = Raise e \/
     f1_score y_test y_pred = Raise e \/
     confusion_matrix y_test y_pred = Raise e).

(** The construction of the nine model objects: fresh, unfitted, at the
    next nine addresses. *)
Definition new_models : M (list nat) :=
  fun w =>
    (mkWorld (heap w ++ map (fun c => mkModel c None) roster) (np_random w) (trace w),
     Ok (seq (length (heap w)) (length roster))).

Section Loop.

Variables X_train_f X_test_f : ndarray.
Variables y_train_f y_test_f : Series.
Variables X_train_l X_test_l : ndarray.
Variables y_train_l y_test_l : Series.

(** The body of the loop of lines 136-151, for the models still to run
    and the rows collected so far. *)
Fixpoint run_loop (models : list nat) (results : list result_row)
  : M (list result_row) :=
  match models with
  | [] => mret results
  | model :: rest =>
      '(acc_f, recall_f, f1_f) ←
        evaluate_model model X_train_f X_test_f y_train_f y_test_f "fraud";
      '(acc_l, recall_l, f1_l) ←
        evaluate_model model X_train_l X_test_l y_train_l y_test_l "late_delivery";
      o ← deref model;
      run_loop rest
        (results ++ [mkRow (class_name (cls o)) acc_f recall_f f1_f acc_l recall_l f1_l])
  end.

(** What a roster entry of class [c] that ran to its end went through: both
    fits and both predictions returned, and [p] is what the second fit, on
    the late-delivery data, learned. *)
Definition ran (c : classifier) (p : params) : Prop :=
  exists g1 p1 yp1 g2 yp2,
    snd (learn c g1 X_train_f y_train_f) = Ok p1 /\
    predict_with c p1 X_test_f = Ok yp1 /\
    snd (learn c g2 X_train_l y_train_l) = Ok p /\
    predict_with c p X_test_l = Ok yp2.

(** What the numbers of a results row of class [c] are: the three scores,
    against the fraud test labels, of the predictions on the fraud test
    matrix of what a fit on the fraud train data learned, and the same for
    the late-delivery data, the second fit starting from the generator
    state the first left. *)
Definition scored (c : classifier) (row : result_row) : Prop :=
  exists g p1 yp1 p2 yp2,
    snd (learn c g X_train_f y_train_f) = Ok p1 /\
    predict_with c p1 X_test_f = Ok yp1 /\
    accuracy_score y_test_f yp1 = Ok (Fraud_Detection_Accuracy row) /\
    recall_score y_test_f yp1 = Ok (Fraud_Detection_Recall row) /\
    f1_score y_test_f yp1 = Ok (Fraud_Detection_F1 row) /\
    snd (learn c (fst (learn c g X_train_f y_train_f)) X_train_l y_train_l) = Ok p2 /\
    predict_with c p2 X_test_l = Ok yp2 /\
    accuracy_score y_test_l yp2 = Ok (Late_Delivery_Accuracy row) /\
    recall_score y_test_l yp2 = Ok (Late_Delivery_Recall row) /\
    f1_score y_test_l yp2 = Ok (Late_Delivery_F1 row).

Definition run_models : M (list result_row) :=
  models ← new_models;
  results ← run_loop models [];
  _ ← emit (EvToCsv "model_results.txt" results);
  mret results.

End Loop.

End Runner.

(** ** [load_data] and [main] *)

(** The double nearest to a whole number. *)
Definition float_of_Z (z : Z) : float :=
  SF2Prim (binary_normalize prec emax z 0 false).

Section Main.

(** The file system as [pd.read_csv] sees it, the conversion of a numeric
    string to a double, and the platform pieces of the earlier sections. *)
Variable read_csv : string -> result DataFrame.
Variable float_of_string : string -> option float.
Variable parse_datetime : string -> option Z.
Variable guess_datetime_format : string -> option string.
Variable strptime : string -> string -> option Z.
Variable rng : Type.
Variable RandomState : Z -> rng.
Variable random_interval : rng -> nat -> nat * rng.
Variable params : Type.
Variable entropy : Type.
Variable learn : classifier -> entropy -> ndarray -> Series -> entropy * result params.
Variable predict_with : classifier -> params -> ndarray -> result column.
Variable accuracy_score : Series -> column -> result float.
Variable recall_score : Series -> column -> result float.
Variable f1_score : Series -> column -> result float.
Variable confusion_matrix : Series -> column -> result (list (list nat)).

(** [load_data]: the table [pd.read_csv] makes of the file. *)
Definition load_data (file_path : string) : result DataFrame := read_csv file_path.

Definition float_of_cell (c : cell) : result float :=
  match c with
  | CNum z => Ok (float_of_Z z)
  | CNaN => Ok nan
  | CStr s =>
      match float_of_string s with
      | Some f => Ok f
      | None => Raise (ValueError "could not convert string to float")
      end
  end.

(** The [float64] array the scaler's input validation makes of a table,
    row by row. *)
Definition to_ndarray (df : DataFrame) : result ndarray :=
  mapM (fun i =>
          mapM (fun kc : string * column =>
                  match snd kc !! i with
                  | Some c => float_of_cell c
                  | None => Raise IndexError
                  end) (columns df))
    (seq 0 (nrows df)).

(** [main]: the table is read and preprocessed once, split and scaled
    once per target, and the eight parts go to [run_models]. *)
Definition main : M params entropy (list result_row) :=
  dataset ← lift params entropy (load_data "数据集/DataCoSupplyChainDataset.csv");
  processed_data ← lift params entropy
                     (preprocess_data parse_datetime guess_datetime_format strptime dataset);
  '(X_train_f, X_test_f, y_train_f, y_test_f) ←
    lift params entropy
      (split_data rng RandomState random_interval processed_data "fraud");
  '(X_train_f, X_test_f) ←
    lift params entropy
      (a ← to_ndarray X_train_f; b ← to_ndarray X_test_f; standardize_data a b);
  '(X_train_l, X_test_l, y_train_l, y_test_l) ←
    lift params entropy
      (split_data rng RandomState random_interval processed_data "late_delivery");
  '(X_train_l, X_test_l) ←
    lift params entropy
      (a ← to_ndarray X_train_l; b ← to_ndarray X_test_l; standardize_data a b);
  run_models params entropy learn predict_with accuracy_score recall_score f1_score
    confusion_matrix X_train_f X_test_f y_train_f y_test_f
    X_train_l X_test_l y_train_l y_test_l.

End Main.

(** ** The views of a split that the statements below talk about *)

Section SplitViews.

Variable rng : Type.
Variable RandomState : Z -> rng.
Variable random_interval : rng -> nat -> nat * rng.

(** The positions [split_data] sends to the test side and to the train
    side of a table of [n] rows. *)
Definition test_rows (n : nat) : list nat :=
  take (n_test_of (1 # 5) n) (fst (permutation rng random_interval (RandomState 42) n)).

Definition train_rows (n : nat) : list nat :=
  take (n - n_test_of (1 # 5) n)
    (drop (n_test_of (1 # 5) n) (fst (permutation rng random_interval (RandomState 42) n))).

End SplitViews.

(** The row labels of the four parts of a split. *)
Definition split_labels (parts : DataFrame * DataFrame * Series * Series)
  : list nat * list nat * list nat * list nat :=
  let '(X_train, X_test, y_train, y_test) := parts in
  (index X_train, index X_test, s_index y_train, s_index y_test).

(** The addresses [fit] was called on for one target, in order of call. *)
Fixpoint fit_addresses (target_name : string) (evs : list event) : list nat :=
  match evs with
  | [] => []
  | EvFit m t _ :: rest =>
      if String.eqb t target_name
      then m :: fit_addresses target_name rest
      else fit_addresses target_name rest
  | _ :: rest => fit_addresses target_name rest
  end.

(** The files written, in order. *)
Fixpoint files_written (evs : list event) : list string :=
  match evs with
  | [] => []
  | EvToCsv path _ :: rest => path :: files_written rest
  | _ :: rest => files_written rest
  end.

(** The files written with the rows written to each, in order. *)
Fixpoint files_content (evs : list event) : list (string * list result_row) :=
  match evs with
  | [] => []
  | EvToCsv path rows :: rest => (path, rows) :: files_content rest
  | _ :: rest => files_content rest
  end.

(** The model object an event is a call on, if it is one. *)
Definition event_object (e : event) : option nat :=
  match e with
  | EvFit m _ _ => Some m
  | EvPredict m _ => Some m
  | EvToCsv _ _ => None
  end.

(** The calls on the object at one address, in order. *)
Definition calls_on (m : nat) (evs : list event) : list event :=
  List.filter (fun e => bool_decide (event_object e = Some m)) evs.

(** The four calls one roster entry goes through when nothing raises: its
    object, unfitted so far, is fitted and queried for the fraud target, and
    the same object, fitted by now, is fitted again and queried for the
    late-delivery target. *)
Definition model_events (m : nat) : list event :=
  [EvFit m "fraud" false; EvPredict m "fraud";
   EvFit m "late_delivery" true; EvPredict m "late_delivery"].

(** The table [derive_columns] builds from a table [ds], given the columns
    it computes on the way: the two drops and the nine assignments, in the
    order of the source. *)
Definition derived (ds : DataFrame) (full_name zipcode : column)
    (ix : list (option Z)) (price fraud late : column) : DataFrame :=
  mkDataFrame (index ds)
    (List.filter (fun kc => negb (mem_string (fst kc) dropped_second))
      (assign_col "late_delivery" late
      (assign_col "fraud" fraud
      (assign_col "order date (DateOrders)" (map (dt_field (fun ns => ns)) ix)
      (assign_col "TotalPrice" price
      (assign_col "order_hour" (map (dt_field dt_hour) ix)
      (assign_col "order_week_day" (map (dt_field dt_weekday) ix)
      (assign_col "order_month" (map (dt_field dt_month) ix)
      (assign_col "order_year" (map (dt_field dt_year) ix)
      (assign_col "Customer Zipcode" zipcode
      (List.filter (fun kc => negb (mem_string (fst kc) dropped_first))
      (assign_col "Customer Full Name" full_name (columns ds))))))))))))).

(** Two lists of columns with the same names that agree on the columns a
    drop of [labels] keeps. *)
Definition same_kept (labels : list string) (cols1 cols2 : list (string * column)) : Prop :=
  map fst cols1 = map fst cols2 /\
  List.filter (fun kc => negb (mem_string (fst kc) labels)) cols1
  = List.filter (fun kc => negb (mem_string (fst kc) labels)) cols2.

(** ** Sample inputs *)

Module Samples.

(** A parser that knows the timestamps of the sample tables. *)
Definition parse_datetime (s : string) : option Z :=
  if String.eqb s "1/31/2018 22:56" then Some 1517439360000000000
  else if String.eqb s "2/1/2018 0:00" then Some 1517443200000000000
  else if is_nat_string s then Some iNaT
  else None.

(** The format of those timestamps, inferred from either of them, and the
    reading of a string in it. *)
Definition guess_datetime_format (s : string) : option string :=
  if String.eqb s "1/31/2018 22:56" || String.eqb s "2/1/2018 0:00"
  then Some "%m/%d/%Y %H:%M" else None.

Definition strptime (fmt s : string) : option Z :=
  if String.eqb fmt "%m/%d/%Y %H:%M" && negb (is_nat_string s)
  then parse_datetime s else None.

Definition raw_table (fname lname zipcode dates quantity total status delivery
    category : column) (n : nat) : DataFrame :=
  mkDataFrame (seq 0 n)
    ([("Customer Fname", fname); ("Customer Lname", lname)]
     ++ map (fun k => (k, repeat CNaN n))
          ["Customer Email"; "Product Status"; "Customer Password";
           "Customer Street"; "Latitude"; "Longitude"; "Product Description";
           "Product Image"; "Order Zipcode"; "shipping date (DateOrders)";
           "Late_delivery_risk"]
     ++ [("Customer Zipcode", zipcode);
         ("order date (DateOrders)", dates);
         ("Order Item Quantity", quantity);
         ("Order Item Total", total);
         ("Order Status", status);
         ("Delivery Status", delivery)]
     ++ map (fun k => (k, category))
          ["Customer Country"; "Market"; "Type"; "Product Name";
           "Customer Segment"; "Customer State"; "Order Region"; "Order City";
           "Category Name"; "Customer City"; "Department Name"; "Order State";
           "Shipping Mode"; "Order Country"])%list.

(** Five orders; one has no zipcode, one no last name, one no delivery
    status. *)
Definition orders : DataFrame :=
  raw_table
    [CStr "Ann"; CStr "Bob"; CStr "Cy"; CStr "Di"; CStr "Ed"]
    [CStr "Lee"; CNaN; CStr "Kim"; CStr "Roe"; CStr "Poe"]
    [CNum 725; CNaN; CNum 95125; CNum 725; CNum 10001]
    [CStr "1/31/2018 22:56"; CStr "2/1/2018 0:00"; CStr "1/31/2018 22:56";
     CStr "2/1/2018 0:00"; CStr "2/1/2018 0:00"]
    [CNum 1; CNum 2; CNum 3; CNum 1; CNum 5]
    [CNum 10; CNum 20; CNum 30; CNum 40; CNum 50]
    [CStr "COMPLETE"; CStr "SUSPECTED_FRAUD"; CStr "suspected_fraud"; CNaN;
     CStr "SUSPECTED_FRAUD"]
    [CStr "Late delivery"; CNaN; CStr "Advance shipping"; CStr "Late delivery";
     CStr "late delivery"]
    [CStr "b"; CStr "a"; CStr "b"; CStr "c"; CStr "a"]
    5.

(** Three orders, the second with an empty date field. *)
Definition undated_order : DataFrame :=
  raw_table
    [CStr "Ann"; CStr "Bob"; CStr "Cy"]
    [CStr "Lee"; CStr "Ray"; CStr "Kim"]
    [CNum 725; CNum 725; CNum 95125]
    [CStr "1/31/2018 22:56"; CNaN; CStr "2/1/2018 0:00"]
    [CNum 1; CNum 2; CNum 3]
    [CNum 10; CNum 20; CNum 30]
    [CStr "COMPLETE"; CStr "SUSPECTED_FRAUD"; CStr "COMPLETE"]
    [CStr "Late delivery"; CStr "Late delivery"; CStr "Advance shipping"]
    [CStr "b"; CStr "a"; CStr "b"]
    3.

(** Three orders: one dated, one whose date field is the text [NaT], one
    with an empty date field. *)
Definition unread_dates : DataFrame :=
  raw_table
    [CStr "Ann"; CStr "Bob"; CStr "Cy"]
    [CStr "Lee"; CStr "Ray"; CStr "Kim"]
    [CNum 725; CNum 725; CNum 95125]
    [CStr "1/31/2018 22:56"; CStr "NaT"; CNaN]
    [CNum 1; CNum 2; CNum 3]
    [CNum 10; CNum 20; CNum 30]
    [CStr "COMPLETE"; CStr "SUSPECTED_FRAUD"; CStr "COMPLETE"]
    [CStr "Late delivery"; CStr "Late delivery"; CStr "Advance shipping"]
    [CStr "b"; CStr "a"; CStr "b"]
    3.

(** One order, complete. *)
Definition single_order : DataFrame :=
  raw_table [CStr "Ann"] [CStr "Lee"] [CNum 725] [CStr "1/31/2018 22:56"]
    [CNum 1] [CNum 10] [CStr "COMPLETE"] [CStr "Late delivery"] [CStr "b"] 1.

(** The sample orders after preprocessing. *)
Definition processed_orders : DataFrame :=
  Eval vm_compute in
    match preprocess_data parse_datetime guess_datetime_format strptime orders with
    | Ok data => data
    | Raise _ => mkDataFrame [] []
    end.

(** The orders with unread dates after preprocessing. *)
Definition processed_unread_dates : DataFrame :=
  Eval vm_compute in
    match preprocess_data parse_datetime guess_datetime_format strptime unread_dates with
    | Ok data => data
    | Raise _ => mkDataFrame [] []
    end.

(** A linear congruential generator standing for the NumPy one. *)
Definition lcg_seed (seed : Z) : Z := seed.

Definition lcg_interval (s : Z) (m : nat) : nat * Z :=
  (Z.to_nat (s mod (Z.of_nat m + 1)), (s * 1103515245 + 12345) mod 2147483648).

(** An estimator that learns the most recent training label and predicts
    it for every row; [failing] names a class whose [fit] raises. *)
Definition learn_last (failing : option classifier) (c : classifier) (g : unit)
    (X : ndarray) (y : Series) : unit * result cell :=
  (g,
   if bool_decide (failing = Some c)
   then Raise (ValueError "could not convert string to float")
   else Ok (List.last (s_values y) (CNum 0))).

Definition predict_const (c : classifier) (p : cell) (X : ndarray) : result column :=
  Ok (map (fun _ => p) X).

Definition count_where (f : cell -> cell -> bool) (y : Series) (y_pred : column) : nat :=
  length (List.filter (fun ab => f (fst ab) (snd ab)) (combine (s_values y) y_pred)).

Definition ratio (a b : nat) : float :=
  if Nat.eqb b 0 then 0%float else (float_of_nat a / float_of_nat b)%float.

Definition is_one (c : cell) : bool := bool_decide (c = CNum 1).

Definition accuracy (y : Series) (y_pred : column) : result float :=
  Ok (ratio (count_where (fun a b => bool_decide (a = b)) y y_pred) (length y_pred)).

Definition recall (y : Series) (y_pred : column) : result float :=
  Ok (ratio (count_where (fun a b => is_one a && is_one b) y y_pred)
            (count_where (fun a _ => is_one a) y y_pred)).

Definition f1 (y : Series) (y_pred : column) : result float :=
  Ok (ratio (2 * count_where (fun a b => is_one a && is_one b) y y_pred)
            (count_where (fun a _ => is_one a) y y_pred
             + count_where (fun _ b => is_one b) y y_pred)).

Definition confusion (y : Series) (y_pred : column) : result (list (list nat)) :=
  Ok [[count_where (fun a b => negb (is_one a) && negb (is_one b)) y y_pred;
       count_where (fun a b => negb (is_one a) && is_one b) y y_pred];
      [count_where (fun a b => is_one a && negb (is_one b)) y y_pred;
       count_where (fun a b => is_one a && is_one b) y y_pred]].

Definition empty_world : world cell unit := mkWorld cell unit [] tt [].

Definition X_train : ndarray := [[1%float; 0%float]; [0%float; 2%float]; [3%float; 1%float]].
Definition X_test : ndarray := [[2%float; 2%float]].
Definition y_train_f : Series := mkSeries [3; 0; 4]%nat [CNum 0; CNum 0; CNum 1].
Definition y_test_f : Series := mkSeries [1]%nat [CNum 1].
Definition y_train_l : Series := mkSeries [3; 0; 4]%nat [CNum 1; CNum 1; CNum 0].
Definition y_test_l : Series := mkSeries [1]%nat [CNum 0].

(** A run of the roster on the sample split. *)
Definition sample_run (failing : option classifier)
  : world cell unit * result (list result_row) :=
  run_models cell unit (learn_last failing) predict_const accuracy recall f1 confusion
    X_train X_test y_train_f y_test_f X_train X_test y_train_l y_test_l empty_world.

(** The whole script on the five sample orders. *)
Definition sample_main : world cell unit * result (list result_row) :=
  main (fun _ => Ok orders) (fun _ => None) parse_datetime guess_datetime_format strptime
    Z lcg_seed lcg_interval
    cell unit (learn_last None) predict_const accuracy recall f1 confusion empty_world.

End Samples.

(** * Properties *)

(** ** Fallible computations *)

Lemma bind_Ok {A B : Type} (m : result A) (f : A -> result B) (b : B) :
  m ≫= f = Ok b -> exists a, m = Ok a /\ f a = Ok b.
Proof. destruct m as [a|e]; cbn; [eauto | discriminate]. Qed.

Lemma fmap_Ok {A B : Type} (m : result A) (f : A -> B) (b : B) :
  f <$> m = Ok b -> exists a, m = Ok a /\ b = f a.
Proof. destruct m as [a|e]; cbn; [|discriminate]. intros [= <-]. eauto. Qed.

Lemma mapM_Ok {A B : Type} (f : A -> result B) (l : list A) (k : list B) :
  mapM f l = Ok k <-> Forall2 (fun x y => f x = Ok y) l k.
Proof.
  revert k. induction l as [|x l IH]; intros k; cbn.
  - split; [intros [= <-]; constructor | inversion 1; reflexivity].
  - split.
    + intros H. apply bind_Ok in H as (y & Hy & H).
      apply bind_Ok in H as (k' & Hk' & H). injection H as <-.
      constructor; [assumption | by apply IH].
    + inversion 1 as [|? y ? k' Hy Hk']; subst.
      apply IH in Hk'. cbn. rewrite Hy. cbn.
      fold (mapM f l). rewrite Hk'. reflexivity.
Qed.

Lemma mapM_returns {A B : Type} (f : A -> result B) (l : list A) :
  (forall i x, l !! i = Some x -> is_Ok (f x) = true) -> exists k, mapM f l = Ok k.
Proof.
  induction l as [|x l IH]; intros H; cbn; [eauto|].
  destruct IH as [k Hk]; [intros i y Hy; apply (H (S i) y Hy)|].
  specialize (H 0%nat x eq_refl). destruct (f x) as [y|]; [|done].
  cbn. fold (mapM f l). rewrite Hk. cbn. eauto.
Qed.

Lemma lookup_map {A B : Type} (f : A -> B) (l : list A) (i : nat) :
  map f l !! i = f <$> (l !! i).
Proof.
  revert i. induction l as [|x l IH]; intros [|i]; cbn; try reflexivity. apply IH.
Qed.

(** Undo one step of a chain of calls that ended well. *)
Ltac inv_bind H :=
  let a := fresh "v" in
  let E := fresh "E" in
  apply bind_Ok in H as (a & E & H).

(** ** Columns of a table *)

Lemma lookup_col_assign_eq k v cols :
  lookup_col k (assign_col k v cols) = Some v.
Proof.
  induction cols as [|[k' c] cols IH]; cbn.
  - by rewrite String.eqb_refl.
  - destruct (String.eqb k' k) eqn:E; cbn; rewrite E; [reflexivity | exact IH].
Qed.

Lemma lookup_col_assign_ne k k' v cols :
  String.eqb k k' = false ->
  lookup_col k' (assign_col k v cols) = lookup_col k' cols.
Proof.
  intros Hne. induction cols as [|[k0 c] cols IH]; cbn.
  - by rewrite Hne.
  - destruct (String.eqb k0 k) eqn:E; cbn.
    + apply String.eqb_eq in E as ->. by rewrite Hne.
    + by rewrite IH.
Qed.

Lemma lookup_col_filter_out k labels cols :
  mem_string k labels = false ->
  lookup_col k (List.filter (fun kc => negb (mem_string (fst kc) labels)) cols)
  = lookup_col k cols.
Proof.
  intros Hk. induction cols as [|[k0 c] cols IH]; cbn; [reflexivity|].
  destruct (mem_string k0 labels) eqn:E; cbn.
  - destruct (String.eqb k0 k) eqn:E'; [|exact IH].
    apply String.eqb_eq in E' as ->. congruence.
  - by rewrite IH.
Qed.

Lemma lookup_col_filter_ne k t cols :
  String.eqb k t = false ->
  lookup_col k (List.filter (fun kc => negb (String.eqb (fst kc) t)) cols)
  = lookup_col k cols.
Proof.
  intros Hk. induction cols as [|[k0 c] cols IH]; cbn; [reflexivity|].
  destruct (String.eqb k0 t) eqn:E; cbn.
  - destruct (String.eqb k0 k) eqn:E'; [|exact IH].
    apply String.eqb_eq in E' as ->. congruence.
  - by rewrite IH.
Qed.

Lemma lookup_col_Some_names k cols c :
  lookup_col k cols = Some c -> k ∈ map fst cols.
Proof.
  induction cols as [|[k0 c0] cols IH]; cbn; [discriminate|].
  destruct (String.eqb k0 k) eqn:E.
  - apply String.eqb_eq in E as ->. intros _. left.
  - intros H. right. by apply IH.
Qed.

Lemma lookup_col_names k cols :
  k ∈ map fst cols -> is_Some (lookup_col k cols).
Proof.
  induction cols as [|[k0 c0] cols IH]; cbn.
  - by intros ?%elem_of_nil.
  - intros [->|H]%elem_of_cons.
    + rewrite String.eqb_refl. eauto.
    + destruct (String.eqb k0 k); eauto.
Qed.

Lemma getitem_Ok df k c :
  getitem df k = Ok c <-> lookup_col k (columns df) = Some c.
Proof.
  unfold getitem. destruct (lookup_col k (columns df)); split; congruence.
Qed.

Lemma getitem_names df k c : getitem df k = Ok c -> k ∈ names df.
Proof. intros H%getitem_Ok. by eapply lookup_col_Some_names. Qed.

Lemma names_getitem df k : k ∈ names df -> exists c, getitem df k = Ok c.
Proof.
  intros [c Hc]%lookup_col_names. exists c. by apply getitem_Ok.
Qed.

Lemma setitem_Ok df k v df' :
  setitem df k v = Ok df' ->
  df' = mkDataFrame (index df) (assign_col k v (columns df)) /\ length v = nrows df.
Proof.
  unfold setitem. destruct (Nat.eqb (length v) (nrows df)) eqn:E; [|discriminate].
  intros [= <-]. split; [reflexivity | by apply Nat.eqb_eq].
Qed.

Lemma df_drop_Ok df labels df' :
  df_drop df labels = Ok df' ->
  df' = mkDataFrame (index df)
          (List.filter (fun kc => negb (mem_string (fst kc) labels)) (columns df)).
Proof.
  unfold df_drop. destruct (List.filter _ labels); [|discriminate]. by intros [= <-].
Qed.

Lemma getitem_mk ix cols k :
  getitem (mkDataFrame ix cols) k
  = match lookup_col k cols with Some c => Ok c | None => Raise (KeyError k) end.
Proof. reflexivity. Qed.

Lemma same_kept_dropped labels k v v' cols :
  mem_string k labels = true ->
  same_kept labels (assign_col k v cols) (assign_col k v' cols).
Proof.
  intros Hk. induction cols as [|[k0 c] cols [IH1 IH2]]; cbn.
  - split; [done|]. cbn. by rewrite Hk.
  - destruct (String.eqb k0 k) eqn:E.
    + apply String.eqb_eq in E as ->. split; [done|]. cbn. by rewrite Hk.
    + split; cbn; [by rewrite IH1|]. by rewrite IH2.
Qed.

Lemma same_kept_assign labels k v cols1 : forall cols2,
  same_kept labels cols1 cols2 ->
  same_kept labels (assign_col k v cols1) (assign_col k v cols2).
Proof.
  induction cols1 as [|[k1 c1] cols1 IH]; intros [|[k2 c2] cols2] [Hn Hf];
    cbn in Hn; try discriminate.
  - split; done.
  - injection Hn as <- Hn. cbn in Hf.
    assert (same_kept labels cols1 cols2 /\
            (mem_string k1 labels = false -> c1 = c2)) as [Hrest Hc].
    { destruct (mem_string k1 labels); cbn in Hf.
      - split; [by split | done].
      - injection Hf as -> Hf. split; [by split | done]. }
    cbn. destruct (String.eqb k1 k).
    + destruct Hrest as [H1 H2]. split; cbn; [by rewrite H1|].
      destruct (mem_string k1 labels); cbn; by rewrite H2.
    + destruct (IH _ Hrest) as [H1 H2]. split; cbn; [by rewrite H1|].
      destruct (mem_string k1 labels) eqn:E; cbn; [done|]. by rewrite H2, Hc.
Qed.

(** Rewrite a lookup through the assignments and drops made before it. *)
Ltac frame_simpl :=
  repeat first
    [ rewrite getitem_mk
    | rewrite lookup_col_assign_eq
    | rewrite lookup_col_assign_ne by reflexivity
    | rewrite lookup_col_filter_out by reflexivity ].

Ltac frame_simpl_in H :=
  repeat first
    [ rewrite getitem_mk in H
    | rewrite lookup_col_assign_eq in H
    | rewrite lookup_col_assign_ne in H by reflexivity
    | rewrite lookup_col_filter_out in H by reflexivity ].

(** ** [derive_columns], step by step *)

Ltac fold_getitem E :=
  lazymatch type of E with
  | match lookup_col ?k (columns ?ds) with
    | Some c => Ok c
    | None => Raise (KeyError ?k)
    end = Ok ?c0 => change (getitem ds k = Ok c0) in E
  | _ => idtac
  end.

Ltac step H :=
  inv_bind H;
  lazymatch goal with
  | E : setitem _ _ _ = Ok _ |- _ =>
      apply setitem_Ok in E as [-> ?]; cbn [index columns nrows] in *
  | E : df_drop _ _ = Ok _ |- _ =>
      apply df_drop_Ok in E as ->; cbn [index columns nrows] in *
  | E : getitem _ _ = Ok _ |- _ => frame_simpl_in E; fold_getitem E
  | _ => idtac
  end.

Lemma derive_columns_Ok parse guess strptime ds pre :
  derive_columns parse guess strptime ds = Ok pre ->
  exists fname lname zipcode d ix qty tot price status delivery,
    getitem ds "Customer Fname" = Ok fname /\
    getitem ds "Customer Lname" = Ok lname /\
    getitem ds "Customer Zipcode" = Ok zipcode /\
    getitem ds "order date (DateOrders)" = Ok d /\
    DatetimeIndex parse d = Ok ix /\
    getitem ds "Order Item Quantity" = Ok qty /\
    getitem ds "Order Item Total" = Ok tot /\
    series_mul qty tot = Ok price /\
    getitem ds "Order Status" = Ok status /\
    getitem ds "Delivery Status" = Ok delivery /\
    (length (str_add (astype_str fname) (astype_str lname)) = length (index ds) /\
     length zipcode = length (index ds) /\
     length ix = length (index ds) /\
     length price = length (index ds) /\
     length status = length (index ds) /\
     length delivery = length (index ds)) /\
    pre = derived ds
            (str_add (astype_str fname) (astype_str lname))
            (fillna (CNum 0) zipcode) ix price
            (np_where (map (eq_lit "SUSPECTED_FRAUD") status) 1 0)
            (np_where (map (eq_lit "Late delivery") delivery) 1 0).
Proof.
  unfold derive_columns. intros H.
  repeat step H.
  apply df_drop_Ok in H as ->. cbn [index columns] in *.
  repeat match goal with
  | E1 : getitem ?df ?k = Ok ?a, E2 : getitem ?df ?k = Ok ?b |- _ =>
      assert (b = a) as -> by congruence; clear E2
  | E1 : DatetimeIndex ?p ?d = Ok ?a, E2 : DatetimeIndex ?p ?d = Ok ?b |- _ =>
      assert (b = a) as -> by congruence; clear E2
  end.
  unfold np_where, fillna in *. rewrite ?length_map in *.
  do 10 eexists. repeat split; try eassumption.
  unfold derived. f_equal.
  apply same_kept_assign, same_kept_assign, same_kept_dropped. reflexivity.
Qed.

(** ** The label encoder *)

Lemma index_of_lookup v l i : index_of v l = Some i -> l !! i = Some v.
Proof.
  revert i. induction l as [|x l IH]; intros i; cbn; [discriminate|].
  destruct (decide (x = v)) as [->|Hne].
  - by intros [= <-].
  - destruct (index_of v l) as [j|]; cbn; [|discriminate].
    intros [= <-]. cbn. by apply IH.
Qed.

Lemma index_of_elem v l : v ∈ l -> is_Some (index_of v l).
Proof.
  induction l as [|x l IH]; cbn.
  - by intros ?%elem_of_nil.
  - intros Hv. destruct (decide (x = v)); [eauto|].
    apply elem_of_cons in Hv as [->|Hv]; [done|].
    destruct (IH Hv) as [j ->]. cbn. eauto.
Qed.

Lemma unique_elem y classes v :
  unique y = Ok classes -> v ∈ y -> v ∈ classes.
Proof.
  unfold unique. destruct (existsb is_str y && existsb is_num y); [discriminate|].
  intros [= <-] Hv. apply elem_of_app.
  destruct (isna v) eqn:Hna.
  - right. assert (existsb isna y = true) as ->.
    { apply existsb_exists. exists v. split; [by apply list_elem_of_In | done]. }
    destruct v; try discriminate. left.
  - left. rewrite merge_sort_Permutation. apply elem_of_remove_dups.
    apply list_elem_of_In, filter_In. split; [by apply list_elem_of_In|].
    by rewrite Hna.
Qed.

Lemma encode_total classes y :
  (forall v, v ∈ y -> v ∈ classes) -> exists codes, encode classes y = Ok codes.
Proof.
  unfold encode. induction y as [|v y IH]; intros Hy.
  - by exists [].
  - destruct IH as [codes Hcodes]; [intros; apply Hy; by right|].
    destruct (index_of_elem v classes) as [i Hi]; [apply Hy; left|].
    exists (CNum (Z.of_nat i) :: codes). apply mapM_Ok. constructor.
    + by rewrite Hi.
    + by apply mapM_Ok.
Qed.

Lemma encode_codes classes y codes :
  encode classes y = Ok codes ->
  Forall2 (fun v c => exists i, c = CNum (Z.of_nat i) /\ classes !! i = Some v) y codes.
Proof.
  unfold encode. intros H%mapM_Ok.
  induction H as [|v c y codes Hc _ IH]; constructor; [|exact IH].
  destruct (index_of v classes) as [i|] eqn:Hi; [|discriminate].
  injection Hc as <-. exists i. split; [done | by apply index_of_lookup].
Qed.

Lemma inverse_transform_encode le classes y codes :
  classes_ le = Some classes ->
  encode classes y = Ok codes ->
  inverse_transform le codes = Ok y.
Proof.
  intros Hle H%encode_codes. unfold inverse_transform. rewrite Hle.
  apply mapM_Ok. induction H as [|v c y codes (i & -> & Hi) _ IH]; constructor; [|exact IH].
  assert ((0 <=? Z.of_nat i) = true) as -> by (apply Z.leb_le; lia).
  by rewrite Nat2Z.id, Hi.
Qed.

Lemma fit_transform_Ok le y le' codes :
  fit_transform le y = Ok (le', codes) <->
  exists classes, unique y = Ok classes /\ encode classes y = Ok codes
                  /\ le' = mkLabelEncoder (Some classes).
Proof.
  unfold fit_transform. split.
  - intros H. inv_bind H. inv_bind H. injection H as <- <-. eauto.
  - intros (classes & -> & Hc & ->). cbn. by rewrite Hc.
Qed.

Lemma names_assign_existing k v cols c :
  lookup_col k cols = Some c -> map fst (assign_col k v cols) = map fst cols.
Proof.
  induction cols as [|[k0 c0] cols IH]; cbn; [discriminate|].
  destruct (String.eqb k0 k) eqn:E; cbn; [done|]. intros H. by rewrite IH.
Qed.

Lemma string_eqb_ne (a b : string) : a <> b -> String.eqb a b = false.
Proof. by intros ?%String.eqb_neq. Qed.

Lemma encode_columns_Ok cols : forall le data le' data',
  encode_columns le data cols = Ok (le', data') ->
  index data' = index data /\
  names data' = names data /\
  (forall k, k ∉ cols -> getitem data' k = getitem data k) /\
  (NoDup cols -> forall col, col ∈ cols ->
     exists orig classes codes,
       getitem data col = Ok orig /\ unique orig = Ok classes /\
       encode classes orig = Ok codes /\ getitem data' col = Ok codes).
Proof.
  induction cols as [|c cols IH]; intros le data le' data' H; cbn in H.
  - injection H as <- <-. repeat split; try done. intros _ col ?%elem_of_nil. done.
  - inv_bind H. inv_bind H. destruct v0 as [le1 codes].
    apply fit_transform_Ok in E0 as (classes & Hu & He & ->).
    inv_bind H. apply setitem_Ok in E0 as [-> Hlen].
    apply IH in H as (Hix & Hn & Hframe & Hcols). cbn [index columns] in *.
    pose proof E as E'. apply getitem_Ok in E'.
    split; [done|]. split.
    { rewrite Hn. unfold names. cbn. by eapply names_assign_existing. }
    split.
    + intros k Hk. apply not_elem_of_cons in Hk as [Hkc Hk].
      rewrite Hframe by done. rewrite getitem_mk.
      rewrite lookup_col_assign_ne by (by apply string_eqb_ne). done.
    + intros Hnd col Hcol. apply NoDup_cons in Hnd as [Hc Hnd].
      apply elem_of_cons in Hcol as [->|Hcol].
      * exists v, classes, codes. repeat split; try done.
        rewrite Hframe by done. rewrite getitem_mk, lookup_col_assign_eq. done.
      * destruct (Hcols Hnd col Hcol) as (orig & cl & cd & Hg & Hu' & He' & Hg').
        exists orig, cl, cd. repeat split; try done.
        rewrite getitem_mk in Hg. rewrite lookup_col_assign_ne in Hg; [done|].
        apply string_eqb_ne. intros ->. done.
Qed.

(** ** [preprocess_data] as a whole *)

Lemma categorical_columns_NoDup : NoDup categorical_columns.
Proof. apply (bool_decide_unpack _). vm_compute. reflexivity. Qed.

Lemma preprocess_data_Ok parse guess strptime ds data :
  preprocess_data parse guess strptime ds = Ok data ->
  exists pre le,
    derive_columns parse guess strptime ds = Ok pre /\
    encode_columns LabelEncoder_new pre categorical_columns = Ok (le, data).
Proof.
  unfold preprocess_data. intros H. inv_bind H. inv_bind H.
  destruct v0 as [le data0]. injection H as <-. eauto.
Qed.

Lemma np_where_eq_lit lit status i c :
  status !! i = Some c ->
  exists l, np_where (map (eq_lit lit) status) 1 0 !! i = Some (CNum l) /\
            (l = 1 <-> c = CStr lit) /\ (l = 0 <-> c <> CStr lit).
Proof.
  intros Hi. unfold np_where.
  exists (if eq_lit lit c then 1 else 0). split.
  - by rewrite !lookup_map, Hi.
  - destruct c as [s| |]; cbn; try (split; split; (congruence || lia)).
    destruct (String.eqb s lit) eqn:E.
    + apply String.eqb_eq in E as ->. split; split; (congruence || lia).
    + apply String.eqb_neq in E. split; split; (congruence || lia).
Qed.

Lemma label_column parse guess strptime ds data name :
  preprocess_data parse guess strptime ds = Ok data ->
  (name = "fraud" \/ name = "late_delivery") ->
  exists status delivery,
    getitem ds "Order Status" = Ok status /\
    getitem ds "Delivery Status" = Ok delivery /\
    length status = nrows ds /\ length delivery = nrows ds /\
    getitem data "fraud" = Ok (np_where (map (eq_lit "SUSPECTED_FRAUD") status) 1 0) /\
    getitem data "late_delivery" = Ok (np_where (map (eq_lit "Late delivery") delivery) 1 0).
Proof.
  intros (pre & le & Hpre & Henc)%preprocess_data_Ok _.
  apply derive_columns_Ok in Hpre
    as (fname & lname & zipcode & d & ix & qty & tot & price & status & delivery
        & _ & _ & _ & _ & _ & _ & _ & _ & Hs & Hd & (_ & _ & _ & _ & Hls & Hld) & ->).
  apply encode_columns_Ok in Henc as (_ & _ & Hframe & _).
  exists status, delivery. repeat split; try done.
  - rewrite Hframe by (apply (bool_decide_unpack _); vm_compute; reflexivity).
    unfold derived. by frame_simpl.
  - rewrite Hframe by (apply (bool_decide_unpack _); vm_compute; reflexivity).
    unfold derived. by frame_simpl.
Qed.

(** C1.  In the table [preprocess_data] returns, the [fraud] label of a row
    is 1 exactly when the row's [Order Status] field is the string
    [SUSPECTED_FRAUD], and 0 for every other content of that field, a
    missing value included. *)
Theorem fraud_label_iff_status parse guess strptime ds data :
  preprocess_data parse guess strptime ds = Ok data ->
  exists status labels,
    getitem ds "Order Status" = Ok status /\
    getitem data "fraud" = Ok labels /\
    length status = nrows ds /\ length labels = nrows ds /\
    forall i c, status !! i = Some c ->
      exists l, labels !! i = Some (CNum l) /\
                (l = 1 <-> c = CStr "SUSPECTED_FRAUD") /\
                (l = 0 <-> c <> CStr "SUSPECTED_FRAUD").
Proof.
  intros H.
  destruct (label_column parse guess strptime ds data "fraud" H) as
    (status & delivery & Hs & _ & Hls & _ & Hf & _); [by left|].
  exists status, (np_where (map (eq_lit "SUSPECTED_FRAUD") status) 1 0).
  repeat split; try done.
  - unfold np_where. by rewrite !length_map.
  - intros i c Hi. by apply np_where_eq_lit.
Qed.

(** C2.  In the table [preprocess_data] returns, the [late_delivery] label
    of a row is 1 exactly when the row's [Delivery Status] field is the
    string [Late delivery], and 0 otherwise. *)
Theorem late_delivery_label_iff_status parse guess strptime ds data :
  preprocess_data parse guess strptime ds = Ok data ->
  exists delivery labels,
    getitem ds "Delivery Status" = Ok delivery /\
    getitem data "late_delivery" = Ok labels /\
    length delivery = nrows ds /\ length labels = nrows ds /\
    forall i c, delivery !! i = Some c ->
      exists l, labels !! i = Some (CNum l) /\
                (l = 1 <-> c = CStr "Late delivery") /\
                (l = 0 <-> c <> CStr "Late delivery").
Proof.
  intros H.
  destruct (label_column parse guess strptime ds data "late_delivery" H) as
    (status & delivery & _ & Hd & _ & Hld & _ & Hl); [by right|].
  exists delivery, (np_where (map (eq_lit "Late delivery") delivery) 1 0).
  repeat split; try done.
  - unfold np_where. by rewrite !length_map.
  - intros i c Hi. by apply np_where_eq_lit.
Qed.

(** An entry of a [DatetimeIndex] is NaT exactly where the date field is
    missing, is the reserved count, or is a string read as that count. *)
Lemma stamp_None ns : stamp ns = None <-> ns = - 2 ^ 63.
Proof.
  unfold stamp, iNaT. destruct (Z.eqb_spec ns (- 2 ^ 63)); split; done.
Qed.

Lemma DatetimeIndex_missing parse d ix :
  DatetimeIndex parse d = Ok ix ->
  Forall2 (fun x t =>
             t = None <->
             x = CNaN \/ x = CNum (- 2 ^ 63) \/
             exists s, x = CStr s /\ parse s = Some (- 2 ^ 63)) d ix.
Proof.
  unfold DatetimeIndex. intros H%mapM_Ok.
  induction H as [|x t d ix Hx _ IH]; constructor; [|exact IH].
  destruct x as [s|z|]; cbn in Hx.
  - destruct (parse s) as [ns|] eqn:E; [|discriminate]. injection Hx as <-.
    rewrite stamp_None. split.
    + intros ->. right. right. eauto.
    + intros [?|[?|(s' & [= <-] & Hs)]]; try discriminate. congruence.
  - destruct ((- 2 ^ 63 <=? z) && (z <? 2 ^ 63)); [|discriminate].
    injection Hx as <-. rewrite stamp_None. split.
    + intros ->. right. by left.
    + intros [?|[[= ->]|(s' & ? & _)]]; done.
  - injection Hx as <-. split; [by left | done].
Qed.

Lemma dt_field_missing f t : isna (dt_field f t) = true <-> t = None.
Proof. destruct t; cbn; split; done. Qed.

Lemma encode_not_missing classes y codes :
  encode classes y = Ok codes -> Forall (fun c => isna c = false) codes.
Proof.
  intros H%encode_codes.
  induction H as [|v c y codes (i & -> & _) _ IH]; constructor; done.
Qed.

Lemma fillna_not_missing v c :
  isna v = false -> Forall (fun x => isna x = false) (fillna v c).
Proof.
  intros Hv. unfold fillna. induction c as [|x c IH]; cbn; constructor; [|exact IH].
  destruct (isna x) eqn:E; done.
Qed.

Lemma np_where_not_missing cond a b :
  Forall (fun x => isna x = false) (np_where cond a b).
Proof. unfold np_where. induction cond; cbn; constructor; done. Qed.


(** A fitted encoder decodes what it encoded. *)
Lemma fit_transform_round_trip le y le' codes :
  fit_transform le y = Ok (le', codes) -> inverse_transform le' codes = Ok y.
Proof.
  intros (classes & Hu & He & ->)%fit_transform_Ok.
  by eapply inverse_transform_encode.
Qed.

(** Fitting on a column that does not mix strings with numbers succeeds. *)
Lemma fit_transform_total le y :
  existsb is_str y && existsb is_num y = false ->
  exists le' codes, fit_transform le y = Ok (le', codes).
Proof.
  intros Hmix.
  assert (exists classes, unique y = Ok classes) as [classes Hu].
  { unfold unique. rewrite Hmix. eauto. }
  destruct (encode_total classes y) as [codes Hc].
  { intros v Hv. by eapply unique_elem. }
  exists (mkLabelEncoder (Some classes)), codes. apply fit_transform_Ok. eauto.
Qed.

(** The loop keeps one encoder: when it ends, the encoder is the one its
    last fit left, so it holds the classes of the last column only. *)
Lemma encode_columns_last_encoder cols col : forall le data le' data',
  encode_columns le data (cols ++ [col]) = Ok (le', data') ->
  exists le1 data1 orig codes,
    encode_columns le data cols = Ok (le1, data1) /\
    getitem data1 col = Ok orig /\
    fit_transform le1 orig = Ok (le', codes).
Proof.
  induction cols as [|c cols IH]; intros le data le' data' H.
  - cbn in H. apply bind_Ok in H as (orig & Horig & H).
    apply bind_Ok in H as ([le1 codes] & Hfit & H).
    apply bind_Ok in H as (data1 & Hset & H). injection H as <- <-.
    exists le, data, orig, codes. done.
  - cbn in H. apply bind_Ok in H as (y & Hy & H).
    apply bind_Ok in H as ([le1 codes] & Hfit & H).
    apply bind_Ok in H as (data1 & Hset & H).
    destruct (IH _ _ _ _ H) as (le2 & data2 & orig & codes' & Hrec & Hg & Hf).
    exists le2, data2, orig, codes'. split; [|done].
    cbn. rewrite Hy. cbn. rewrite Hfit. cbn. rewrite Hset. cbn. exact Hrec.
Qed.

(** C7.  For each of the sixteen categorical columns, the encoder as it
    stands right after its fit on that column decodes the codes stored in
    the returned table back to the column as it was before encoding, value
    by value. *)
Theorem label_encoding_round_trip parse guess strptime ds data :
  preprocess_data parse guess strptime ds = Ok data ->
  exists pre,
    derive_columns parse guess strptime ds = Ok pre /\
    length categorical_columns = 16%nat /\
    forall col, col ∈ categorical_columns ->
      exists orig codes le_col,
        getitem pre col = Ok orig /\
        getitem data col = Ok codes /\
        (forall le0, fit_transform le0 orig = Ok (le_col, codes)) /\
        inverse_transform le_col codes = Ok orig.
Proof.
  intros (pre & le & Hpre & Henc)%preprocess_data_Ok.
  exists pre. split; [done|]. split; [reflexivity|].
  apply encode_columns_Ok in Henc as (_ & _ & _ & Hcols).
  intros col Hcol.
  destruct (Hcols categorical_columns_NoDup col Hcol)
    as (orig & classes & codes & Hg & Hu & He & Hg').
  exists orig, codes, (mkLabelEncoder (Some classes)).
  repeat split; try done.
  - intros le0. apply fit_transform_Ok. eauto.
  - by eapply inverse_transform_encode.
Qed.

(** ** Positional selection *)

Lemma take_rows_Ok {A : Type} (rows : list nat) (l r : list A) :
  take_rows rows l = Ok r <-> Forall2 (fun i x => l !! i = Some x) rows r.
Proof.
  unfold take_rows. rewrite mapM_Ok. split; intros H.
  - induction H as [|i x rows r Hi _ IH]; constructor; [|exact IH].
    destruct (l !! i); [by injection Hi as -> | discriminate].
  - induction H as [|i x rows r Hi _ IH]; constructor; [|exact IH].
    by rewrite Hi.
Qed.

Lemma take_rows_length {A : Type} (rows : list nat) (l r : list A) :
  take_rows rows l = Ok r -> length r = length rows.
Proof. intros H%take_rows_Ok. symmetry. by eapply Forall2_length. Qed.

Lemma take_rows_total {A : Type} (rows : list nat) (l : list A) :
  Forall (fun i => (i < length l)%nat) rows -> exists r, take_rows rows l = Ok r.
Proof.
  induction 1 as [|i rows Hi _ [r IH]].
  - exists []. by apply take_rows_Ok.
  - destruct (lookup_lt_is_Some_2 l i Hi) as [x Hx].
    exists (x :: r). apply take_rows_Ok. constructor; [done | by apply take_rows_Ok].
Qed.

Lemma take_rows_app {A : Type} (a b : list nat) (l ra rb : list A) :
  take_rows a l = Ok ra -> take_rows b l = Ok rb ->
  take_rows (a ++ b) l = Ok (ra ++ rb).
Proof. rewrite !take_rows_Ok. apply Forall2_app. Qed.

Lemma take_rows_Permutation {A : Type} (rows rows' : list nat) (l r : list A) :
  rows ≡ₚ rows' -> take_rows rows l = Ok r ->
  exists r', take_rows rows' l = Ok r' /\ r ≡ₚ r'.
Proof.
  intros Hp. revert r.
  induction Hp as [|i rows rows' _ IH|i j rows|rows1 rows2 rows3 _ IH1 _ IH2];
    intros r H.
  - exists r. done.
  - apply take_rows_Ok in H. inversion H as [|? x ? r0 Hx Hr]; subst.
    apply take_rows_Ok in Hr. destruct (IH _ Hr) as (r' & Hr' & Hp').
    exists (x :: r'). split; [|by constructor].
    apply take_rows_Ok. constructor; [done | by apply take_rows_Ok].
  - apply take_rows_Ok in H. inversion H as [|? x ? r0 Hx Hr]; subst.
    inversion Hr as [|? y ? r1 Hy Hr1]; subst.
    exists (y :: x :: r1). split; [|by constructor].
    apply take_rows_Ok. by repeat constructor.
  - destruct (IH1 _ H) as (r2 & H2 & Hp2). destruct (IH2 _ H2) as (r3 & H3 & Hp3).
    exists r3. split; [done | by etrans].
Qed.

Lemma take_rows_seq_from {A : Type} (pre l : list A) :
  take_rows (seq (length pre) (length l)) (pre ++ l) = Ok l.
Proof.
  apply take_rows_Ok. revert pre. induction l as [|x l IH]; intros pre; cbn.
  - constructor.
  - constructor.
    + by rewrite list_lookup_middle.
    + specialize (IH (pre ++ [x])). rewrite length_app in IH. cbn in IH.
      rewrite <- (assoc_L (++)) in IH. cbn in IH.
      by replace (length pre + 1)%nat with (S (length pre)) in IH by lia.
Qed.

Lemma take_rows_seq {A : Type} (l : list A) :
  take_rows (seq 0 (length l)) l = Ok l.
Proof. exact (take_rows_seq_from [] l). Qed.

(** ** The shuffle *)

Lemma swap_length l i j : length (swap l i j) = length l.
Proof.
  unfold swap. destruct (l !! i), (l !! j); try done. by rewrite !length_insert.
Qed.

Lemma swap_Permutation l i j : swap l i j ≡ₚ l.
Proof.
  unfold swap. destruct (l !! i) as [a|] eqn:Hi; [|done].
  destruct (l !! j) as [b|] eqn:Hj; [|done].
  apply Permutation_inj. split; [by rewrite !length_insert|].
  exists (fun x => if decide (x = i) then j else if decide (x = j) then i else x).
  split.
  - intros x y. repeat case_decide; intros; subst; congruence.
  - intros x. apply lookup_lt_Some in Hi as Hi'. apply lookup_lt_Some in Hj as Hj'.
    destruct (decide (x = i)) as [->|Hxi].
    + rewrite list_lookup_insert_eq by (by rewrite length_insert). done.
    + rewrite list_lookup_insert_ne by done.
      destruct (decide (x = j)) as [->|Hxj].
      * by rewrite list_lookup_insert_eq.
      * by rewrite list_lookup_insert_ne.
Qed.

Section SplitFacts.

Variable rng : Type.
Variable RandomState : Z -> rng.
Variable random_interval : rng -> nat -> nat * rng.

Lemma shuffle_Permutation i : forall s l,
  fst (shuffle rng random_interval s i l) ≡ₚ l.
Proof.
  induction i as [|i IH]; intros s l; cbn; [done|].
  destruct (random_interval s (S i)) as [j s'].
  rewrite IH. apply swap_Permutation.
Qed.

Lemma permutation_Permutation s n :
  fst (permutation rng random_interval s n) ≡ₚ seq 0 n.
Proof. apply shuffle_Permutation. Qed.

End SplitFacts.

Lemma n_test_of_fifth_eq n :
  n_test_of (1 # 5) n = Z.to_nat (- ((- Z.of_nat n) / 5)).
Proof.
  unfold n_test_of, Qceiling, Qfloor. cbn [Qmult inject_Z Qopp Qnum Qden].
  change (Z.pos (5 * 1)) with 5. by rewrite Z.mul_1_l.
Qed.

Lemma n_test_of_fifth n :
  (n <= 5 * n_test_of (1 # 5) n < n + 5)%nat.
Proof.
  rewrite n_test_of_fifth_eq.
  pose proof (Z.div_mod (- Z.of_nat n) 5 ltac:(lia)) as H1.
  pose proof (Z.mod_pos_bound (- Z.of_nat n) 5 ltac:(lia)) as H2.
  generalize dependent ((- Z.of_nat n) mod 5). generalize dependent ((- Z.of_nat n) / 5).
  intros q r H1 H2. lia.
Qed.

Lemma n_test_of_fifth_lt n : (2 <= n)%nat -> (0 < n_test_of (1 # 5) n < n)%nat.
Proof. pose proof (n_test_of_fifth n). lia. Qed.

Lemma validate_shuffle_split_fifth n :
  validate_shuffle_split n (1 # 5)
  = if bool_decide (2 <= n)%nat
    then Ok ((n - n_test_of (1 # 5) n)%nat, n_test_of (1 # 5) n)
    else Raise (ValueError "the resulting train set will be empty").
Proof.
  unfold validate_shuffle_split.
  change (Qle_bool (1 # 5) 0 || Qle_bool 1 (1 # 5)) with false. cbv iota.
  case_bool_decide as Hn.
  - apply n_test_of_fifth_lt in Hn.
    destruct (Nat.eqb_spec (n - n_test_of (1 # 5) n) 0); [lia | done].
  - destruct (Nat.eqb_spec (n - n_test_of (1 # 5) n) 0) as [|Hne]; [done|].
    exfalso. pose proof (n_test_of_fifth n). lia.
Qed.

(** ** [iloc] *)

Lemma iloc_Ok df rows df' :
  iloc df rows = Ok df' <->
  take_rows rows (index df) = Ok (index df') /\
  Forall2 (fun kc kc' => fst kc' = fst kc /\ take_rows rows (snd kc) = Ok (snd kc'))
    (columns df) (columns df').
Proof.
  unfold iloc. split.
  - intros H. inv_bind H. inv_bind H. injection H as <-. cbn. split; [done|].
    apply mapM_Ok in E0. eapply Forall2_impl; [exact E0|].
    intros [k c] [k' c'] Hc. cbn in *. inv_bind Hc. by injection Hc as <- <-.
  - destruct df' as [ix' cols']. cbn. intros [-> Hcols]. cbn.
    assert (mapM (fun kc : string * list cell =>
                    c ← take_rows rows (snd kc); Ok (fst kc, c)) (columns df)
            = Ok cols') as ->; [|done].
    apply mapM_Ok. eapply Forall2_impl; [exact Hcols|].
    intros [k c] [k' c'] [Hk Hc]. cbn in *. rewrite Hc. cbn. by rewrite Hk.
Qed.

Lemma iloc_names df rows df' : iloc df rows = Ok df' -> names df' = names df.
Proof.
  intros [_ H]%iloc_Ok. unfold names.
  induction H as [|kc kc' cols cols' [Hk _] _ IH]; cbn; [done|]. by rewrite Hk, IH.
Qed.

Lemma wf_frame_lookup df k c :
  wf_frame df = true -> lookup_col k (columns df) = Some c -> length c = nrows df.
Proof.
  unfold wf_frame. generalize (nrows df) as n. intros n.
  induction (columns df) as [|[k0 c0] cols IH]; cbn; [discriminate|].
  intros [H0 Hr]%andb_true_iff. destruct (String.eqb k0 k).
  - intros [= <-]. by apply Nat.eqb_eq.
  - by apply IH.
Qed.

Lemma iloc_total df rows :
  wf_frame df = true -> Forall (fun i => (i < nrows df)%nat) rows ->
  exists df', iloc df rows = Ok df'.
Proof.
  intros Hwf Hrows.
  destruct (take_rows_total rows (index df) Hrows) as [ix Hix].
  assert (exists cols', Forall2 (fun kc kc' : string * list cell =>
             fst kc' = fst kc /\ take_rows rows (snd kc) = Ok (snd kc'))
             (columns df) cols') as [cols' Hcols].
  { unfold wf_frame in Hwf. revert Hwf. generalize (nrows df) as n, Hrows.
    intros n Hn. induction (columns df) as [|[k c] cols IH]; cbn.
    - intros _. exists []. constructor.
    - intros [Hc Hr]%andb_true_iff. destruct (IH Hr) as [cols' Hcols'].
      apply Nat.eqb_eq in Hc. cbn in Hc.
      destruct (take_rows_total rows c) as [c' Hc']; [by rewrite Hc|].
      exists ((k, c') :: cols'). constructor; [done | exact Hcols']. }
  exists (mkDataFrame ix cols'). by apply iloc_Ok.
Qed.

Lemma iloc_series_Ok s rows s' :
  iloc_series s rows = Ok s' <->
  take_rows rows (s_index s) = Ok (s_index s') /\
  take_rows rows (s_values s) = Ok (s_values s').
Proof.
  unfold iloc_series. split.
  - intros H. inv_bind H. inv_bind H. by injection H as <-.
  - destruct s' as [ix v]. cbn. by intros [-> ->].
Qed.

Lemma wf_frame_features data t :
  wf_frame data = true -> wf_frame (features_of data t) = true.
Proof.
  unfold wf_frame, features_of, nrows. cbn. generalize (length (index data)) as n.
  intros n. induction (columns data) as [|[k c] cols IH]; cbn; [done|].
  intros [Hc Hr]%andb_true_iff. destruct (String.eqb k t); cbn; [by apply IH|].
  rewrite Hc. by apply IH.
Qed.

Section SplitSpec.

Variable rng : Type.
Variable RandomState : Z -> rng.
Variable random_interval : rng -> nat -> nat * rng.

Local Abbreviation split := (split_data rng RandomState random_interval).
Local Abbreviation train := (train_rows rng RandomState random_interval).
Local Abbreviation test := (test_rows rng RandomState random_interval).
Local Abbreviation perm42 n := (fst (permutation rng random_interval (RandomState 42) n)).

Lemma perm42_length n : length (perm42 n) = n.
Proof. by rewrite permutation_Permutation, length_seq. Qed.

Lemma n_test_of_le n : (n_test_of (1 # 5) n <= n)%nat.
Proof. pose proof (n_test_of_fifth n). lia. Qed.

Lemma test_train_rows n : test n ++ train n = perm42 n.
Proof.
  unfold test_rows, train_rows.
  rewrite (take_ge (drop _ _)); [apply take_drop|].
  rewrite length_drop, perm42_length. lia.
Qed.

Lemma rows_Permutation n : train n ++ test n ≡ₚ seq 0 n.
Proof.
  rewrite Permutation_app_comm, test_train_rows. apply permutation_Permutation.
Qed.

Lemma test_rows_length n : length (test n) = n_test_of (1 # 5) n.
Proof.
  unfold test_rows. rewrite length_take, perm42_length.
  pose proof (n_test_of_le n). lia.
Qed.

Lemma train_rows_length n : length (train n) = (n - n_test_of (1 # 5) n)%nat.
Proof.
  unfold train_rows. rewrite length_take, length_drop, perm42_length. lia.
Qed.

Lemma rows_bound n :
  Forall (fun i => (i < n)%nat) (train n) /\ Forall (fun i => (i < n)%nat) (test n).
Proof.
  apply Forall_app. rewrite rows_Permutation.
  apply Forall_forall. intros i Hi%elem_of_seq. lia.
Qed.

Lemma split_data_unfold data t :
  split data t =
  y ← getitem data t;
  if bool_decide (2 <= nrows data)%nat then
    X_train ← iloc (features_of data t) (train (nrows data));
    X_test ← iloc (features_of data t) (test (nrows data));
    y_train ← iloc_series (mkSeries (index data) y) (train (nrows data));
    y_test ← iloc_series (mkSeries (index data) y) (test (nrows data));
    Ok (X_train, X_test, y_train, y_test)
  else Raise (ValueError "the resulting train set will be empty").
Proof.
  unfold split_data. destruct (getitem data t) as [y|e]; [|done].
  cbn [mbind result_bind]. unfold train_test_split.
  change (nrows (features_of data t)) with (nrows data).
  change (length (s_index (mkSeries (index data) y))) with (nrows data).
  rewrite Nat.eqb_refl. cbn [negb].
  rewrite validate_shuffle_split_fifth. case_bool_decide; done.
Qed.

Lemma split_data_inv data t X_train X_test y_train y_test :
  split data t = Ok (X_train, X_test, y_train, y_test) ->
  exists y,
    getitem data t = Ok y /\ (2 <= nrows data)%nat /\
    iloc (features_of data t) (train (nrows data)) = Ok X_train /\
    iloc (features_of data t) (test (nrows data)) = Ok X_test /\
    iloc_series (mkSeries (index data) y) (train (nrows data)) = Ok y_train /\
    iloc_series (mkSeries (index data) y) (test (nrows data)) = Ok y_test.
Proof.
  rewrite split_data_unfold. intros H. inv_bind H. exists v. split; [done|].
  case_bool_decide as Hn; [|discriminate]. split; [done|].
  do 4 inv_bind H. by injection H as <- <- <- <-.
Qed.

Lemma split_data_total data t :
  wf_frame data = true -> t ∈ names data -> (2 <= nrows data)%nat ->
  exists parts, split data t = Ok parts.
Proof.
  intros Hwf [y Hy]%names_getitem Hn.
  rewrite split_data_unfold, Hy. cbn [mbind result_bind].
  rewrite bool_decide_true by done.
  destruct (rows_bound (nrows data)) as [Htr Hte].
  pose proof (wf_frame_features data t Hwf) as Hwf'.
  destruct (iloc_total (features_of data t) (train (nrows data)) Hwf' Htr) as [a ->].
  destruct (iloc_total (features_of data t) (test (nrows data)) Hwf' Hte) as [b ->].
  cbn [mbind result_bind]. unfold iloc_series. cbn [s_index s_values].
  destruct (take_rows_total (train (nrows data)) (index data) Htr) as [i1 ->].
  apply getitem_Ok in Hy. pose proof (wf_frame_lookup _ _ _ Hwf Hy) as Hlen.
  destruct (take_rows_total (train (nrows data)) y) as [v1 ->]; [by rewrite Hlen|].
  destruct (take_rows_total (test (nrows data)) (index data) Hte) as [i2 ->].
  destruct (take_rows_total (test (nrows data)) y) as [v2 ->]; [by rewrite Hlen|].
  cbn. eauto.
Qed.

Lemma split_data_small data t :
  t ∈ names data -> (nrows data < 2)%nat ->
  split data t = Raise (ValueError "the resulting train set will be empty").
Proof.
  intros [y Hy]%names_getitem Hn.
  rewrite split_data_unfold, Hy. cbn [mbind result_bind].
  by rewrite bool_decide_false by lia.
Qed.

Lemma split_labels_inv data t X_train X_test y_train y_test :
  split data t = Ok (X_train, X_test, y_train, y_test) ->
  take_rows (train (nrows data)) (index data) = Ok (index X_train) /\
  take_rows (test (nrows data)) (index data) = Ok (index X_test) /\
  s_index y_train = index X_train /\ s_index y_test = index X_test.
Proof.
  intros (y & _ & _ & [H1 _]%iloc_Ok & [H2 _]%iloc_Ok
          & [H3 _]%iloc_series_Ok & [H4 _]%iloc_series_Ok)%split_data_inv.
  cbn in *. repeat split; congruence.
Qed.

Lemma names_features_of data t :
  names (features_of data t)
  = List.filter (fun k => negb (String.eqb k t)) (names data).
Proof.
  unfold names, features_of. cbn.
  induction (columns data) as [|[k c] cols IH]; cbn; [done|].
  destruct (String.eqb k t); cbn; by rewrite IH.
Qed.

Lemma elem_of_names_features_of data t k :
  k ∈ names (features_of data t) <-> k ∈ names data /\ k <> t.
Proof.
  rewrite names_features_of, !list_elem_of_In, filter_In, negb_true_iff.
  by rewrite String.eqb_neq.
Qed.

(** C3, as the code has it.  On a table of at least two rows that has the
    target column, [split_data] returns four parts; the rows of the train
    part and of the test part are the table's rows at two lists of
    positions that together are a rearrangement of all positions, the test
    part holds the ceiling of a fifth of the rows, the label series carry
    the row labels of their feature tables, and any call on a table with
    the same row labels yields the same row labels in each part. *)
Theorem split_data_partition data t :
  wf_frame data = true -> t ∈ names data -> (2 <= nrows data)%nat ->
  exists X_train X_test y_train y_test,
    split data t = Ok (X_train, X_test, y_train, y_test) /\
    train (nrows data) ++ test (nrows data) ≡ₚ seq 0 (nrows data) /\
    NoDup (train (nrows data) ++ test (nrows data)) /\
    take_rows (train (nrows data)) (index data) = Ok (index X_train) /\
    take_rows (test (nrows data)) (index data) = Ok (index X_test) /\
    index X_train ++ index X_test ≡ₚ index data /\
    (NoDup (index data) -> forall i, i ∈ index X_train -> i ∉ index X_test) /\
    s_index y_train = index X_train /\ s_index y_test = index X_test /\
    (nrows data <= 5 * length (index X_test) < nrows data + 5)%nat /\
    length (index X_train) = (nrows data - length (index X_test))%nat /\
    forall data' t' parts',
      index data' = index data -> split data' t' = Ok parts' ->
      split_labels parts' = (index X_train, index X_test, s_index y_train, s_index y_test).
Proof.
  intros Hwf Ht Hn.
  destruct (split_data_total data t Hwf Ht Hn) as [[[[Xtr Xte] ytr] yte] Hsplit].
  exists Xtr, Xte, ytr, yte. split; [done|].
  destruct (split_labels_inv _ _ _ _ _ _ Hsplit) as (H1 & H2 & H3 & H4).
  pose proof (rows_Permutation (nrows data)) as Hperm.
  assert (index Xtr ++ index Xte ≡ₚ index data) as Hix.
  { pose proof (take_rows_app _ _ _ _ _ H1 H2) as Happ.
    destruct (take_rows_Permutation _ _ _ _ Hperm Happ) as (r' & Hr' & Hp).
    unfold nrows in Hr'. rewrite take_rows_seq in Hr'. by injection Hr' as <-. }
  repeat split; try done.
  - rewrite Hperm. apply NoDup_seq.
  - intros Hnd i Hi. rewrite <- Hix in Hnd. apply NoDup_app in Hnd as (_ & Hd & _).
    by apply Hd.
  - apply take_rows_length in H2. rewrite H2, test_rows_length.
    apply n_test_of_fifth.
  - apply take_rows_length in H2. rewrite H2, test_rows_length.
    apply n_test_of_fifth.
  - apply take_rows_length in H1, H2. rewrite H1, H2.
    by rewrite train_rows_length, test_rows_length.
  - intros data' t' [[[Xtr' Xte'] ytr'] yte'] Hix' Hsplit'.
    destruct (split_labels_inv _ _ _ _ _ _ Hsplit') as (H1' & H2' & H3' & H4').
    unfold nrows in *. rewrite Hix' in H1', H2'. cbn.
    rewrite H3', H4', H3, H4. rewrite H1 in H1'. rewrite H2 in H2'.
    injection H1' as <-. injection H2' as <-. done.
Qed.

(** On a table that has both label columns, the split for the fraud target
    and the split for the late-delivery target raise together or return
    together, and when they return, each part of one has the row labels of
    the same part of the other. *)
Lemma splits_share_rows data :
  wf_frame data = true -> "fraud" ∈ names data -> "late_delivery" ∈ names data ->
  split_labels <$> split data "fraud" = split_labels <$> split data "late_delivery" /\
  ((2 <= nrows data)%nat ->
   is_Ok (split data "fraud") = true /\ is_Ok (split data "late_delivery") = true) /\
  forall Xf_train Xf_test yf_train yf_test Xl_train Xl_test yl_train yl_test,
    split data "fraud" = Ok (Xf_train, Xf_test, yf_train, yf_test) ->
    split data "late_delivery" = Ok (Xl_train, Xl_test, yl_train, yl_test) ->
    index Xf_train = index Xl_train /\ index Xf_test = index Xl_test /\
    forall i, i ∈ index Xf_test <-> i ∈ index Xl_test.
Proof.
  intros Hwf Hf Hl.
  assert (forall pf pl, split data "fraud" = Ok pf -> split data "late_delivery" = Ok pl ->
            split_labels pf = split_labels pl) as Hsame.
  { intros [[[a b] c] d] [[[a' b'] c'] d'] H1 H2.
    destruct (split_labels_inv _ _ _ _ _ _ H1) as (Ha & Hb & Hc & Hd).
    destruct (split_labels_inv _ _ _ _ _ _ H2) as (Ha' & Hb' & Hc' & Hd').
    cbn. rewrite Hc, Hd, Hc', Hd'. rewrite Ha in Ha'. rewrite Hb in Hb'.
    injection Ha' as <-. injection Hb' as <-. done. }
  split; [|split].
  - destruct (decide (2 <= nrows data)%nat) as [Hn|Hn].
    + destruct (split_data_total data "fraud" Hwf Hf Hn) as [pf Hpf].
      destruct (split_data_total data "late_delivery" Hwf Hl Hn) as [pl Hpl].
      rewrite Hpf, Hpl. cbn. f_equal. by apply Hsame.
    + rewrite !split_data_small by (done || lia). done.
  - intros Hn.
    destruct (split_data_total data "fraud" Hwf Hf Hn) as [pf ->].
    destruct (split_data_total data "late_delivery" Hwf Hl Hn) as [pl ->]. done.
  - intros * H1 H2. pose proof (Hsame _ _ H1 H2) as Heq. cbn in Heq.
    injection Heq as -> -> _ _. done.
Qed.

End SplitSpec.

(** ** Well-formed tables stay well formed *)

Lemma wf_cols_assign n k v cols :
  wf_cols n cols = true -> length v = n -> wf_cols n (assign_col k v cols) = true.
Proof.
  intros H Hv. induction cols as [|[k0 c0] cols IH]; cbn in *.
  - rewrite Hv, Nat.eqb_refl. done.
  - apply andb_true_iff in H as [H0 Hr]. destruct (String.eqb k0 k); cbn.
    + rewrite Hv, Nat.eqb_refl. done.
    + rewrite H0. by apply IH.
Qed.

Lemma wf_cols_filter n f cols :
  wf_cols n cols = true -> wf_cols n (List.filter f cols) = true.
Proof.
  intros H. induction cols as [|kc cols IH]; cbn in *; [done|].
  apply andb_true_iff in H as [H0 Hr]. destruct (f kc); cbn; [rewrite H0|]; by apply IH.
Qed.

Lemma encode_length classes y codes :
  encode classes y = Ok codes -> length codes = length y.
Proof. intros H%encode_codes. symmetry. by eapply Forall2_length. Qed.

Lemma encode_columns_wf cols : forall le data le' data',
  encode_columns le data cols = Ok (le', data') ->
  wf_frame data = true -> wf_frame data' = true.
Proof.
  induction cols as [|c cols IH]; intros le data le' data' H Hwf; cbn in H.
  - by injection H as <- <-.
  - inv_bind H. inv_bind H. destruct v0 as [le1 codes]. inv_bind H.
    apply setitem_Ok in E1 as [-> Hlen]. eapply IH; [exact H|].
    unfold wf_frame, nrows. cbn. by apply wf_cols_assign.
Qed.

Lemma preprocess_data_wf parse guess strptime ds data :
  wf_frame ds = true -> preprocess_data parse guess strptime ds = Ok data ->
  wf_frame data = true /\ index data = index ds /\
  "fraud" ∈ names data /\ "late_delivery" ∈ names data.
Proof.
  intros Hwf H.
  destruct (label_column parse guess strptime ds data "fraud" H) as
    (status & delivery & _ & _ & _ & _ & Hf & Hl); [by left|].
  apply getitem_names in Hf, Hl.
  apply preprocess_data_Ok in H as (pre & le & Hpre & Henc).
  pose proof (encode_columns_wf _ _ _ _ _ Henc) as Hwf'.
  apply encode_columns_Ok in Henc as (Hix & _).
  apply derive_columns_Ok in Hpre
    as (fname & lname & zipcode & d & ix & qty & tot & price & status' & delivery'
        & _ & _ & _ & _ & _ & _ & _ & _ & _ & _ & (L1 & L2 & L3 & L4 & L5 & L6) & ->).
  repeat split; try done.
  apply Hwf'. unfold wf_frame, derived, nrows. cbn [index columns].
  unfold np_where, fillna.
  repeat first [ apply wf_cols_filter | apply wf_cols_assign ];
    rewrite ?length_map; done.
Qed.

(** ** The columns of the feature tables *)

Section FeatureColumns.

Variable parse_datetime : string -> option Z.
Variable guess_datetime_format : string -> option string.
Variable strptime : string -> string -> option Z.
Variable rng : Type.
Variable RandomState : Z -> rng.
Variable random_interval : rng -> nat -> nat * rng.

(** C9.  For either target, the feature table [split_data] builds from the
    processed table has the processed table's columns in their order, the
    target alone left out, each with its content; the other label column is
    among them, and the train and test feature tables carry the same
    columns. *)
Theorem features_keep_other_label ds data t other :
  preprocess_data parse_datetime guess_datetime_format strptime ds = Ok data ->
  (t, other) ∈ [("fraud", "late_delivery"); ("late_delivery", "fraud")] ->
  names (features_of data t)
  = List.filter (fun k => negb (String.eqb k t)) (names data) /\
  (forall k, k ∈ names (features_of data t) <-> k ∈ names data /\ k <> t) /\
  (forall k, k <> t -> getitem (features_of data t) k = getitem data k) /\
  other ∈ names (features_of data t) /\
  forall X_train X_test y_train y_test,
    split_data rng RandomState random_interval data t
    = Ok (X_train, X_test, y_train, y_test) ->
    names X_train = names (features_of data t) /\
    names X_test = names (features_of data t) /\
    other ∈ names X_train /\ other ∈ names X_test.
Proof.
  intros H Ht.
  destruct (label_column parse_datetime guess_datetime_format strptime ds data "fraud" H) as
    (status & delivery & _ & _ & _ & _ & Hf & Hl); [by left|].
  apply getitem_names in Hf, Hl.
  assert (other ∈ names (features_of data t)) as Hother.
  { apply elem_of_names_features_of.
    repeat apply elem_of_cons in Ht as [[= -> ->]|Ht]; [done | done |].
    by apply elem_of_nil in Ht. }
  split; [apply names_features_of|].
  split; [intros k; apply elem_of_names_features_of|].
  split.
  { intros k Hk. unfold features_of, getitem. cbn [columns].
    rewrite lookup_col_filter_ne; [done|]. by apply string_eqb_ne. }
  split; [done|].
  intros * (y & _ & _ & Htr%iloc_names & Hte%iloc_names & _)%split_data_inv.
  by rewrite Htr, Hte.
Qed.

(** C10.  The two splits [main] makes of the processed table, one per
    target, raise together or return together (they return when the table
    has at least two rows), and when they return, each part of one has the
    row labels of the same part of the other: a row is on the test side of
    the fraud split exactly when it is on the test side of the
    late-delivery split. *)
Theorem fraud_and_late_splits_share_rows ds data :
  wf_frame ds = true ->
  preprocess_data parse_datetime guess_datetime_format strptime ds = Ok data ->
  split_labels <$> split_data rng RandomState random_interval data "fraud"
  = split_labels <$> split_data rng RandomState random_interval data "late_delivery" /\
  ((2 <= nrows ds)%nat ->
   is_Ok (split_data rng RandomState random_interval data "fraud") = true /\
   is_Ok (split_data rng RandomState random_interval data "late_delivery") = true) /\
  forall Xf_train Xf_test yf_train yf_test Xl_train Xl_test yl_train yl_test,
    split_data rng RandomState random_interval data "fraud"
    = Ok (Xf_train, Xf_test, yf_train, yf_test) ->
    split_data rng RandomState random_interval data "late_delivery"
    = Ok (Xl_train, Xl_test, yl_train, yl_test) ->
    index Xf_train = index Xl_train /\ index Xf_test = index Xl_test /\
    forall i, i ∈ index Xf_test <-> i ∈ index Xl_test.
Proof.
  intros Hwf H.
  destruct (preprocess_data_wf _ _ _ _ _ Hwf H) as (Hwf' & Hix & Hf & Hl).
  destruct (splits_share_rows rng RandomState random_interval data Hwf' Hf Hl)
    as (H1 & H2 & H3).
  split; [exact H1|]. split; [|exact H3].
  intros Hn. apply H2. unfold nrows in *. by rewrite Hix.
Qed.

End FeatureColumns.

(** ** The scaler *)

Lemma check_array_Ok X X' : check_array X = Ok X' -> X' = X.
Proof.
  unfold check_array. destruct X as [|row X]; [discriminate|].
  destruct (Nat.eqb (length row) 0); [discriminate|].
  destruct (existsb _ _); [discriminate|]. by intros [= <-].
Qed.

Lemma transform_Ok st X Xs :
  transform (Some st) X = Ok Xs ->
  Xs = map (fun row => scale_row row (mean_ st) (scale_ st)) X /\
  n_features X = length (mean_ st).
Proof.
  unfold transform. intros H. inv_bind H. apply check_array_Ok in E as ->.
  destruct (Nat.eqb_spec (n_features X) (length (mean_ st))) as [Hn|Hn];
    cbn in H; [|discriminate].
  by injection H as <-.
Qed.

Lemma fit_Ok X st :
  fit X = Ok st ->
  st = mkStats (map (col_mean (has_nan X))
                  (map (fun j => column_of j X) (seq 0 (n_features X))))
               (map (col_scale (has_nan X))
                  (map (fun j => column_of j X) (seq 0 (n_features X)))).
Proof.
  unfold fit. intros H. inv_bind H. apply check_array_Ok in E as ->.
  by injection H as <-.
Qed.

Lemma scale_row_lookup row means scales j x m s :
  row !! j = Some x -> means !! j = Some m -> scales !! j = Some s ->
  scale_row row means scales !! j = Some ((x - m) / s)%float.
Proof.
  revert means scales j. induction row as [|x0 row IH];
    intros [|m0 means] [|s0 scales] [|j]; cbn; try done.
  - by intros [= ->] [= ->] [= ->].
  - apply IH.
Qed.

(** The sum of a long run does not depend on the fuel it is given, as long
    as there is one unit for every entry. *)
Lemma pairwise_sum_rec_unfold fuel a :
  pairwise_sum_rec fuel a =
  if (length a <? 8)%nat then fold_left PrimFloat.add a (-0)%float
  else if (length a <=? 128)%nat then sum_unrolled a
  else
    match fuel with
    | O => 0%float
    | S fuel' =>
        let n2 := (length a / 2 - (length a / 2) mod 8)%nat in
        (pairwise_sum_rec fuel' (take n2 a) + pairwise_sum_rec fuel' (drop n2 a))%float
    end.
Proof. destruct fuel; reflexivity. Qed.

Lemma halves_shorter (n : nat) :
  (128 < n)%nat ->
  (0 < n / 2 - (n / 2) mod 8 < n)%nat.
Proof.
  intros Hn.
  pose proof (Nat.div_mod_eq n 2) as H2.
  pose proof (Nat.mod_upper_bound n 2 ltac:(lia)) as H3.
  pose proof (Nat.mod_upper_bound (n / 2) 8 ltac:(lia)) as H4.
  lia.
Qed.

Lemma pairwise_sum_rec_fuel f1 : forall f2 a,
  (length a <= f1)%nat -> (length a <= f2)%nat ->
  pairwise_sum_rec f1 a = pairwise_sum_rec f2 a.
Proof.
  induction f1 as [|f1 IH]; intros f2 a H1 H2; rewrite !pairwise_sum_rec_unfold.
  - assert ((length a <? 8)%nat = true) as -> by (apply Nat.ltb_lt; lia). done.
  - destruct (Nat.ltb_spec (length a) 8) as [|H8]; [done|].
    destruct (Nat.leb_spec (length a) 128) as [|H128]; [done|].
    destruct f2 as [|f2]; [lia|]. cbv zeta.
    pose proof (halves_shorter _ H128) as Hh.
    f_equal; apply IH; rewrite ?length_take, ?length_drop; lia.
Qed.

(** How [np.sum] adds a run of doubles, case by case. *)
Lemma np_sum_cases (c : list float) :
  np_sum c = match c with [] => 0%float | _ => (-0 + pairwise_sum c)%float end /\
  ((length c < 8)%nat -> pairwise_sum c = fold_left PrimFloat.add c (-0)%float) /\
  ((8 <= length c <= 128)%nat ->
   let r := fun k =>
     fold_left PrimFloat.add
       (map (fun b => nth (8 * b + k) c 0%float) (seq 1 (length c / 8 - 1)))
       (nth k c 0%float) in
   pairwise_sum c
   = fold_left PrimFloat.add (drop (8 * (length c / 8)) c)
       (((r 0%nat + r 1%nat) + (r 2%nat + r 3%nat))
            + ((r 4%nat + r 5%nat) + (r 6%nat + r 7%nat)))%float) /\
  ((128 < length c)%nat ->
   let n2 := (length c / 2 - (length c / 2) mod 8)%nat in
   pairwise_sum c = (pairwise_sum (take n2 c) + pairwise_sum (drop n2 c))%float).
Proof.
  split; [reflexivity|]. unfold pairwise_sum. rewrite pairwise_sum_rec_unfold.
  split; [|split].
  - intros H. by apply Nat.ltb_lt in H as ->.
  - intros [H8 H128]. cbv zeta.
    assert ((length c <? 8)%nat = false) as -> by (apply Nat.ltb_ge; lia).
    by apply Nat.leb_le in H128 as ->.
  - intros H128. cbv zeta.
    assert ((length c <? 8)%nat = false) as -> by (apply Nat.ltb_ge; lia).
    assert ((length c <=? 128)%nat = false) as -> by (apply Nat.leb_gt; lia).
    pose proof (halves_shorter _ H128) as Hh.
    destruct (length c) as [|f] eqn:E; [lia|]. rewrite <- E in *.
    f_equal; apply pairwise_sum_rec_fuel; rewrite ?length_take, ?length_drop; lia.
Qed.

(** C4.  When [standardize_data] returns, the scaler it used holds, for
    every column of the train matrix, the mean and the standard deviation
    of that column as [StandardScaler] computes them from its entries: the
    mean is their sum over their count, the variance the sum of the squared
    deviations from it, corrected by the square of the sum of the
    deviations, over the count, and the scale the square root of the
    variance, or 1 when the variance is within rounding of 0; a NaN is left
    out of the sums and of the count.  Every entry of both returned matrices
    is the entry of the input minus the mean, over the scale, of its column.
    A call with the same train matrix and any other test matrix leaves the
    same scaler and returns the same scaled train matrix.  The sums are
    those of [np.sum]. *)
Theorem standardize_uses_train_statistics X_train X_test scaler Xs_train Xs_test :
  standardize_data_scaler X_train X_test = Ok (scaler, (Xs_train, Xs_test)) ->
  exists means scales,
    scaler = Some (mkStats means scales) /\
    length means = length (hd [] X_train) /\ length scales = length (hd [] X_train) /\
    (forall j, (j < length (hd [] X_train))%nat ->
       let col := map (fun row => nth j row nan) X_train in
       let add := fun c : list float =>
         if existsb (existsb PrimFloat.is_nan) X_train
         then np_sum (map (fun x => if PrimFloat.is_nan x then 0%float else x) c)
         else np_sum c in
       let n :=
         PrimFloat.of_uint63
           (Uint63.of_Z
              (Z.of_nat (length (List.filter (fun x => negb (PrimFloat.is_nan x)) col)))) in
       let mean := ((0 + add col) / n)%float in
       let dev := map (fun x => (x - add col / n)%float) col in
       let var :=
         ((add (map (fun d => (d * d)%float) dev) - add dev * add dev / n) / n)%float in
       means !! j = Some mean /\
       scales !! j
       = Some (if (var <=? n * 0x1p-52 * var
                           + (n * mean * 0x1p-52) * (n * mean * 0x1p-52))%float
               then 1%float else PrimFloat.sqrt var)) /\
    length Xs_train = length X_train /\ length Xs_test = length X_test /\
    (forall i j row x,
       X_train !! i = Some row -> row !! j = Some x -> (j < length (hd [] X_train))%nat ->
       exists row' m s,
         Xs_train !! i = Some row' /\ means !! j = Some m /\ scales !! j = Some s /\
         row' !! j = Some ((x - m) / s)%float) /\
    (forall i j row x,
       X_test !! i = Some row -> row !! j = Some x -> (j < length (hd [] X_train))%nat ->
       exists row' m s,
         Xs_test !! i = Some row' /\ means !! j = Some m /\ scales !! j = Some s /\
         row' !! j = Some ((x - m) / s)%float) /\
    standardize_data X_train X_test = Ok (Xs_train, Xs_test) /\
    (forall X_test' scaler' Xs_train' Xs_test',
       standardize_data_scaler X_train X_test' = Ok (scaler', (Xs_train', Xs_test')) ->
       scaler' = scaler /\ Xs_train' = Xs_train) /\
    (forall c : list float,
       np_sum c = match c with [] => 0%float | _ => (-0 + pairwise_sum c)%float end /\
       ((length c < 8)%nat -> pairwise_sum c = fold_left PrimFloat.add c (-0)%float) /\
       ((8 <= length c <= 128)%nat ->
        let r := fun k =>
          fold_left PrimFloat.add
            (map (fun b => nth (8 * b + k) c 0%float) (seq 1 (length c / 8 - 1)))
            (nth k c 0%float) in
        pairwise_sum c
        = fold_left PrimFloat.add (drop (8 * (length c / 8)) c)
            (((r 0%nat + r 1%nat) + (r 2%nat + r 3%nat))
            + ((r 4%nat + r 5%nat) + (r 6%nat + r 7%nat)))%float) /\
       ((128 < length c)%nat ->
        let n2 := (length c / 2 - (length c / 2) mod 8)%nat in
        pairwise_sum c = (pairwise_sum (take n2 c) + pairwise_sum (drop n2 c))%float)).
Proof.
  replace (length (hd [] X_train)) with (n_features X_train) by (by destruct X_train).
  change (fun c : list float => PrimFloat.of_uint63 (Uint63.of_Z (Z.of_nat (length c))))
    with float_of_nat.
  intros H. pose proof H as H0.
  assert (forall Xt sc a b,
            standardize_data_scaler X_train Xt = Ok (sc, (a, b)) ->
            exists st, fit X_train = Ok st /\ sc = Some st /\
              a = map (fun row => scale_row row (mean_ st) (scale_ st)) X_train /\
              b = map (fun row => scale_row row (mean_ st) (scale_ st)) Xt) as Hinv.
  { intros Xt sc a b Hr. unfold standardize_data_scaler in Hr.
    apply bind_Ok in Hr as ([sc1 Xs] & Hft & Hr).
    unfold scaler_fit_transform in Hft.
    apply bind_Ok in Hft as (st & Hfit & Hft).
    apply bind_Ok in Hft as (Xs' & Htr & Hft). injection Hft as <- <-.
    apply bind_Ok in Hr as (Xs_t & Hte & Hr). injection Hr as <- <- <-.
    apply transform_Ok in Htr as [-> _]. apply transform_Ok in Hte as [-> _].
    exists st. done. }
  destruct (Hinv _ _ _ _ H) as (st & Hfit & -> & -> & ->).
  pose proof (fit_Ok _ _ Hfit) as ->. cbn [mean_ scale_] in *.
  set (cols := map (fun j => column_of j X_train) (seq 0 (n_features X_train))) in *.
  assert (forall j, (j < n_features X_train)%nat ->
            cols !! j = Some (column_of j X_train)) as Hcol.
  { intros j Hj. subst cols. by rewrite lookup_map, lookup_seq_lt. }
  assert (forall X i j row x,
            X !! i = Some row -> row !! j = Some x -> (j < n_features X_train)%nat ->
            exists row' m s,
              map (fun row => scale_row row (map (col_mean (has_nan X_train)) cols)
                                (map (col_scale (has_nan X_train)) cols)) X !! i
              = Some row' /\
              map (col_mean (has_nan X_train)) cols !! j = Some m /\
              map (col_scale (has_nan X_train)) cols !! j = Some s /\
              row' !! j = Some ((x - m) / s)%float) as Hrows.
  { intros X i j row x Hi Hx Hj. rewrite lookup_map, Hi. cbn.
    eexists _, _, _. split; [reflexivity|].
    assert (map (col_mean (has_nan X_train)) cols !! j
            = Some (col_mean (has_nan X_train) (column_of j X_train))) as Hm
      by (by rewrite lookup_map, Hcol).
    assert (map (col_scale (has_nan X_train)) cols !! j
            = Some (col_scale (has_nan X_train) (column_of j X_train))) as Hs
      by (by rewrite lookup_map, Hcol).
    split; [exact Hm|]. split; [exact Hs|]. by apply scale_row_lookup. }
  eexists _, _. split; [reflexivity|].
  split; [subst cols; by rewrite !length_map, length_seq|].
  split; [subst cols; by rewrite !length_map, length_seq|].
  split.
  { intros j Hj. cbv zeta. rewrite !lookup_map, (Hcol j Hj). cbn [fmap option_fmap option_map].
    split; reflexivity. }
  split; [by rewrite length_map|]. split; [by rewrite length_map|].
  split; [apply Hrows|]. split; [apply Hrows|].
  split; [unfold standardize_data; by rewrite H0|].
  split; [|apply np_sum_cases].
  intros Xt sc a b Hr.
  destruct (Hinv _ _ _ _ Hr) as (st' & Hfit' & -> & -> & ->).
  rewrite Hfit in Hfit'. by injection Hfit' as <-.
Qed.

(** ** Traces *)

Lemma files_written_app a b :
  files_written (a ++ b) = files_written a ++ files_written b.
Proof.
  induction a as [|e a IH]; cbn; [done|]. destruct e; cbn; by rewrite IH.
Qed.

Lemma files_written_model_events l : files_written (flat_map model_events l) = [].
Proof. induction l as [|m l IH]; cbn; done. Qed.

Lemma fit_addresses_app t a b :
  fit_addresses t (a ++ b) = fit_addresses t a ++ fit_addresses t b.
Proof.
  induction a as [|e a IH]; cbn; [done|].
  destruct e as [m t' b'| |]; cbn; [|done|done].
  destruct (String.eqb t' t); cbn; by rewrite IH.
Qed.

Lemma fit_addresses_model_events t l :
  t = "fraud" \/ t = "late_delivery" ->
  fit_addresses t (flat_map model_events l) = l.
Proof.
  intros [-> | ->]; induction l as [|m l IH]; cbn; by rewrite ?IH.
Qed.

Lemma files_content_app a b :
  files_content (a ++ b) = files_content a ++ files_content b.
Proof.
  induction a as [|e a IH]; cbn; [done|]. destruct e; cbn; by rewrite IH.
Qed.

Lemma files_content_model_events l : files_content (flat_map model_events l) = [].
Proof. induction l as [|m l IH]; cbn; done. Qed.

Lemma calls_on_app m a b : calls_on m (a ++ b) = calls_on m a ++ calls_on m b.
Proof. unfold calls_on. apply List.filter_app. Qed.

Lemma calls_on_csv m path rows : calls_on m [EvToCsv path rows] = [].
Proof. reflexivity. Qed.

Lemma calls_on_model_events_eq m : calls_on m (model_events m) = model_events m.
Proof. unfold calls_on, model_events. cbn. by rewrite !bool_decide_eq_true_2. Qed.

Lemma calls_on_model_events_ne m m' : m <> m' -> calls_on m (model_events m') = [].
Proof.
  intros Hne. unfold calls_on, model_events. cbn.
  rewrite !bool_decide_eq_false_2; [done|..]; intros [=]; done.
Qed.

Lemma calls_on_flat_map m l :
  NoDup l ->
  calls_on m (flat_map model_events l) = if decide (m ∈ l) then model_events m else [].
Proof.
  induction 1 as [|m' l Hm' Hnd IH]; cbn [flat_map].
  - by destruct (decide (m ∈ [])) as [?%elem_of_nil|].
  - rewrite calls_on_app, IH. destruct (decide (m = m')) as [->|Hne].
    + rewrite calls_on_model_events_eq.
      destruct (decide (m' ∈ l)); [done|].
      destruct (decide (m' ∈ m' :: l)) as [|Hn]; [by rewrite (right_id_L [] (++))|].
      destruct Hn. left.
    + rewrite calls_on_model_events_ne by done. cbn [app].
      destruct (decide (m ∈ l)) as [Hin|Hin].
      * destruct (decide (m ∈ m' :: l)) as [|Hn]; [done|]. destruct Hn. by right.
      * destruct (decide (m ∈ m' :: l)) as [[|]%elem_of_cons|]; done.
Qed.

Lemma calls_on_prefix m failing p :
  p `prefix_of` model_events failing ->
  calls_on m p = if decide (m = failing) then p else [].
Proof.
  intros [k Hk]. destruct (decide (m = failing)) as [->|Hne].
  - pose proof (calls_on_model_events_eq failing) as H.
    rewrite Hk, calls_on_app in H.
    assert (length (calls_on failing p) <= length p)%nat as H1
      by apply List.filter_length_le.
    assert (length (calls_on failing k) <= length k)%nat as H2
      by apply List.filter_length_le.
    apply (f_equal length) in H as Hl. rewrite !length_app in Hl.
    apply app_inj_1 in H as [H _]; [done | lia].
  - pose proof (calls_on_model_events_ne m failing Hne) as H.
    rewrite Hk, calls_on_app in H. by apply app_eq_nil in H as [H _].
Qed.

(** The calls a run that stopped inside or after some entry made on one
    object are the first of the four calls of an entry, in their order. *)
Lemma run_events_calls finished failing p m :
  NoDup (finished ++ [failing]) ->
  p `prefix_of` model_events failing ->
  calls_on m (flat_map model_events finished ++ p) `prefix_of` model_events m.
Proof.
  intros Hnd Hp. apply NoDup_app in Hnd as (Hnd & Hdis & _).
  rewrite calls_on_app, calls_on_flat_map, (calls_on_prefix _ _ _ Hp) by done.
  destruct (decide (m ∈ finished)) as [Hin|Hin].
  - destruct (decide (m = failing)) as [->|_].
    + destruct (Hdis failing Hin). left.
    + by rewrite (right_id_L [] (++)).
  - cbn [app]. destruct (decide (m = failing)) as [->|_]; [done | apply prefix_nil].
Qed.

(** The beginnings of the four calls of one roster entry. *)
Lemma prefix_model_events p m :
  p `prefix_of` model_events m ->
  p = [] \/ p = [EvFit m "fraud" false] \/
  p = [EvFit m "fraud" false; EvPredict m "fraud"] \/
  p = [EvFit m "fraud" false; EvPredict m "fraud"; EvFit m "late_delivery" true] \/
  p = model_events m.
Proof.
  intros [k Hk]. unfold model_events in *.
  destruct p as [|x1 [|x2 [|x3 [|x4 [|x5 p]]]]]; cbn in Hk;
    [by left | try discriminate; injection Hk; intros; subst; eauto 6 ..].
Qed.

Lemma elem_of_model_events e m :
  e ∈ model_events m <->
  e = EvFit m "fraud" false \/ e = EvPredict m "fraud" \/
  e = EvFit m "late_delivery" true \/ e = EvPredict m "late_delivery".
Proof.
  unfold model_events. rewrite !elem_of_cons, elem_of_nil. tauto.
Qed.

(** In the events of a run that stopped inside or after some entry, an
    object fitted for the late-delivery target is one that was fitted for
    the fraud target just before, and each object is fitted at most once
    for each target. *)
Lemma run_events_refit finished failing p :
  NoDup (finished ++ [failing]) ->
  p `prefix_of` model_events failing ->
  let evs := flat_map model_events finished ++ p in
  (forall m b, EvFit m "late_delivery" b ∈ evs ->
     b = true /\ EvFit m "fraud" false ∈ evs) /\
  NoDup (fit_addresses "fraud" evs) /\
  NoDup (fit_addresses "late_delivery" evs) /\
  fit_addresses "late_delivery" evs `prefix_of` fit_addresses "fraud" evs.
Proof.
  intros Hnd Hp evs. split; [|split; [|split]].
  - intros m b [Hin|Hin]%elem_of_app.
    + apply list_elem_of_In, in_flat_map in Hin as (m' & Hm' & Hin).
      apply list_elem_of_In, elem_of_model_events in Hin.
      destruct Hin as [Hin|[Hin|[Hin|Hin]]]; try discriminate.
      injection Hin as Hm Hb. subst m' b. split; [done|].
      apply elem_of_app. left. apply list_elem_of_In, in_flat_map.
      exists m. split; [done|]. apply list_elem_of_In, elem_of_model_events. by left.
    + destruct (prefix_model_events _ _ Hp) as [->|[->|[->|[->| ->]]]];
        repeat (apply elem_of_cons in Hin as [Hin|Hin]; try discriminate);
        try (by apply elem_of_nil in Hin);
        injection Hin as Hm Hb; subst m b;
        (split; [done|]); apply elem_of_app; right; left.
  - subst evs. rewrite fit_addresses_app, fit_addresses_model_events by (by left).
    destruct (prefix_model_events _ _ Hp) as [->|[->|[->|[->| ->]]]]; cbn;
      rewrite ?(right_id_L [] (++));
      first [ exact Hnd | by apply NoDup_app in Hnd as (? & _ & _) ].
  - subst evs. rewrite fit_addresses_app, fit_addresses_model_events by (by right).
    destruct (prefix_model_events _ _ Hp) as [->|[->|[->|[->| ->]]]]; cbn;
      rewrite ?(right_id_L [] (++));
      first [ exact Hnd | by apply NoDup_app in Hnd as (? & _ & _) ].
  - subst evs. rewrite !fit_addresses_app.
    rewrite !fit_addresses_model_events by (by left) || (by right).
    destruct (prefix_model_events _ _ Hp) as [->|[->|[->|[->| ->]]]]; cbn;
      rewrite ?(right_id_L [] (++));
      first [ done | by exists [failing] ].
Qed.

(** ** The run of the roster *)

Section RunnerSpec.

Variable params : Type.
Variable entropy : Type.
Variable learn : classifier -> entropy -> ndarray -> Series -> entropy * result params.
Variable predict_with : classifier -> params -> ndarray -> result (list cell).
Variable accuracy_score : Series -> list cell -> result float.
Variable recall_score : Series -> list cell -> result float.
Variable f1_score : Series -> list cell -> result float.
Variable confusion_matrix : Series -> list cell -> result (list (list nat)).

Local Abbreviation world := (world params entropy).
Local Abbreviation model_obj := (model_obj params).
Local Abbreviation evaluate :=
  (evaluate_model params entropy learn predict_with accuracy_score recall_score
     f1_score confusion_matrix).

Lemma evaluate_model_spec m c old X_train X_test y_train y_test target
    (w w' : world) r :
  heap _ _ w !! m = Some (mkModel params c old) ->
  evaluate m X_train X_test y_train y_test target w = (w', r) ->
  length (heap _ _ w') = length (heap _ _ w) /\
  (forall m', m' <> m -> heap _ _ w' !! m' = heap _ _ w !! m') /\
  match r with
  | Ok _ =>
      trace _ _ w' = trace _ _ w
                     ++ [EvFit m target (bool_decide (is_Some old)); EvPredict m target] /\
      exists p y_pred,
        snd (learn c (np_random _ _ w) X_train y_train) = Ok p /\
        predict_with c p X_test = Ok y_pred /\
        heap _ _ w' !! m = Some (mkModel params c (Some p))
  | Raise _ =>
      (trace _ _ w' = trace _ _ w ++ [EvFit m target (bool_decide (is_Some old))] /\
       heap _ _ w' = heap _ _ w) \/
      (trace _ _ w' = trace _ _ w
                      ++ [EvFit m target (bool_decide (is_Some old)); EvPredict m target] /\
       exists p, heap _ _ w' !! m = Some (mkModel params c (Some p)))
  end.
Proof.
  intros Hm. pose proof (lookup_lt_Some _ _ _ Hm) as Hlt.
  unfold evaluate_model, model_fit, model_predict, relearn, deref, emit, lift.
  unfold mbind, M_bind, mret, M_ret. cbn [heap np_random trace].
  rewrite Hm. cbn [cls learned heap np_random trace].
  destruct (learn c (np_random _ _ w) X_train y_train) as [g [p|e]] eqn:Hlearn.
  - cbn [heap np_random trace]. rewrite list_lookup_insert_eq by done.
    cbn [cls learned heap np_random trace].
    rewrite <- (assoc_L (++)). cbn [app].
    assert (length (<[m:=mkModel params c (Some p)]> (heap _ _ w)) = length (heap _ _ w))
      as Hlen by apply length_insert.
    assert (forall m', m' <> m ->
              <[m:=mkModel params c (Some p)]> (heap _ _ w) !! m' = heap _ _ w !! m') as Hfr.
    { intros m' Hne. by rewrite list_lookup_insert_ne. }
    assert (<[m:=mkModel params c (Some p)]> (heap _ _ w) !! m
            = Some (mkModel params c (Some p))) as Hnew
      by (by rewrite list_lookup_insert_eq).
    destruct (predict_with c p X_test) as [y_pred|e] eqn:Hpred.
    + destruct (accuracy_score y_test y_pred), (recall_score y_test y_pred),
        (f1_score y_test y_pred), (confusion_matrix y_test y_pred);
        intros [= <- <-]; cbn [heap np_random trace];
        (split; [done|]); (split; [done|]); eauto 10.
    + intros [= <- <-]. cbn [heap np_random trace]. split; [done|]. split; [done|].
      right. eauto.
  - intros [= <- <-]. cbn [heap np_random trace]. split; [done|]. split; [done|].
    left. done.
Qed.

Section LoopSpec.

Variables X_train_f X_test_f : ndarray.
Variables y_train_f y_test_f : Series.
Variables X_train_l X_test_l : ndarray.
Variables y_train_l y_test_l : Series.

Local Abbreviation loop :=
  (run_loop params entropy learn predict_with accuracy_score recall_score
     f1_score confusion_matrix X_train_f X_test_f y_train_f y_test_f
     X_train_l X_test_l y_train_l y_test_l).
Local Abbreviation run :=
  (run_models params entropy learn predict_with accuracy_score recall_score
     f1_score confusion_matrix X_train_f X_test_f y_train_f y_test_f
     X_train_l X_test_l y_train_l y_test_l).

Local Abbreviation ran :=
  (ran params entropy learn predict_with X_train_f X_test_f y_train_f
     X_train_l X_test_l y_train_l).

Lemma run_loop_unfold model rest results (w : world) :
  loop (model :: rest) results w =
  match evaluate model X_train_f X_test_f y_train_f y_test_f "fraud" w with
  | (w1, Raise e) => (w1, Raise e)
  | (w1, Ok (acc_f, recall_f, f1_f)) =>
      match evaluate model X_train_l X_test_l y_train_l y_test_l "late_delivery" w1 with
      | (w2, Raise e) => (w2, Raise e)
      | (w2, Ok (acc_l, recall_l, f1_l)) =>
          match heap _ _ w2 !! model with
          | Some o =>
              loop rest (results ++ [mkRow (class_name (cls _ o)) acc_f recall_f f1_f
                                       acc_l recall_l f1_l]) w2
          | None => (w2, Raise IndexError)
          end
      end
  end.
Proof.
  cbn [run_loop]. unfold mbind at 1, M_bind at 1.
  destruct (evaluate model X_train_f X_test_f y_train_f y_test_f "fraud" w)
    as [w1 [[[acc_f recall_f] f1_f]|e]]; [|done].
  unfold mbind at 1, M_bind at 1.
  destruct (evaluate model X_train_l X_test_l y_train_l y_test_l "late_delivery" w1)
    as [w2 [[[acc_l recall_l] f1_l]|e]]; [|done].
  unfold mbind at 1, M_bind at 1, deref.
  destruct (heap _ _ w2 !! model); done.
Qed.

Lemma run_loop_spec models : forall results (w w' : world) r,
  NoDup models ->
  Forall (fun m => exists c, heap _ _ w !! m = Some (mkModel params c None)) models ->
  loop models results w = (w', r) ->
  length (heap _ _ w') = length (heap _ _ w) /\
  (forall m', m' ∉ models -> heap _ _ w' !! m' = heap _ _ w !! m') /\
  exists evs,
    trace _ _ w' = trace _ _ w ++ evs /\
    match r with
    | Ok rows =>
        evs = flat_map model_events models /\
        exists new_rows,
          rows = results ++ new_rows /\
          Forall2 (fun m row => exists c p,
                     heap _ _ w !! m = Some (mkModel params c None) /\
                     heap _ _ w' !! m = Some (mkModel params c (Some p)) /\
                     Model row = class_name c /\ ran c p) models new_rows
    | Raise _ =>
        exists finished failing rest p,
          models = finished ++ failing :: rest /\
          evs = flat_map model_events finished ++ p /\
          p `prefix_of` model_events failing /\ p <> []
    end.
Proof.
  induction models as [|m rest IH]; intros results w w' r Hnd Hun Hrun.
  - cbn in Hrun. injection Hrun as <- <-. split; [done|]. split; [done|].
    exists []. rewrite (right_id_L [] (++)). split; [done|]. split; [done|].
    exists []. by rewrite (right_id_L [] (++)).
  - apply NoDup_cons in Hnd as [Hm Hnd]. apply Forall_cons in Hun as [[c Hc] Hun].
    rewrite run_loop_unfold in Hrun.
    destruct (evaluate m X_train_f X_test_f y_train_f y_test_f "fraud" w)
      as [w1 r1] eqn:E1.
    destruct (evaluate_model_spec _ _ _ _ _ _ _ _ _ _ _ Hc E1) as (Hl1 & Hf1 & Ho1).
    destruct r1 as [[[acc_f recall_f] f1_f]|e1].
    2:{ injection Hrun as <- <-. split; [done|]. split.
        { intros m' Hm'. apply Hf1. intros ->. apply Hm'. left. }
        destruct Ho1 as [[Ht _]|[Ht _]]; eexists; (split; [exact Ht|]);
          exists [], m, rest; eexists; (split; [done|]); (split; [done|]);
          (split; [|done]).
        - by exists [EvPredict m "fraud"; EvFit m "late_delivery" true;
                     EvPredict m "late_delivery"].
        - by exists [EvFit m "late_delivery" true; EvPredict m "late_delivery"]. }
    destruct Ho1 as (Ht1 & p1 & yp1 & Hp1 & Hy1 & Hh1).
    destruct (evaluate m X_train_l X_test_l y_train_l y_test_l "late_delivery" w1)
      as [w2 r2] eqn:E2.
    destruct (evaluate_model_spec _ _ _ _ _ _ _ _ _ _ _ Hh1 E2) as (Hl2 & Hf2 & Ho2).
    destruct r2 as [[[acc_l recall_l] f1_l]|e2].
    2:{ injection Hrun as <- <-. split; [congruence|]. split.
        { intros m' Hm'. rewrite Hf2, Hf1; [done| |]; intros ->; apply Hm'; left. }
        destruct Ho2 as [[Ht _]|[Ht _]]; eexists;
          (split; [rewrite Ht, Ht1, <- (assoc_L (++)); reflexivity|]);
          exists [], m, rest; eexists; (split; [done|]); (split; [done|]);
          (split; [|done]).
        - by exists [EvPredict m "late_delivery"].
        - by exists []. }
    destruct Ho2 as (Ht2 & p2 & yp2 & Hp2 & Hy2 & Hh2).
    rewrite Hh2 in Hrun. cbn [cls] in Hrun.
    assert (Forall (fun m0 => exists c0, heap _ _ w2 !! m0 = Some (mkModel params c0 None)) rest)
      as Hun2.
    { apply Forall_forall. intros m0 Hm0.
      rewrite Forall_forall in Hun. destruct (Hun m0 Hm0) as [c0 Hc0].
      exists c0. rewrite Hf2, Hf1; [done| |]; intros ->; done. }
    destruct (IH _ _ _ _ Hnd Hun2 Hrun) as (Hl & Hf & evs & Ht & Hr).
    split; [congruence|]. split.
    { intros m' Hm'. apply not_elem_of_cons in Hm' as [Hne Hm'].
      rewrite Hf, Hf2, Hf1; done. }
    exists (model_events m ++ evs). split.
    { rewrite Ht, Ht2, Ht1. rewrite <- !(assoc_L (++)). done. }
    destruct r as [rows|e].
    + destruct Hr as (-> & new_rows & -> & Hrows). split; [done|].
      eexists (_ :: new_rows). split; [by rewrite <- (assoc_L (++))|].
      constructor.
      * exists c, p2. split; [done|]. split; [by rewrite Hf|]. split; [done|].
        exists (np_random _ _ w), p1, yp1, (np_random _ _ w1), yp2. done.
      * eapply Forall2_impl; [exact Hrows|]. intros m0 row (c0 & p0 & Ha & Hb & Hc0 & Hd).
        exists c0, p0. split; [|done].
        destruct (decide (m0 = m)) as [->|Hne]; [|by rewrite <- Hf1, <- Hf2].
        rewrite Hh2 in Ha. discriminate.
    + destruct Hr as (finished & failing & rest' & p & -> & -> & Hp & Hne).
      exists (m :: finished), failing, rest', p. split; [done|]. split; [|done].
      cbn [flat_map]. by rewrite <- (assoc_L (++)).
Qed.

Lemma run_models_unfold (w : world) :
  run w =
  match loop (seq (length (heap _ _ w)) (length roster)) []
          (mkWorld params entropy
             (heap _ _ w ++ map (fun c => mkModel params c None) roster)
             (np_random _ _ w) (trace _ _ w)) with
  | (w1, Ok rows) =>
      (mkWorld params entropy (heap _ _ w1) (np_random _ _ w1)
         (trace _ _ w1 ++ [EvToCsv "model_results.txt" rows]), Ok rows)
  | (w1, Raise e) => (w1, Raise e)
  end.
Proof.
  unfold run_models, new_models. unfold mbind at 1, M_bind at 1.
  unfold mbind at 1, M_bind at 1.
  destruct (loop _ _ _) as [w1 [rows|e]]; done.
Qed.

Lemma fresh_models_unfitted (h : list model_obj) :
  Forall (fun m => exists c,
            (h ++ map (fun c => mkModel params c None) roster) !! m
            = Some (mkModel params c None) /\
            roster !! (m - length h)%nat = Some c)
    (seq (length h) (length roster)).
Proof.
  apply Forall_forall. intros m [Hlo Hhi]%elem_of_seq.
  destruct (lookup_lt_is_Some_2 roster (m - length h)%nat) as [c Hc]; [lia|].
  exists c. split; [|done].
  rewrite lookup_app_r by lia. by rewrite lookup_map, Hc.
Qed.

Lemma run_models_spec (w w' : world) r :
  run w = (w', r) ->
  exists evs,
    trace _ _ w' = trace _ _ w ++ evs /\
    match r with
    | Ok rows =>
        evs = flat_map model_events (seq (length (heap _ _ w)) (length roster))
              ++ [EvToCsv "model_results.txt" rows] /\
        Forall2 (fun m row => exists c p,
                   roster !! (m - length (heap _ _ w))%nat = Some c /\
                   heap _ _ w' !! m = Some (mkModel params c (Some p)) /\
                   Model row = class_name c /\ ran c p)
          (seq (length (heap _ _ w)) (length roster)) rows
    | Raise _ =>
        exists finished failing rest p,
          seq (length (heap _ _ w)) (length roster) = finished ++ failing :: rest /\
          evs = flat_map model_events finished ++ p /\
          p `prefix_of` model_events failing /\ p <> []
    end.
Proof.
  rewrite run_models_unfold.
  destruct (loop _ _ _) as [w1 r1] eqn:Hloop.
  pose proof (fresh_models_unfitted (heap _ _ w)) as Hfresh.
  apply run_loop_spec in Hloop as (_ & _ & evs & Ht & Hr).
  2:{ apply NoDup_seq. }
  2:{ eapply Forall_impl; [exact Hfresh|]. intros m (c & Hc & _). by exists c. }
  cbn [heap trace] in *.
  destruct r1 as [rows|e]; intros [= <- <-].
  - destruct Hr as (-> & new_rows & -> & Hrows). cbn [trace heap].
    eexists. split; [by rewrite Ht, <- (assoc_L (++))|]. split; [done|].
    cbn [app]. rewrite Forall_forall in Hfresh.
    apply Forall2_same_length_lookup. split; [by eapply Forall2_length|].
    intros i m row Hm Hrow.
    destruct (Forall2_lookup_lr _ _ _ _ _ _ Hrows Hm Hrow)
      as (c & p & Ha & Hb & Hc & Hd).
    destruct (Hfresh m) as (c' & Hc' & Hroster); [by eapply list_elem_of_lookup_2|].
    rewrite Ha in Hc'. injection Hc' as <-. exists c, p. done.
  - destruct Hr as (finished & failing & rest & p & Hm & -> & Hp & Hne).
    exists (flat_map model_events finished ++ p). split; [done|].
    exists finished, failing, rest, p. done.
Qed.

Lemma roster_rows (w w' : world) rows :
  Forall2 (fun m row => exists c p,
             roster !! (m - length (heap _ _ w))%nat = Some c /\
             heap _ _ w' !! m = Some (mkModel params c (Some p)) /\
             Model row = class_name c /\ ran c p)
    (seq (length (heap _ _ w)) (length roster)) rows ->
  Forall2 (fun c row => Model row = class_name c /\ exists p, ran c p) roster rows /\
  forall i c, roster !! i = Some c ->
    exists p, heap _ _ w' !! (length (heap _ _ w) + i)%nat
              = Some (mkModel params c (Some p)) /\ ran c p.
Proof.
  intros H. pose proof (Forall2_length _ _ _ H) as Hlen. rewrite length_seq in Hlen.
  split.
  - apply Forall2_same_length_lookup. split; [done|].
    intros i c row Hc Hrow.
    assert (seq (length (heap _ _ w)) (length roster) !! i
            = Some (length (heap _ _ w) + i)%nat) as Hm.
    { apply lookup_seq_lt. by eapply lookup_lt_Some. }
    destruct (Forall2_lookup_lr _ _ _ _ _ _ H Hm Hrow) as (c' & p & Ha & _ & Hb & Hd).
    replace (length (heap _ _ w) + i - length (heap _ _ w))%nat with i in Ha by lia.
    rewrite Hc in Ha. injection Ha as <-. eauto.
  - intros i c Hc.
    assert (seq (length (heap _ _ w)) (length roster) !! i
            = Some (length (heap _ _ w) + i)%nat) as Hm.
    { apply lookup_seq_lt. by eapply lookup_lt_Some. }
    destruct (Forall2_lookup_l _ _ _ _ _ H Hm) as (row & Hrow & c' & p & Ha & Hh & _ & Hd).
    replace (length (heap _ _ w) + i - length (heap _ _ w))%nat with i in Ha by lia.
    rewrite Hc in Ha. injection Ha as <-. eauto.
Qed.

(** C5, as the code has it.  In every run, the calls made on one model
    object are the first of the four calls of one roster entry, in their
    order: its fit for the fraud target, unfitted until then, its
    prediction for that target, its fit for the late-delivery target,
    already fitted, and its prediction for that target; so an object is
    never called again once its entry is through, and no object serves two
    entries.  An object that is fitted for the late-delivery target is the
    very object that was fitted for the fraud target, and no object is
    fitted twice for the same target.  When the run returns, each of the
    nine objects went through exactly its four calls, and each holds what
    its late-delivery fit learned. *)
Theorem roster_objects_refitted_per_target (w w' : world) r :
  run w = (w', r) ->
  exists evs,
    trace _ _ w' = trace _ _ w ++ evs /\
    (forall m,
       calls_on m evs `prefix_of`
         [EvFit m "fraud" false; EvPredict m "fraud";
          EvFit m "late_delivery" true; EvPredict m "late_delivery"]) /\
    (forall m b, EvFit m "late_delivery" b ∈ evs ->
       b = true /\ EvFit m "fraud" false ∈ evs) /\
    NoDup (fit_addresses "fraud" evs) /\
    NoDup (fit_addresses "late_delivery" evs) /\
    fit_addresses "late_delivery" evs `prefix_of` fit_addresses "fraud" evs /\
    forall rows, r = Ok rows ->
      fit_addresses "fraud" evs = seq (length (heap _ _ w)) (length roster) /\
      fit_addresses "late_delivery" evs = seq (length (heap _ _ w)) (length roster) /\
      forall i c, roster !! i = Some c ->
        calls_on (length (heap _ _ w) + i) evs
        = [EvFit (length (heap _ _ w) + i) "fraud" false;
           EvPredict (length (heap _ _ w) + i) "fraud";
           EvFit (length (heap _ _ w) + i) "late_delivery" true;
           EvPredict (length (heap _ _ w) + i) "late_delivery"] /\
        exists p, heap _ _ w' !! (length (heap _ _ w) + i)%nat
                  = Some (mkModel params c (Some p)) /\ ran c p.
Proof.
  intros (evs & Ht & Hr)%run_models_spec. exists evs. split; [done|].
  destruct r as [rows|e].
  - destruct Hr as (-> & Hrows).
    set (models := seq (length (heap _ _ w)) (length roster)) in *.
    assert (NoDup (models ++ [(length (heap _ _ w) + length roster)%nat])) as Hnd.
    { subst models. rewrite <- seq_S. apply NoDup_seq. }
    destruct (run_events_refit models _ [] Hnd (prefix_nil _)) as (H1 & H2 & H3 & H4).
    pose proof (fun m => run_events_calls models _ [] m Hnd (prefix_nil _)) as H0.
    rewrite (right_id_L [] (++)) in H1, H2, H3, H4.
    rewrite !fit_addresses_app. cbn [fit_addresses]. rewrite !(right_id_L [] (++)).
    split; [|split; [|split; [done|split; [done|split; [done|]]]]].
    + intros m. specialize (H0 m). rewrite (right_id_L [] (++)) in H0.
      by rewrite calls_on_app, calls_on_csv, (right_id_L [] (++)).
    + intros m b [Hin|Hin]%elem_of_app.
      * destruct (H1 m b Hin) as [-> Hf]. split; [done|]. apply elem_of_app. by left.
      * apply elem_of_cons in Hin as [Hin|Hin]; [discriminate | by apply elem_of_nil in Hin].
    + intros rows' [= <-].
      rewrite !fit_addresses_model_events by (by left) || (by right).
      split; [done|]. split; [done|].
      destruct (roster_rows w w' rows Hrows) as [_ Hheap].
      intros i c Hc. split; [|by apply Hheap].
      rewrite calls_on_app, calls_on_csv, (right_id_L [] (++)).
      rewrite calls_on_flat_map by apply NoDup_seq.
      destruct (decide _) as [|Hn]; [done|]. destruct Hn. subst models.
      apply elem_of_seq. apply lookup_lt_Some in Hc. lia.
  - destruct Hr as (finished & failing & rest & p & Hm & -> & Hp & Hne).
    assert (NoDup (finished ++ [failing])) as Hnd.
    { pose proof (NoDup_seq (length (heap _ _ w)) (length roster)) as Hs.
      rewrite Hm, (cons_middle failing), (assoc_L (++)) in Hs.
      by apply NoDup_app in Hs as (? & _ & _). }
    destruct (run_events_refit finished failing p Hnd Hp) as (H1 & H2 & H3 & H4).
    split; [intros m; by apply (run_events_calls finished failing p m)|].
    split; [done|]. split; [done|]. split; [done|]. split; [done|].
    intros rows [=].
Qed.

(** C8.  A run that returns went through the four calls of each of the nine
    roster entries, in roster order, and then wrote the results file, once,
    with one row per classifier.  A run that raises wrote no file: it
    stopped inside the calls of one roster entry, and the entries after
    that one were never fitted.  A run in which the fit or the prediction
    of some roster entry cannot succeed raises. *)
Theorem results_file_written_once (w w' : world) r :
  run w = (w', r) ->
  exists evs,
    trace _ _ w' = trace _ _ w ++ evs /\
    length roster = 9%nat /\
    match r with
    | Ok rows =>
        evs = flat_map model_events (seq (length (heap _ _ w)) (length roster))
              ++ [EvToCsv "model_results.txt" rows] /\
        files_written evs = ["model_results.txt"] /\
        length rows = 9%nat /\
        Forall2 (fun c row => Model row = class_name c /\ exists p, ran c p) roster rows
    | Raise _ =>
        files_written evs = [] /\
        exists finished failing rest p,
          seq (length (heap _ _ w)) (length roster) = finished ++ failing :: rest /\
          evs = flat_map model_events finished ++ p /\
          p `prefix_of` model_events failing /\ p <> [] /\
          fit_addresses "fraud" evs = finished ++ [failing]
    end /\
    ((exists c, c ∈ roster /\
        ((forall g, is_Ok (snd (learn c g X_train_f y_train_f)) = false) \/
         (forall g, is_Ok (snd (learn c g X_train_l y_train_l)) = false) \/
         (forall p, is_Ok (predict_with c p X_test_f) = false) \/
         (forall p, is_Ok (predict_with c p X_test_l) = false))) ->
     is_Ok r = false).
Proof.
  intros (evs & Ht & Hr)%run_models_spec. exists evs. split; [done|].
  split; [reflexivity|].
  destruct r as [rows|e].
  - destruct Hr as (-> & Hrows).
    destruct (roster_rows w w' rows Hrows) as [Hroster _].
    split; [split; [done|split; [|split; [|done]]]|].
    + by rewrite files_written_app, files_written_model_events.
    + apply Forall2_length in Hroster. by rewrite <- Hroster.
    + intros (c & [i Hi]%list_elem_of_lookup_1 & Hbad). exfalso.
      destruct (Forall2_lookup_l _ _ _ _ _ Hroster Hi)
        as (row & _ & _ & p & g1 & p1 & yp1 & g2 & yp2 & Ha & Hb & Hc & Hd).
      destruct Hbad as [Hbad|[Hbad|[Hbad|Hbad]]].
      * specialize (Hbad g1). by rewrite Ha in Hbad.
      * specialize (Hbad g2). by rewrite Hc in Hbad.
      * specialize (Hbad p1). by rewrite Hb in Hbad.
      * specialize (Hbad p). by rewrite Hd in Hbad.
  - destruct Hr as (finished & failing & rest & p & Hm & -> & Hp & Hne).
    split; [|done]. split.
    + rewrite files_written_app, files_written_model_events.
      destruct (prefix_model_events _ _ Hp) as [->|[->|[->|[->| ->]]]]; done.
    + exists finished, failing, rest, p. repeat split; try done.
      rewrite fit_addresses_app, fit_addresses_model_events by (by left).
      destruct (prefix_model_events _ _ Hp) as [->|[->|[->|[->| ->]]]]; done.
Qed.

End LoopSpec.

End RunnerSpec.

(** * Further properties

    What the functions of the script do beyond the statements above: what
    they need of their input, what they return, and how they fail. *)

(** ** Names and columns of a table *)

Lemma mem_string_elem k l : mem_string k l = true <-> k ∈ l.
Proof.
  unfold mem_string. rewrite existsb_exists. split.
  - intros (x & Hx & ->%String.eqb_eq). by apply list_elem_of_In.
  - intros H. exists k. split; [by apply list_elem_of_In | apply String.eqb_refl].
Qed.

Lemma mem_string_not_elem k l : mem_string k l = false <-> k ∉ l.
Proof.
  rewrite <- mem_string_elem. destruct (mem_string k l); split; congruence.
Qed.

Lemma elem_of_names_assign k k' v cols :
  k ∈ map fst (assign_col k' v cols) <-> k = k' \/ k ∈ map fst cols.
Proof.
  induction cols as [|[k0 c0] cols IH]; cbn.
  - rewrite elem_of_cons, elem_of_nil. tauto.
  - destruct (String.eqb k0 k') eqn:E; cbn; rewrite !elem_of_cons.
    + apply String.eqb_eq in E as ->. tauto.
    + rewrite IH. tauto.
Qed.

Lemma elem_of_names_filter_out k labels cols :
  k ∈ map fst (List.filter (fun kc : string * list cell => negb (mem_string (fst kc) labels)) cols)
  <-> k ∈ map fst cols /\ k ∉ labels.
Proof.
  induction cols as [|[k0 c0] cols IH]; cbn.
  - rewrite elem_of_nil. tauto.
  - destruct (mem_string k0 labels) eqn:E; cbn; rewrite !elem_of_cons, IH.
    + apply mem_string_elem in E. split; [tauto|]. intros [[->|H] Hn]; [done | tauto].
    + apply mem_string_not_elem in E. split; [|tauto]. intros [->|H]; tauto.
Qed.

Lemma names_assign_col k v cols :
  map fst (assign_col k v cols)
  = if mem_string k (map fst cols) then map fst cols else map fst cols ++ [k].
Proof.
  induction cols as [|[k0 c0] cols IH]; cbn; [done|].
  rewrite (String.eqb_sym k k0).
  destruct (String.eqb k0 k) eqn:E; cbn; [done|].
  rewrite IH. unfold mem_string. by destruct (existsb _ _).
Qed.

Lemma names_filter_out labels (cols : list (string * list cell)) :
  map fst (List.filter (fun kc => negb (mem_string (fst kc) labels)) cols)
  = List.filter (fun k => negb (mem_string k labels)) (map fst cols).
Proof.
  induction cols as [|[k0 c0] cols IH]; cbn; [done|].
  destruct (mem_string k0 labels); cbn; by rewrite IH.
Qed.

Lemma mem_string_filter_out k labels l :
  mem_string k (List.filter (fun k' => negb (mem_string k' labels)) l)
  = mem_string k l && negb (mem_string k labels).
Proof.
  destruct (mem_string k (List.filter _ l)) eqn:E.
  - apply mem_string_elem, list_elem_of_In, filter_In in E as [E1 E2].
    apply list_elem_of_In, mem_string_elem in E1. by rewrite E1, E2.
  - destruct (mem_string k l) eqn:E1; [|done].
    destruct (mem_string k labels) eqn:E2; [done|]. exfalso.
    apply mem_string_not_elem in E. apply E, list_elem_of_In, filter_In.
    split; [by apply list_elem_of_In, mem_string_elem | by rewrite E2].
Qed.

(** The names of a table after an assignment and after a drop, for a table
    whose names are a list [F] followed by a list [t]. *)
Lemma names_assign_new F t k v cols :
  map fst cols = F ++ t -> mem_string k F = false -> mem_string k t = false ->
  map fst (assign_col k v cols) = F ++ (t ++ [k]).
Proof.
  intros H HF Ht. rewrite names_assign_col, H. unfold mem_string in *.
  by rewrite existsb_app, HF, Ht, (assoc_L (++)).
Qed.

Lemma names_assign_old F t k v cols :
  map fst cols = F ++ t -> mem_string k F = true ->
  map fst (assign_col k v cols) = F ++ t.
Proof.
  intros H HF. rewrite names_assign_col, H. unfold mem_string in *.
  by rewrite existsb_app, HF.
Qed.

Lemma names_filter_split F t labels (cols : list (string * list cell)) :
  map fst cols = F ++ t ->
  map fst (List.filter (fun kc => negb (mem_string (fst kc) labels)) cols)
  = List.filter (fun k => negb (mem_string k labels)) F
    ++ List.filter (fun k => negb (mem_string k labels)) t.
Proof. intros H. by rewrite names_filter_out, H, List.filter_app. Qed.

Lemma df_drop_labels df labels df' :
  df_drop df labels = Ok df' -> forall k, k ∈ labels -> k ∈ names df.
Proof.
  unfold df_drop.
  destruct (List.filter _ labels) as [|k0 l] eqn:E; [|discriminate].
  intros _ k Hk. apply mem_string_elem.
  destruct (mem_string k (names df)) eqn:Hm; [done|].
  assert (In k (List.filter (fun k => negb (mem_string k (names df))) labels)) as Hin.
  { apply filter_In. split; [by apply list_elem_of_In | by rewrite Hm]. }
  rewrite E in Hin. destruct Hin.
Qed.

Lemma df_drop_total df labels :
  (forall k, k ∈ labels -> k ∈ names df) ->
  df_drop df labels
  = Ok (mkDataFrame (index df)
          (List.filter (fun kc => negb (mem_string (fst kc) labels)) (columns df))).
Proof.
  intros H. unfold df_drop.
  destruct (List.filter _ labels) as [|k0 l] eqn:E; [done|].
  assert (In k0 (List.filter (fun k => negb (mem_string k (names df))) labels)) as Hin
    by (rewrite E; by left).
  apply filter_In in Hin as [Hin Hm]. apply list_elem_of_In, H, mem_string_elem in Hin.
  by rewrite Hin in Hm.
Qed.

Lemma setitem_total df k v :
  length v = nrows df ->
  setitem df k v = Ok (mkDataFrame (index df) (assign_col k v (columns df))).
Proof. intros H. unfold setitem. by rewrite H, Nat.eqb_refl. Qed.

Lemma getitem_missing df k : k ∉ names df -> getitem df k = Raise (KeyError k).
Proof.
  intros Hk. unfold getitem.
  destruct (lookup_col k (columns df)) as [c|] eqn:E; [|done].
  by apply lookup_col_Some_names in E.
Qed.

(** The names of the table [derive_columns] builds. *)
Lemma names_derived ds full_name zipcode ix price fraud late k :
  "Customer Zipcode" ∈ names ds ->
  (k ∈ names (derived ds full_name zipcode ix price fraud late) <->
   (k ∈ names ds \/
    k ∈ ["Customer Full Name"; "order_year"; "order_month"; "order_week_day";
         "order_hour"; "TotalPrice"; "fraud"; "late_delivery"]) /\
   (k ∉ dropped_first) /\ (k ∉ dropped_second)).
Proof.
  intros Hz. unfold derived, names. cbn [columns].
  rewrite elem_of_names_filter_out, !elem_of_names_assign, elem_of_names_filter_out,
    elem_of_names_assign.
  fold (names ds).
  assert (forall l : list string, k ∈ l <-> mem_string k l = true) as Hm
    by (intros l; symmetry; apply mem_string_elem).
  rewrite !elem_of_cons, elem_of_nil.
  split.
  - intros [Hk Hn2]. split; [|split; [|done]].
    + repeat (destruct Hk as [->|Hk]; [tauto || (exfalso; apply Hn2, Hm; reflexivity)|]).
      tauto.
    + intros Hd. apply Hm in Hd.
      repeat (destruct Hk as [->|Hk]; [by vm_compute in Hd|]).
      destruct Hk as [_ Hk]. by apply Hk, Hm.
  - intros (Hk & Hn1 & Hn2). split; [|done]. tauto.
Qed.

(** Case analysis on the membership of a name in a list written out. *)

Ltac elem_cases H :=
  repeat (apply elem_of_cons in H as [->|H]); [.. | by apply elem_of_nil in H].

(** A categorical column of the input reaches the encoding loop as it is. *)
Lemma derived_categorical ds full_name zipcode ix price fraud late col :
  col ∈ categorical_columns -> col <> "Customer Full Name" -> col <> "order_week_day" ->
  getitem (derived ds full_name zipcode ix price fraud late) col = getitem ds col.
Proof.
  intros Hcol Hfn Hwd. unfold derived.
  elem_cases Hcol; try done; by frame_simpl.
Qed.

(** ** [preprocess_data]: what it needs of the table *)

(** What a call of [preprocess_data] that returns went through: the columns
    it read, the table [derive_columns] built from them, and the encoding
    of each categorical column of that table. *)
Lemma preprocess_data_inv parse guess strptime ds data :
  preprocess_data parse guess strptime ds = Ok data ->
  exists fname lname zipcode d ix qty tot price status delivery pre,
    getitem ds "Customer Fname" = Ok fname /\
    getitem ds "Customer Lname" = Ok lname /\
    getitem ds "Customer Zipcode" = Ok zipcode /\
    getitem ds "order date (DateOrders)" = Ok d /\
    DatetimeIndex parse d = Ok ix /\
    getitem ds "Order Item Quantity" = Ok qty /\
    getitem ds "Order Item Total" = Ok tot /\
    series_mul qty tot = Ok price /\
    getitem ds "Order Status" = Ok status /\
    getitem ds "Delivery Status" = Ok delivery /\
    derive_columns parse guess strptime ds = Ok pre /\
    pre = derived ds
            (str_add (astype_str fname) (astype_str lname))
            (fillna (CNum 0) zipcode) ix price
            (np_where (map (eq_lit "SUSPECTED_FRAUD") status) 1 0)
            (np_where (map (eq_lit "Late delivery") delivery) 1 0) /\
    index data = index ds /\
    names data = names pre /\
    (forall k, k ∉ categorical_columns -> getitem data k = getitem pre k) /\
    (forall col, col ∈ categorical_columns ->
       exists orig classes codes,
         getitem pre col = Ok orig /\ unique orig = Ok classes /\
         encode classes orig = Ok codes /\ getitem data col = Ok codes).
Proof.
  intros (pre & le & Hpre & Henc)%preprocess_data_Ok.
  pose proof Hpre as Hpre0.
  apply derive_columns_Ok in Hpre
    as (fname & lname & zipcode & d & ix & qty & tot & price & status & delivery
        & H1 & H2 & H3 & H4 & H5 & H6 & H7 & H8 & H9 & H10 & _ & Hd).
  apply encode_columns_Ok in Henc as (Hix & Hn & Hframe & Hcols).
  exists fname, lname, zipcode, d, ix, qty, tot, price, status, delivery, pre.
  repeat split; try done.
  - rewrite Hix, Hd. reflexivity.
  - by apply Hcols, categorical_columns_NoDup.
Qed.

(** The two drops of [derive_columns] find every label they are given. *)
Lemma derive_columns_dropped parse guess strptime ds pre :
  derive_columns parse guess strptime ds = Ok pre ->
  forall k, k ∈ dropped_first ++ dropped_second -> k ∈ names ds.
Proof.
  unfold derive_columns. intros H.
  do 3 step H.
  inv_bind H. pose proof (df_drop_labels _ _ _ E1) as Hd1.
  apply df_drop_Ok in E1 as ->. cbn [index columns nrows] in *.
  repeat step H.
  pose proof (df_drop_labels _ _ _ H) as Hd2.
  intros k [Hk|Hk]%elem_of_app.
  - specialize (Hd1 k Hk). unfold names in Hd1. cbn [columns] in Hd1.
    apply elem_of_names_assign in Hd1 as [->|Hd1]; [|done].
    apply mem_string_elem in Hk. by vm_compute in Hk.
  - specialize (Hd2 k Hk). unfold names in Hd2. cbn [columns] in Hd2.
    rewrite !elem_of_names_assign, elem_of_names_filter_out, elem_of_names_assign in Hd2.
    apply mem_string_elem in Hk.
    repeat (destruct Hd2 as [->|Hd2];
            [first [by vm_compute in Hk | by eapply getitem_names]|]).
    destruct Hd2 as [[->|Hd2] _]; [by vm_compute in Hk | done].
Qed.

(** X1.  [preprocess_data] returns only on a table that has every column it
    reads, drops or encodes: the zipcode, the quantity and the total of the
    order item, the twelve columns of the first drop and the four of the
    second, and the fourteen categorical columns that are not derived
    columns. *)
Theorem preprocess_requires_columns parse guess strptime ds data :
  preprocess_data parse guess strptime ds = Ok data ->
  forall k,
    k ∈ ["Customer Zipcode"; "Order Item Quantity"; "Order Item Total"]
        ++ dropped_first ++ dropped_second ++ categorical_columns ->
    k <> "Customer Full Name" -> k <> "order_week_day" ->
    k ∈ names ds.
Proof.
  intros H k Hk Hfn Hwd.
  apply preprocess_data_inv in H
    as (fname & lname & zipcode & d & ix & qty & tot & price & status & delivery & pre
        & _ & _ & Hz & _ & _ & Hq & Ht & _ & _ & _ & Hpre & Hd & _ & _ & _ & Hcols).
  apply elem_of_app in Hk as [Hk|Hk].
  { elem_cases Hk; by eapply getitem_names. }
  rewrite (assoc_L (++)) in Hk. apply elem_of_app in Hk as [Hk|Hk].
  { by eapply derive_columns_dropped. }
  destruct (Hcols k Hk) as (orig & _ & _ & Hg%getitem_names & _).
  rewrite Hd in Hg. apply names_derived in Hg as ([Hg|Hg] & _); [done| |by eapply getitem_names].
  apply mem_string_elem in Hk.
  elem_cases Hg; done || by vm_compute in Hk.
Qed.

(** [pd.DatetimeIndex] returns exactly when the parser understands every
    string of the column and every number of the column is an [int64]. *)
Lemma to_timestamp_returns parse x :
  is_Ok (to_timestamp parse x) = true <->
  (forall s, x = CStr s -> is_Some (parse s)) /\
  (forall z, x = CNum z -> - 2 ^ 63 <= z < 2 ^ 63).
Proof.
  destruct x as [s|z|]; cbn.
  - destruct (parse s) as [ns|] eqn:E; cbn.
    + split; [|done]. intros _. split; [|done]. intros ? [= <-]. by rewrite E.
    + split; [done|]. intros [H _]. destruct (H s eq_refl) as [? Hp].
      rewrite E in Hp. done.
  - destruct (Z.leb_spec (- 2 ^ 63) z) as [Hlo|Hlo],
      (Z.ltb_spec z (2 ^ 63)) as [Hhi|Hhi]; cbn.
    + split; [|done]. intros _. split; [done|]. intros ? [= <-]. lia.
    + split; [done|]. intros [_ Hz]. specialize (Hz z eq_refl). lia.
    + split; [done|]. intros [_ Hz]. specialize (Hz z eq_refl). lia.
    + split; [done|]. intros [_ Hz]. specialize (Hz z eq_refl). lia.
  - split; [|done]. intros _. split; done.
Qed.

Lemma DatetimeIndex_returns parse d :
  (exists ix, DatetimeIndex parse d = Ok ix) <->
  (forall i s, d !! i = Some (CStr s) -> is_Some (parse s)) /\
  (forall i z, d !! i = Some (CNum z) -> - 2 ^ 63 <= z < 2 ^ 63).
Proof.
  unfold DatetimeIndex. split.
  - intros [ix H%mapM_Ok].
    assert (forall i x, d !! i = Some x -> is_Ok (to_timestamp parse x) = true) as Hall.
    { intros i x Hx. destruct (Forall2_lookup_l _ _ _ _ _ H Hx) as (t & _ & ->). done. }
    split.
    + intros i s Hi. by apply (proj1 (to_timestamp_returns parse _) (Hall i _ Hi)).
    + intros i z Hi. by apply (proj1 (to_timestamp_returns parse _) (Hall i _ Hi)).
  - intros [Hs Hz]. apply mapM_returns. intros i x Hx.
    apply to_timestamp_returns. split; intros ? ->; eauto.
Qed.

(** The elementwise product can be taken exactly when every string meets
    an integer on the other side: a number of a column that is not a
    [float64] column. *)
Lemma cell_mul_returns da db x y :
  is_Ok (cell_mul da db x y) = true <->
  (forall s, x = CStr s -> exists n, y = CNum n /\ db <> Float64) /\
  (forall s, y = CStr s -> exists n, x = CNum n /\ da <> Float64).
Proof.
  split.
  - intros H. split; intros s ->.
    + destruct y as [s'|n|]; cbn in H; [done| |done].
      exists n. split; [done|]. intros ->. cbn in H. done.
    + destruct x as [s'|n|]; cbn in H; [done| |done].
      exists n. split; [done|]. intros ->. cbn in H. done.
  - intros [H1 H2]. destruct x as [s|n|], y as [s'|n'|]; cbn; try done.
    + destruct (H1 s eq_refl) as (? & [=] & _).
    + destruct (H1 s eq_refl) as (? & _ & Hd). by destruct db.
    + destruct (H1 s eq_refl) as (? & [=] & _).
    + destruct (H2 s' eq_refl) as (? & _ & Hd). by destruct da.
    + destruct (H2 s' eq_refl) as (? & [=] & _).
Qed.

Lemma mul_cells_returns da db a : forall b,
  (exists c, mul_cells da db a b = Ok c) <->
  (forall i x y, a !! i = Some x -> b !! i = Some y ->
     is_Ok (cell_mul da db x y) = true).
Proof.
  induction a as [|x a IH]; intros [|y b]; cbn;
    try (split; [by intros _ i ? ? ? | eauto]).
  split.
  - intros [c H]. apply bind_Ok in H as (z & Hz & H).
    apply bind_Ok in H as (rest & Hrest & _).
    intros [|i] x' y' Hx Hy; cbn in Hx, Hy.
    + injection Hx as <-. injection Hy as <-. by rewrite Hz.
    + by apply (proj1 (IH b) (ex_intro _ rest Hrest) i x' y').
  - intros H.
    destruct (proj2 (IH b) (fun i x' y' Hx Hy => H (S i) x' y' Hx Hy)) as [rest ->].
    specialize (H 0%nat x y eq_refl eq_refl).
    destruct (cell_mul da db x y); [cbn; eauto | done].
Qed.

Lemma series_mul_strings a b c :
  series_mul a b = Ok c ->
  forall i x y, a !! i = Some (CStr x) -> b !! i = Some (CStr y) -> False.
Proof.
  unfold series_mul. intros H i x y Hx Hy.
  pose proof (proj1 (mul_cells_returns _ _ a b) (ex_intro _ c H) i _ _ Hx Hy) as Hc.
  done.
Qed.

(** The dtype of a column is not [float64] when the column holds a string
    or no missing value. *)
Lemma dtype_of_not_float c :
  dtype_of c <> Float64 <-> existsb is_str c = true \/ existsb isna c = false.
Proof.
  unfold dtype_of.
  destruct (existsb is_str c), (existsb isna c); split; try done; eauto; by intros [|].
Qed.

Lemma series_mul_returns a b :
  (forall i s x, a !! i = Some (CStr s) -> b !! i = Some x ->
     (exists n, x = CNum n) /\ (existsb is_str b = true \/ existsb isna b = false)) ->
  (forall i s x, b !! i = Some (CStr s) -> a !! i = Some x ->
     (exists n, x = CNum n) /\ (existsb is_str a = true \/ existsb isna a = false)) ->
  exists c, series_mul a b = Ok c.
Proof.
  intros Ha Hb. unfold series_mul. apply mul_cells_returns.
  intros i x y Hx Hy. apply cell_mul_returns. split.
  - intros s ->. destruct (Ha i s y Hx Hy) as [[n ->] Hd].
    exists n. split; [done|]. by apply dtype_of_not_float.
  - intros s ->. destruct (Hb i s x Hy Hx) as [[n ->] Hd].
    exists n. split; [done|]. by apply dtype_of_not_float.
Qed.

(** X2.  [preprocess_data] returns only if the date parser understands
    every string of the order-date column, no row holds a string both as
    quantity and as total of the order item, and no categorical column of
    the input mixes strings with numbers. *)
Theorem preprocess_requires_clean_cells parse guess strptime ds data :
  preprocess_data parse guess strptime ds = Ok data ->
  (forall d i s,
     getitem ds "order date (DateOrders)" = Ok d -> d !! i = Some (CStr s) ->
     is_Some (parse s)) /\
  (forall qty tot i x y,
     getitem ds "Order Item Quantity" = Ok qty ->
     getitem ds "Order Item Total" = Ok tot ->
     qty !! i = Some (CStr x) -> tot !! i = Some (CStr y) -> False) /\
  (forall col c,
     col ∈ categorical_columns ->
     col <> "Customer Full Name" -> col <> "order_week_day" ->
     getitem ds col = Ok c ->
     existsb is_str c && existsb is_num c = false).
Proof.
  intros H.
  apply preprocess_data_inv in H
    as (fname & lname & zipcode & d & ix & qty & tot & price & status & delivery & pre
        & _ & _ & _ & Hod & Hix & Hq & Ht & Hp & _ & _ & Hpre & Hd & _ & _ & _ & Hcols).
  split; [|split].
  - intros d' i s Hd' Hi. rewrite Hod in Hd'. injection Hd' as <-.
    by apply (proj1 (proj1 (DatetimeIndex_returns parse d) (ex_intro _ ix Hix)) i s).
  - intros qty' tot' i x y Hq' Ht' Hx Hy.
    rewrite Hq in Hq'. rewrite Ht in Ht'. injection Hq' as <-. injection Ht' as <-.
    by apply (series_mul_strings qty tot price Hp i x y).
  - intros col c Hcol Hfn Hwd Hc.
    destruct (Hcols col Hcol) as (orig & classes & codes & Hg & Hu & _).
    rewrite Hd, derived_categorical, Hc in Hg by done. injection Hg as <-.
    unfold unique in Hu. by destruct (existsb is_str c && existsb is_num c).
Qed.

Lemma str_add_length a b : length (str_add a b) = Nat.min (length a) (length b).
Proof.
  revert b. induction a as [|x a IH]; intros [|y b]; cbn; try done. by rewrite IH.
Qed.

Lemma astype_str_length c : length (astype_str c) = length c.
Proof. unfold astype_str. by rewrite length_map. Qed.

Lemma series_mul_length a b c :
  series_mul a b = Ok c -> length c = Nat.min (length a) (length b).
Proof.
  unfold series_mul. generalize (dtype_of a) (dtype_of b). intros da db.
  revert b c. induction a as [|x a IH]; intros [|y b] c; cbn; try (by intros [= <-]).
  intros H. inv_bind H. inv_bind H. injection H as <-. cbn. by erewrite IH.
Qed.

Lemma DatetimeIndex_length parse d ix :
  DatetimeIndex parse d = Ok ix -> length ix = length d.
Proof. intros H%mapM_Ok. symmetry. by eapply Forall2_length. Qed.

Lemma to_datetime_length parse guess strptime d stamps :
  to_datetime parse guess strptime d = Ok stamps -> length stamps = length d.
Proof.
  unfold to_datetime. intros (ix & Hix & ->)%fmap_Ok. rewrite length_map.
  assert (forall f, mapM f d = Ok ix -> length ix = length d) as Hlen.
  { intros f H%mapM_Ok. symmetry. by eapply Forall2_length. }
  destruct (first_non_null d) as [[s0|z|]|]; try by apply (Hlen (to_timestamp parse)).
  destruct (guess s0); by eapply Hlen.
Qed.

(** [pd.to_datetime] returns when the entries are read one by one and, if a
    format is inferred from the first date, every entry is written in that
    format. *)
Lemma to_datetime_returns parse guess strptime d ix :
  DatetimeIndex parse d = Ok ix ->
  (forall s0 fmt i x,
     first_non_null d = Some (CStr s0) -> guess s0 = Some fmt -> d !! i = Some x ->
     match x with
     | CStr s => is_nat_string s = true \/ is_Some (strptime fmt s)
     | CNum z => z = - 2 ^ 63 \/ is_Some (strptime fmt (int_text z))
     | CNaN => True
     end) ->
  exists stamps, to_datetime parse guess strptime d = Ok stamps.
Proof.
  intros Hix Hfmt. unfold to_datetime.
  destruct (first_non_null d) as [[s0|z|]|]; try (by rewrite Hix; cbn; eauto).
  destruct (guess s0) as [fmt|] eqn:Hg; [|by rewrite Hix; cbn; eauto].
  destruct (mapM_returns (strptime_cell strptime fmt) d) as [k ->]; [|cbn; eauto].
  intros i x Hx. specialize (Hfmt s0 fmt i x eq_refl Hg Hx).
  destruct x as [s|z|]; cbn; [| |done].
  - destruct (is_nat_string s); [done|]. destruct Hfmt as [|[ns ->]]; done.
  - destruct (Z.eqb_spec z iNaT) as [|Hz]; [done|].
    destruct Hfmt as [->|[ns ->]]; done.
Qed.

(** [derive_columns] returns when the table is well formed, has the columns
    read and dropped, every date is understood and the product can be
    taken. *)
Lemma derive_columns_total parse guess strptime ds fname lname zipcode d ix stamps
    qty tot price status delivery :
  wf_frame ds = true ->
  getitem ds "Customer Fname" = Ok fname ->
  getitem ds "Customer Lname" = Ok lname ->
  getitem ds "Customer Zipcode" = Ok zipcode ->
  getitem ds "order date (DateOrders)" = Ok d ->
  DatetimeIndex parse d = Ok ix ->
  to_datetime parse guess strptime d = Ok stamps ->
  getitem ds "Order Item Quantity" = Ok qty ->
  getitem ds "Order Item Total" = Ok tot ->
  series_mul qty tot = Ok price ->
  getitem ds "Order Status" = Ok status ->
  getitem ds "Delivery Status" = Ok delivery ->
  (forall k, k ∈ dropped_first ++ dropped_second -> k ∈ names ds) ->
  derive_columns parse guess strptime ds
  = Ok (derived ds
          (str_add (astype_str fname) (astype_str lname))
          (fillna (CNum 0) zipcode) ix price
          (np_where (map (eq_lit "SUSPECTED_FRAUD") status) 1 0)
          (np_where (map (eq_lit "Late delivery") delivery) 1 0)).
Proof.
  intros Hwf Hf Hl Hz Hod Hix Hdt Hq Ht Hp Hs Hdl Hdrop.
  pose proof Hf as Hf'. pose proof Hl as Hl'.
  apply getitem_Ok in Hf', Hl', Hz, Hod, Hq, Ht, Hs, Hdl.
  pose proof (wf_frame_lookup _ _ _ Hwf Hf') as Lf.
  pose proof (wf_frame_lookup _ _ _ Hwf Hl') as Ll.
  pose proof (wf_frame_lookup _ _ _ Hwf Hz) as Lz.
  pose proof (wf_frame_lookup _ _ _ Hwf Hod) as Lod.
  pose proof (wf_frame_lookup _ _ _ Hwf Hq) as Lq.
  pose proof (wf_frame_lookup _ _ _ Hwf Ht) as Lt.
  pose proof (wf_frame_lookup _ _ _ Hwf Hs) as Ls.
  pose proof (wf_frame_lookup _ _ _ Hwf Hdl) as Ldl.
  pose proof (DatetimeIndex_length _ _ _ Hix) as Lix.
  pose proof (to_datetime_length _ _ _ _ _ Hdt) as Ldt.
  pose proof (series_mul_length _ _ _ Hp) as Lp.
  unfold nrows in *.
  assert (forall k, k ∈ dropped_first ->
            k ∈ names (mkDataFrame (index ds)
                         (assign_col "Customer Full Name"
                            (str_add (astype_str fname) (astype_str lname))
                            (columns ds)))) as Hd1.
  { intros k Hk. unfold names. cbn [columns]. apply elem_of_names_assign. right.
    apply Hdrop, elem_of_app. by left. }
  unfold derive_columns. rewrite Hf. cbn [mbind result_bind]. rewrite Hl.
  cbn [mbind result_bind].
  rewrite setitem_total
    by (unfold nrows; rewrite str_add_length, !astype_str_length; cbn [index]; lia).
  cbn [mbind result_bind index columns].
  rewrite (df_drop_total _ _ Hd1). cbn [mbind result_bind index columns].
  repeat (frame_simpl;
          rewrite ?Hz, ?Hod, ?Hq, ?Ht, ?Hs, ?Hdl, ?Hix, ?Hp, ?Hdt;
          cbn [mbind result_bind fmap result_fmap];
          try (rewrite setitem_total
                 by (unfold nrows, fillna, np_where; cbn [index];
                     rewrite ?length_map; lia);
               cbn [mbind result_bind index columns])).
  rewrite df_drop_total.
  - unfold derived. do 2 f_equal.
    apply same_kept_assign, same_kept_assign, same_kept_dropped. reflexivity.
  - intros k Hk. unfold names. cbn [columns].
    rewrite !elem_of_names_assign, elem_of_names_filter_out, elem_of_names_assign.
    do 9 right. split.
    + right. apply Hdrop, elem_of_app. by right.
    + apply mem_string_not_elem. unfold dropped_second in Hk.
      elem_cases Hk; reflexivity.
Qed.

(** The encoding loop returns on a table in which each of the columns to
    encode is present, as long as the index, and does not mix strings with
    numbers. *)
Lemma encode_columns_total cols : forall le data,
  NoDup cols ->
  (forall col, col ∈ cols ->
     exists c, getitem data col = Ok c /\ length c = nrows data /\
               (existsb is_str c && existsb is_num c) = false) ->
  exists le' data', encode_columns le data cols = Ok (le', data').
Proof.
  induction cols as [|col cols IH]; intros le data Hnd Hcols; cbn.
  - eauto.
  - apply NoDup_cons in Hnd as [Hcol Hnd].
    destruct (Hcols col) as (c & Hc & Hlen & Hmix); [by left|].
    rewrite Hc. cbn [mbind result_bind].
    destruct (fit_transform_total le c Hmix) as (le1 & codes & Hfit).
    rewrite Hfit. cbn [mbind result_bind].
    apply fit_transform_Ok in Hfit as (classes & _ & He%encode_length & _).
    rewrite setitem_total by congruence. cbn [mbind result_bind].
    apply IH; [done|]. intros col' Hcol'.
    destruct (Hcols col') as (c' & Hc' & Hlen' & Hmix'); [by right|].
    exists c'. split; [|done].
    rewrite getitem_mk, lookup_col_assign_ne.
    + by apply getitem_Ok in Hc' as ->.
    + apply string_eqb_ne. intros ->. done.
Qed.

Lemma str_add_no_number a b : existsb is_num (str_add a b) = false.
Proof.
  revert b. induction a as [|x a IH]; intros [|y b]; cbn; try done.
  rewrite IH. by destruct x, y.
Qed.


(** ** [preprocess_data]: the table it returns *)

(** X4.  The columns of the table [preprocess_data] returns are those of
    the input and the eight derived ones, the sixteen dropped ones left
    out.  When the input has none of the derived names, the remaining
    columns of the input come first, in their order, and the derived
    columns follow in the order of their assignment. *)
Theorem preprocess_output_columns parse guess strptime ds data :
  preprocess_data parse guess strptime ds = Ok data ->
  (forall k,
     k ∈ names data <->
     (k ∈ names ds \/
      k ∈ ["Customer Full Name"; "order_year"; "order_month"; "order_week_day";
           "order_hour"; "TotalPrice"; "fraud"; "late_delivery"]) /\
     (k ∉ dropped_first) /\ (k ∉ dropped_second)) /\
  ((forall k,
      k ∈ ["Customer Full Name"; "order_year"; "order_month"; "order_week_day";
           "order_hour"; "TotalPrice"; "fraud"; "late_delivery"] -> k ∉ names ds) ->
   names data
   = List.filter (fun k => negb (mem_string k dropped_second))
       (List.filter (fun k => negb (mem_string k dropped_first)) (names ds))
     ++ ["Customer Full Name"; "order_year"; "order_month"; "order_week_day";
         "order_hour"; "TotalPrice"; "fraud"; "late_delivery"]).
Proof.
  intros H.
  apply preprocess_data_inv in H
    as (fname & lname & zipcode & d & ix & qty & tot & price & status & delivery & pre
        & _ & _ & Hz%getitem_names & Hod%getitem_names & _ & _ & _ & _ & _ & _ & _ & ->
        & _ & -> & _ & _).
  split; [intros k; by apply names_derived|].
  intros Hnew.
  assert (forall k,
            k ∈ ["Customer Full Name"; "order_year"; "order_month"; "order_week_day";
                 "order_hour"; "TotalPrice"; "fraud"; "late_delivery"] ->
            forall labels,
              mem_string k (List.filter (fun k' => negb (mem_string k' labels)) (names ds))
              = false) as Hfresh.
  { intros k Hk labels. rewrite mem_string_filter_out.
    apply Hnew, mem_string_not_elem in Hk. by rewrite Hk. }
  assert (forall k, k ∈ names ds -> mem_string k dropped_first = false ->
            mem_string k (List.filter (fun k' => negb (mem_string k' dropped_first))
                            (names ds)) = true) as Hold.
  { intros k Hk Hd. apply mem_string_elem in Hk.
    by rewrite mem_string_filter_out, Hk, Hd. }
  unfold derived, names at 1. cbn [columns].
  pose proof (names_assign_new (names ds) [] "Customer Full Name"
                (str_add (astype_str fname) (astype_str lname))
                (columns ds) (eq_sym (app_nil_r _))) as H1.
  specialize (H1 (proj2 (mem_string_not_elem _ _) (Hnew _ ltac:(by left))) eq_refl).
  pose proof (names_filter_split _ _ dropped_first _ H1) as H2.
  pose proof (names_assign_old _ _ "Customer Zipcode" (fillna (CNum 0) zipcode) _ H2
                (Hold _ Hz eq_refl)) as H3.
  pose proof (names_assign_new _ _ "order_year" (map (dt_field dt_year) ix) _ H3
                (Hfresh "order_year" ltac:(apply (bool_decide_unpack _); vm_compute; reflexivity) _)
                eq_refl) as H4.
  pose proof (names_assign_new _ _ "order_month" (map (dt_field dt_month) ix) _ H4
                (Hfresh "order_month" ltac:(apply (bool_decide_unpack _); vm_compute; reflexivity) _)
                eq_refl) as H5.
  pose proof (names_assign_new _ _ "order_week_day" (map (dt_field dt_weekday) ix) _ H5
                (Hfresh "order_week_day" ltac:(apply (bool_decide_unpack _); vm_compute; reflexivity) _)
                eq_refl) as H6.
  pose proof (names_assign_new _ _ "order_hour" (map (dt_field dt_hour) ix) _ H6
                (Hfresh "order_hour" ltac:(apply (bool_decide_unpack _); vm_compute; reflexivity) _)
                eq_refl) as H7.
  pose proof (names_assign_new _ _ "TotalPrice" price _ H7
                (Hfresh "TotalPrice" ltac:(apply (bool_decide_unpack _); vm_compute; reflexivity) _)
                eq_refl) as H8.
  pose proof (names_assign_old _ _ "order date (DateOrders)"
                (map (dt_field (fun ns => ns)) ix) _ H8 (Hold _ Hod eq_refl)) as H9.
  pose proof (names_assign_new _ _ "fraud"
                (np_where (map (eq_lit "SUSPECTED_FRAUD") status) 1 0) _ H9
                (Hfresh "fraud" ltac:(apply (bool_decide_unpack _); vm_compute; reflexivity) _)
                eq_refl) as H10.
  pose proof (names_assign_new _ _ "late_delivery"
                (np_where (map (eq_lit "Late delivery") delivery) 1 0) _ H10
                (Hfresh "late_delivery" ltac:(apply (bool_decide_unpack _); vm_compute; reflexivity) _)
                eq_refl) as H11.
  exact (names_filter_split _ _ dropped_second _ H11).
Qed.

(** X5.  [preprocess_data] neither drops, adds nor reorders rows: the table
    it returns has the row labels of the input, and on an input in which
    every column is as long as the index so is every column of the
    result. *)
Theorem preprocess_keeps_rows parse guess strptime ds data :
  preprocess_data parse guess strptime ds = Ok data ->
  index data = index ds /\ nrows data = nrows ds /\
  (wf_frame ds = true ->
   forall k c, getitem data k = Ok c -> length c = nrows ds).
Proof.
  intros H. pose proof H as H0.
  apply preprocess_data_inv in H
    as (fname & lname & zipcode & d & ix & qty & tot & price & status & delivery & pre
        & _ & _ & _ & _ & _ & _ & _ & _ & _ & _ & _ & _ & Hix & _).
  split; [done|]. split; [unfold nrows; by rewrite Hix|].
  intros Hwf k c Hc%getitem_Ok.
  destruct (preprocess_data_wf _ _ _ _ _ Hwf H0) as (Hwf' & _).
  rewrite (wf_frame_lookup _ _ _ Hwf' Hc). unfold nrows. by rewrite Hix.
Qed.

(** X6.  A column that [preprocess_data] neither drops, encodes nor assigns
    is in the returned table what it is in the input (and is missing from
    one when it is missing from the other). *)
Theorem preprocess_passes_other_columns parse guess strptime ds data :
  preprocess_data parse guess strptime ds = Ok data ->
  forall k,
    k ∉ dropped_first ++ dropped_second ++ categorical_columns
        ++ ["Customer Zipcode"; "order_year"; "order_month"; "order_hour";
            "TotalPrice"; "fraud"; "late_delivery"] ->
    getitem data k = getitem ds k.
Proof.
  intros H k Hk.
  apply preprocess_data_inv in H
    as (fname & lname & zipcode & d & ix & qty & tot & price & status & delivery & pre
        & _ & _ & _ & _ & _ & _ & _ & _ & _ & _ & _ & -> & _ & _ & Hframe & _).
  apply not_elem_of_app in Hk as [Hd1 Hk]. apply not_elem_of_app in Hk as [Hd2 Hk].
  apply not_elem_of_app in Hk as [Hcat Hk].
  rewrite Hframe by done. clear Hframe.
  apply mem_string_not_elem in Hd1, Hd2.
  assert (k <> "Customer Full Name" /\ k <> "order_week_day") as [Hfn Hwd].
  { split; intros ->; apply Hcat, mem_string_elem; reflexivity. }
  assert (k <> "order date (DateOrders)") as Hod by (intros ->; by vm_compute in Hd2).
  rewrite !not_elem_of_cons in Hk.
  destruct Hk as (? & ? & ? & ? & ? & ? & ? & _).
  unfold derived, getitem. cbn [columns].
  rewrite lookup_col_filter_out by done.
  rewrite !lookup_col_assign_ne by (apply string_eqb_ne; congruence).
  rewrite lookup_col_filter_out by done.
  rewrite lookup_col_assign_ne by (apply string_eqb_ne; congruence).
  reflexivity.
Qed.

(** X7.  In the returned table the zipcode of a row is the zipcode of the
    input where there is one, and 0 where it is missing. *)
Theorem preprocess_fills_zipcode parse guess strptime ds data :
  preprocess_data parse guess strptime ds = Ok data ->
  exists zipcode filled,
    getitem ds "Customer Zipcode" = Ok zipcode /\
    getitem data "Customer Zipcode" = Ok filled /\
    length filled = length zipcode /\
    forall i c, zipcode !! i = Some c ->
      filled !! i = Some (if isna c then CNum 0 else c).
Proof.
  intros H.
  apply preprocess_data_inv in H
    as (fname & lname & zipcode & d & ix & qty & tot & price & status & delivery & pre
        & _ & _ & Hz & _ & _ & _ & _ & _ & _ & _ & _ & -> & _ & _ & Hframe & _).
  exists zipcode, (fillna (CNum 0) zipcode). split; [done|]. split; [|split].
  - rewrite Hframe by (apply (bool_decide_unpack _); vm_compute; reflexivity).
    unfold derived. by frame_simpl.
  - unfold fillna. by rewrite length_map.
  - intros i c Hi. unfold fillna. by rewrite lookup_map, Hi.
Qed.

Lemma dt_hour_range ns : 0 <= dt_hour ns <= 23.
Proof.
  unfold dt_hour, ns_per_day, ns_per_hour.
  pose proof (Z.mod_pos_bound ns (24 * 3600000000000) ltac:(lia)) as H.
  generalize dependent (ns mod (24 * 3600000000000)). intros r Hr.
  split; [apply Z.div_pos; lia|].
  assert (r / 3600000000000 < 24); [|lia].
  apply Z.div_lt_upper_bound; lia.
Qed.

Lemma dt_weekday_range ns : 0 <= dt_weekday ns <= 6.
Proof.
  unfold dt_weekday. pose proof (Z.mod_pos_bound (days_of_ns ns + 3) 7 ltac:(lia)). lia.
Qed.

Lemma civil_of_days_month days : 1 <= snd (civil_of_days days) <= 12.
Proof.
  unfold civil_of_days. cbv zeta. cbn [snd].
  set (z := days + 719468).
  set (era := z / 146097).
  set (doe := z - era * 146097).
  assert (0 <= doe < 146097) as Hdoe.
  { subst doe era. pose proof (Z.div_mod z 146097 ltac:(lia)).
    pose proof (Z.mod_pos_bound z 146097 ltac:(lia)). lia. }
  clearbody doe. clear z era.
  set (yoe := (doe - doe / 1460 + doe / 36524 - doe / 146096) / 365).
  set (doy := doe - (365 * yoe + yoe / 4 - yoe / 100)).
  assert (0 <= doy <= 365) as Hdoy.
  { subst doy yoe. Z.to_euclidean_division_equations; lia. }
  clearbody doy.
  set (mp := (5 * doy + 2) / 153).
  assert (0 <= mp <= 11) as Hmp.
  { subst mp. Z.to_euclidean_division_equations; lia. }
  clearbody mp. destruct (mp <? 10) eqn:E; [apply Z.ltb_lt in E | apply Z.ltb_ge in E]; lia.
Qed.

Lemma dt_month_range ns : 1 <= dt_month ns <= 12.
Proof. apply civil_of_days_month. Qed.

(** X8.  In the returned table [order_year], [order_month] and [order_hour]
    of a dated row are the year, the month and the hour of its order date,
    the month from 1 to 12 and the hour from 0 to 23; every entry of the
    month and hour columns is such a number or the missing value. *)
Theorem calendar_columns_in_range parse guess strptime ds data :
  preprocess_data parse guess strptime ds = Ok data ->
  exists d ix years months hours,
    getitem ds "order date (DateOrders)" = Ok d /\
    DatetimeIndex parse d = Ok ix /\
    getitem data "order_year" = Ok years /\
    getitem data "order_month" = Ok months /\
    getitem data "order_hour" = Ok hours /\
    (forall i ns, ix !! i = Some (Some ns) ->
       years !! i = Some (CNum (dt_year ns)) /\
       months !! i = Some (CNum (dt_month ns)) /\
       hours !! i = Some (CNum (dt_hour ns)) /\
       1 <= dt_month ns <= 12 /\ 0 <= dt_hour ns <= 23) /\
    Forall (fun c => c = CNaN \/ exists z, c = CNum z /\ 1 <= z <= 12) months /\
    Forall (fun c => c = CNaN \/ exists z, c = CNum z /\ 0 <= z <= 23) hours.
Proof.
  intros H.
  apply preprocess_data_inv in H
    as (fname & lname & zipcode & d & ix & qty & tot & price & status & delivery & pre
        & _ & _ & _ & Hod & Hix & _ & _ & _ & _ & _ & _ & -> & _ & _ & Hframe & _).
  exists d, ix, (map (dt_field dt_year) ix), (map (dt_field dt_month) ix),
    (map (dt_field dt_hour) ix).
  split; [done|]. split; [done|]. split; [|split; [|split]].
  - rewrite Hframe by (apply (bool_decide_unpack _); vm_compute; reflexivity).
    unfold derived. by frame_simpl.
  - rewrite Hframe by (apply (bool_decide_unpack _); vm_compute; reflexivity).
    unfold derived. by frame_simpl.
  - rewrite Hframe by (apply (bool_decide_unpack _); vm_compute; reflexivity).
    unfold derived. by frame_simpl.
  - split; [|split].
    + intros i ns Hi. rewrite !lookup_map, Hi. cbn.
      split; [done|]. split; [done|]. split; [done|].
      split; [apply dt_month_range | apply dt_hour_range].
    + apply Forall_map, Forall_forall. intros [ns|] _; cbn; [right | by left].
      eexists. split; [done | apply dt_month_range].
    + apply Forall_map, Forall_forall. intros [ns|] _; cbn; [right | by left].
      eexists. split; [done | apply dt_hour_range].
Qed.

(** X9.  [preprocess_data] cannot be applied to a table it returned: the
    first column it reads is one it dropped, and the call raises the
    [KeyError] of that column. *)
Theorem preprocess_data_not_reentrant parse guess strptime ds data :
  preprocess_data parse guess strptime ds = Ok data ->
  forall parse' guess' strptime',
    preprocess_data parse' guess' strptime' data = Raise (KeyError "Customer Fname").
Proof.
  intros H parse' guess' strptime'.
  apply preprocess_data_inv in H
    as (fname & lname & zipcode & d & ix & qty & tot & price & status & delivery & pre
        & _ & _ & Hz%getitem_names & _ & _ & _ & _ & _ & _ & _ & _ & Hd & _ & Hn & _).
  assert ("Customer Fname" ∉ names data) as Hk.
  { rewrite Hn, Hd. intros (_ & Hk & _)%names_derived; [|done].
    apply Hk, mem_string_elem. reflexivity. }
  unfold preprocess_data, derive_columns. by rewrite (getitem_missing _ _ Hk).
Qed.

(** ** The codes of the categorical columns *)

(** Every code is the position of its value among the classes. *)
Lemma encode_lookup classes y codes i v :
  encode classes y = Ok codes -> y !! i = Some v ->
  exists n, index_of v classes = Some n /\ codes !! i = Some (CNum (Z.of_nat n)).
Proof.
  unfold encode. intros H%mapM_Ok Hv.
  destruct (Forall2_lookup_l _ _ _ _ _ H Hv) as (c & Hc & Hf).
  destruct (index_of v classes) as [n|]; [|discriminate].
  injection Hf as <-. eauto.
Qed.

Lemma encode_codes_eq classes y codes i j v w :
  encode classes y = Ok codes -> y !! i = Some v -> y !! j = Some w ->
  (codes !! i = codes !! j <-> v = w).
Proof.
  intros H Hv Hw.
  destruct (encode_lookup _ _ _ _ _ H Hv) as (n & Hn & ->).
  destruct (encode_lookup _ _ _ _ _ H Hw) as (m & Hm & ->).
  split.
  - intros [= Hnm%Nat2Z.inj]. subst m.
    apply index_of_lookup in Hn, Hm. congruence.
  - intros ->. congruence.
Qed.

(** The classes of a column are its distinct values, each once. *)
Lemma unique_classes y classes :
  unique y = Ok classes -> NoDup classes /\ forall v, v ∈ classes <-> v ∈ y.
Proof.
  unfold unique. destruct (existsb is_str y && existsb is_num y); [discriminate|].
  intros [= <-].
  assert (forall v, v ∈ List.filter (fun c => negb (isna c)) y <-> v ∈ y /\ isna v = false)
    as Hfilter.
  { intros v. rewrite !list_elem_of_In, filter_In, negb_true_iff. done. }
  split.
  - apply NoDup_app. split; [|split].
    + rewrite merge_sort_Permutation. apply NoDup_remove_dups.
    + intros v. rewrite merge_sort_Permutation, elem_of_remove_dups, Hfilter.
      intros [_ Hv]. destruct (existsb isna y).
      * intros ->%list_elem_of_singleton. done.
      * by intros ?%elem_of_nil.
    + destruct (existsb isna y); [apply NoDup_singleton | apply NoDup_nil_2].
  - intros v. rewrite elem_of_app, merge_sort_Permutation, elem_of_remove_dups, Hfilter.
    split.
    + intros [[Hv _]|Hv]; [done|].
      destruct (existsb isna y) eqn:E; [|by apply elem_of_nil in Hv].
      apply list_elem_of_singleton in Hv as ->.
      apply existsb_exists in E as (x & Hx & Hna). destruct x; try done.
      by apply list_elem_of_In.
    + intros Hv. destruct (isna v) eqn:E; [right | by left].
      assert (existsb isna y = true) as ->.
      { apply existsb_exists. exists v. split; [by apply list_elem_of_In | done]. }
      destruct v; try done. apply list_elem_of_singleton. done.
Qed.

Lemma index_of_NoDup l n v :
  NoDup l -> l !! n = Some v -> index_of v l = Some n.
Proof.
  intros Hnd Hn.
  destruct (index_of_elem v l) as [m Hm]; [by eapply list_elem_of_lookup_2|].
  rewrite Hm. f_equal. apply index_of_lookup in Hm.
  eapply NoDup_lookup; eauto.
Qed.

(** The codes of a column are the numbers below the count of its distinct
    values, each of them used. *)
Lemma encode_dense classes y codes :
  unique y = Ok classes -> encode classes y = Ok codes ->
  (forall i c, codes !! i = Some c ->
     exists n, c = CNum (Z.of_nat n) /\ (n < length classes)%nat) /\
  (forall n, (n < length classes)%nat -> CNum (Z.of_nat n) ∈ codes).
Proof.
  intros [Hnd Hcl]%unique_classes He. split.
  - intros i c Hc.
    pose proof (encode_length _ _ _ He) as Hlen.
    destruct (lookup_lt_is_Some_2 y i) as [v Hv].
    { rewrite <- Hlen. by eapply lookup_lt_Some. }
    destruct (encode_lookup _ _ _ _ _ He Hv) as (n & Hn & Hc').
    rewrite Hc in Hc'. injection Hc' as ->. exists n. split; [done|].
    apply index_of_lookup in Hn. by eapply lookup_lt_Some.
  - intros n Hn. destruct (lookup_lt_is_Some_2 classes n Hn) as [v Hv].
    assert (v ∈ y) as [i Hi]%list_elem_of_lookup_1.
    { apply Hcl. by eapply list_elem_of_lookup_2. }
    destruct (encode_lookup _ _ _ _ _ He Hi) as (m & Hm & Hc).
    rewrite (index_of_NoDup _ _ _ Hnd Hv) in Hm. injection Hm as <-.
    by eapply list_elem_of_lookup_2.
Qed.

(** X10.  For each of the sixteen categorical columns, the codes in the
    returned table number the distinct values of the column as it was
    before encoding: two rows have the same code exactly when they had the
    same value, every code is below the count of the distinct values, and
    every number below that count is the code of some row. *)
Theorem categorical_codes_number_distinct_values parse guess strptime ds data :
  preprocess_data parse guess strptime ds = Ok data ->
  exists pre,
    derive_columns parse guess strptime ds = Ok pre /\
    forall col, col ∈ categorical_columns ->
      exists orig codes classes,
        getitem pre col = Ok orig /\
        getitem data col = Ok codes /\
        (col <> "Customer Full Name" -> col <> "order_week_day" ->
         getitem ds col = Ok orig) /\
        length codes = length orig /\
        NoDup classes /\
        (forall v, v ∈ classes <-> v ∈ orig) /\
        (forall i j v w, orig !! i = Some v -> orig !! j = Some w ->
           (codes !! i = codes !! j <-> v = w)) /\
        (forall i c, codes !! i = Some c ->
           exists n, c = CNum (Z.of_nat n) /\ (n < length classes)%nat) /\
        (forall n, (n < length classes)%nat -> CNum (Z.of_nat n) ∈ codes).
Proof.
  intros H.
  apply preprocess_data_inv in H
    as (fname & lname & zipcode & d & ix & qty & tot & price & status & delivery & pre
        & _ & _ & _ & _ & _ & _ & _ & _ & _ & _ & Hpre & Hd & _ & _ & _ & Hcols).
  exists pre. split; [done|]. intros col Hcol.
  destruct (Hcols col Hcol) as (orig & classes & codes & Hg & Hu & He & Hg').
  exists orig, codes, classes.
  destruct (unique_classes _ _ Hu) as [Hnd Hcl].
  destruct (encode_dense _ _ _ Hu He) as [Hrange Hall].
  split; [done|]. split; [done|]. split.
  { intros Hfn Hwd. rewrite <- Hg, Hd. symmetry. by apply derived_categorical. }
  split; [by eapply encode_length|]. split; [done|]. split; [done|].
  split; [|done]. intros i j v w Hv Hw. by eapply encode_codes_eq.
Qed.

Lemma str_add_lookup a b i x y :
  a !! i = Some x -> b !! i = Some y -> str_add a b !! i = Some (str_add_cell x y).
Proof.
  revert b i. induction a as [|x0 a IH]; intros [|y0 b] [|i]; cbn; try done.
  - by intros [= ->] [= ->].
  - apply IH.
Qed.

(** The text [astype(str)] makes of a name: a string stays, and a missing
    name stays missing. *)
Lemma astype_str_lookup c i x :
  c !! i = Some x ->
  exists y, astype_str c !! i = Some y /\
            (forall s, x = CStr s -> y = CStr s) /\
            (y = CNaN <-> x = CNaN) /\
            is_num y = false.
Proof.
  intros Hx. unfold astype_str. rewrite lookup_map, Hx. cbn.
  eexists. split; [reflexivity|].
  destruct x; (split; [by intros ? [= ->] | split; done]).
Qed.

(** X11.  Two rows in which the first and the last name are both strings
    get the same [Customer Full Name] code exactly when the first name
    followed directly by the last name is the same text for both.  A row in
    which a name is missing has no full name: it gets the code of every
    other such row and of no row that has both names. *)
Theorem full_name_codes parse guess strptime ds data :
  preprocess_data parse guess strptime ds = Ok data ->
  exists fname lname codes,
    getitem ds "Customer Fname" = Ok fname /\
    getitem ds "Customer Lname" = Ok lname /\
    getitem data "Customer Full Name" = Ok codes /\
    (forall i j a b a' b',
       fname !! i = Some (CStr a) -> lname !! i = Some (CStr b) ->
       fname !! j = Some (CStr a') -> lname !! j = Some (CStr b') ->
       (codes !! i = codes !! j <-> (a ++ b)%string = (a' ++ b')%string)) /\
    (forall i j a b a' b',
       fname !! i = Some a -> lname !! i = Some b ->
       fname !! j = Some a' -> lname !! j = Some b' ->
       a = CNaN \/ b = CNaN ->
       (codes !! i = codes !! j <-> a' = CNaN \/ b' = CNaN)).
Proof.
  intros H.
  apply preprocess_data_inv in H
    as (fname & lname & zipcode & d & ix & qty & tot & price & status & delivery & pre
        & Hf & Hl & _ & _ & _ & _ & _ & _ & _ & _ & Hpre & Hd & _ & _ & _ & Hcols).
  destruct (Hcols "Customer Full Name") as (orig & classes & codes & Hg & Hu & He & Hg').
  { apply (bool_decide_unpack _). vm_compute. reflexivity. }
  exists fname, lname, codes. split; [done|]. split; [done|]. split; [done|].
  rewrite Hd in Hg. unfold derived in Hg. frame_simpl_in Hg. injection Hg as <-.
  assert (forall i a b, fname !! i = Some a -> lname !! i = Some b ->
            exists v, str_add (astype_str fname) (astype_str lname) !! i = Some v /\
                      (forall x y, a = CStr x -> b = CStr y -> v = CStr (x ++ y)) /\
                      (v = CNaN <-> a = CNaN \/ b = CNaN)) as Hrow.
  { intros i a b Ha Hb.
    destruct (astype_str_lookup _ _ _ Ha) as (a1 & Ha1 & Hsa & Hna & Hza).
    destruct (astype_str_lookup _ _ _ Hb) as (b1 & Hb1 & Hsb & Hnb & Hzb).
    exists (str_add_cell a1 b1). split; [by apply str_add_lookup|]. split.
    - intros x y -> ->. by rewrite (Hsa x eq_refl), (Hsb y eq_refl).
    - rewrite <- Hna, <- Hnb. clear -Hza Hzb.
      destruct a1, b1; cbn in *; split; try done; try (by intros [|]); eauto. }
  split.
  - intros i j a b a' b' Ha Hb Ha' Hb'.
    destruct (Hrow _ _ _ Ha Hb) as (v & Hv & Hs & _).
    destruct (Hrow _ _ _ Ha' Hb') as (v' & Hv' & Hs' & _).
    rewrite (encode_codes_eq _ _ _ i j _ _ He Hv Hv').
    rewrite (Hs a b eq_refl eq_refl), (Hs' a' b' eq_refl eq_refl).
    split; [by intros [= ->] | by intros ->].
  - intros i j a b a' b' Ha Hb Ha' Hb' Hmiss.
    destruct (Hrow _ _ _ Ha Hb) as (v & Hv & _ & Hn).
    destruct (Hrow _ _ _ Ha' Hb') as (v' & Hv' & _ & Hn').
    rewrite (encode_codes_eq _ _ _ i j _ _ He Hv Hv').
    apply Hn in Hmiss as ->. rewrite <- Hn'. split; done.
Qed.

(** Sorting commutes with a map that carries one order to the other. *)
Section MergeSortMap.

Context {A B : Type} (R : relation A) (R' : relation B).
Context `{!RelDecision R, !RelDecision R'}.
Variable f : A -> B.
Hypothesis R_f : forall x y, R' (f x) (f y) <-> R x y.

Lemma list_merge_map l1 : forall l2,
  list_merge R' (map f l1) (map f l2) = map f (list_merge R l1 l2).
Proof.
  induction l1 as [|x1 l1 IH1]; intros l2; [by destruct l2|].
  induction l2 as [|x2 l2 IH2]; [done|].
  cbn [map]. rewrite !list_merge_cons.
  destruct (decide (R x1 x2)) as [H|H], (decide (R' (f x1) (f x2))) as [H'|H'];
    try (exfalso; apply R_f in H' || apply H, R_f; done).
  - cbn [map]. f_equal. apply (IH1 (x2 :: l2)).
  - exfalso. apply H'. by apply R_f.
  - cbn [map]. f_equal. apply IH2.
Qed.

Lemma merge_list_to_stack_map st l :
  merge_list_to_stack R' (map (fmap (map f)) st) (map f l)
  = map (fmap (map f)) (merge_list_to_stack R st l).
Proof.
  revert l. induction st as [|[l'|] st IH]; intros l; cbn; [done| |done].
  f_equal. rewrite list_merge_map. apply IH.
Qed.

Lemma merge_stack_map st :
  merge_stack R' (map (fmap (map f)) st) = map f (merge_stack R st).
Proof.
  induction st as [|[l'|] st IH]; cbn; [done| |done].
  rewrite IH. apply list_merge_map.
Qed.

Lemma merge_sort_aux_map l : forall st,
  merge_sort_aux R' (map (fmap (map f)) st) (map f l) = map f (merge_sort_aux R st l).
Proof.
  induction l as [|x l IH]; intros st; cbn.
  - apply merge_stack_map.
  - rewrite <- IH. f_equal. apply (merge_list_to_stack_map st [x]).
Qed.

Lemma merge_sort_map l : merge_sort R' (map f l) = map f (merge_sort R l).
Proof. apply (merge_sort_aux_map l []). Qed.

End MergeSortMap.

(** In a sorted list a later entry is at least an earlier one, and when the
    entries are distinct a later one is greater. *)
Lemma StronglySorted_lookup_le (l : list Z) n m a b :
  StronglySorted Z.le l -> l !! n = Some a -> l !! m = Some b -> (n <= m)%nat -> a <= b.
Proof.
  intros Hs. revert n m. induction Hs as [|x l Hs IH Hx]; intros n m; [done|].
  destruct n as [|n], m as [|m]; cbn; try lia.
  - intros [= <-] [= <-] _. lia.
  - intros [= <-] Hb _. rewrite Forall_forall in Hx. apply Hx.
    by eapply list_elem_of_lookup_2.
  - intros Ha Hb Hnm. apply (IH n m); [done | done | lia].
Qed.

Lemma sorted_NoDup_lookup_lt (l : list Z) n m a b :
  StronglySorted Z.le l -> NoDup l ->
  l !! n = Some a -> l !! m = Some b -> ((n < m)%nat <-> a < b).
Proof.
  intros Hs Hnd Ha Hb. split.
  - intros Hnm.
    pose proof (StronglySorted_lookup_le _ _ _ _ _ Hs Ha Hb ltac:(lia)) as Hle.
    destruct (decide (a = b)) as [->|Hne]; [|lia].
    pose proof (NoDup_lookup _ _ _ _ Hnd Ha Hb). lia.
  - intros Hab. destruct (decide (n < m)%nat) as [|Hge]; [done|].
    pose proof (StronglySorted_lookup_le _ _ _ _ _ Hs Hb Ha ltac:(lia)). lia.
Qed.

(** In a sorted list of distinct numbers none of which is negative, an
    entry is at least its position. *)
Lemma sorted_NoDup_rank (l : list Z) :
  StronglySorted Z.le l -> NoDup l -> Forall (fun z => 0 <= z) l ->
  forall n z, l !! n = Some z -> Z.of_nat n <= z.
Proof.
  intros Hs Hnd Hpos n. induction n as [|n IH]; intros z Hz.
  - rewrite Forall_forall in Hpos. apply Hpos. by eapply list_elem_of_lookup_2.
  - destruct (lookup_lt_is_Some_2 l n) as [y Hy].
    { apply lookup_lt_Some in Hz. lia. }
    pose proof (proj1 (sorted_NoDup_lookup_lt _ _ _ _ _ Hs Hnd Hy Hz) ltac:(lia)).
    specialize (IH _ Hy). lia.
Qed.

Lemma all_num_map (l : list cell) :
  Forall (fun c => is_num c = true) l ->
  l = map CNum (omap (fun c => match c with CNum z => Some z | _ => None end) l).
Proof.
  induction 1 as [|c l Hc _ IH]; [done|].
  destruct c; try discriminate. cbn. by rewrite <- IH.
Qed.

#[local] Instance Z_le_total : Total Z.le.
Proof. intros x y. lia. Qed.

(** The classes of a column without strings: its distinct numbers in
    increasing order, then the missing value if the column has one. *)
Lemma unique_numeric y classes :
  existsb is_str y = false -> unique y = Ok classes ->
  exists zs,
    classes = map CNum zs ++ (if existsb isna y then [CNaN] else []) /\
    StronglySorted Z.le zs /\ NoDup zs /\
    forall z, z ∈ zs <-> CNum z ∈ y.
Proof.
  intros Hstr Hu. pose proof (unique_classes _ _ Hu) as [Hnd Hcl].
  unfold unique in Hu. rewrite Hstr in Hu. cbn in Hu. injection Hu as <-.
  set (L := remove_dups (List.filter (fun c => negb (isna c)) y)) in *.
  assert (Forall (fun c => is_num c = true) L) as Hnum.
  { apply Forall_forall. intros c Hc. subst L.
    apply elem_of_remove_dups, list_elem_of_In, filter_In in Hc as [Hc Hna].
    destruct c as [s| |]; try done.
    assert (existsb is_str y = true) as E; [|congruence].
    apply existsb_exists. by exists (CStr s). }
  rewrite (all_num_map L Hnum) in *.
  set (zs0 := omap _ L) in *.
  assert (forall x z, cell_le (CNum x) (CNum z) <-> x <= z) as Hle
    by (intros x z; unfold cell_le; cbn; apply Z.leb_le).
  rewrite (merge_sort_map Z.le cell_le CNum Hle) in *.
  exists (merge_sort Z.le zs0). split; [done|]. split; [|split].
  - apply StronglySorted_merge_sort; apply _.
  - apply NoDup_app in Hnd as (Hnd & _). by apply (NoDup_fmap_1 CNum) in Hnd.
  - intros z. rewrite <- Hcl, elem_of_app. split.
    + intros Hz. left. apply list_elem_of_fmap. eauto.
    + intros [Hz|Hz].
      * apply list_elem_of_fmap in Hz as (z' & [= <-] & Hz). done.
      * destruct (existsb isna y); [|by apply elem_of_nil in Hz].
        by apply list_elem_of_singleton in Hz.
Qed.

(** The codes of a column without strings: a number is coded by its
    position among the distinct numbers in increasing order, a missing
    value by the count of the distinct numbers. *)
Lemma encode_numeric y classes codes :
  existsb is_str y = false -> unique y = Ok classes -> encode classes y = Ok codes ->
  exists zs,
    StronglySorted Z.le zs /\ NoDup zs /\
    (forall z, z ∈ zs <-> CNum z ∈ y) /\
    (forall i z, y !! i = Some (CNum z) ->
       exists n, codes !! i = Some (CNum (Z.of_nat n)) /\ zs !! n = Some z) /\
    (forall i, y !! i = Some CNaN -> codes !! i = Some (CNum (Z.of_nat (length zs)))).
Proof.
  intros Hstr Hu He.
  destruct (unique_numeric _ _ Hstr Hu) as (zs & -> & Hs & Hnd & Hzs).
  exists zs. split; [done|]. split; [done|]. split; [done|]. split.
  - intros i z Hi. destruct (encode_lookup _ _ _ _ _ He Hi) as (n & Hn & Hc).
    exists n. split; [done|]. apply index_of_lookup in Hn.
    apply lookup_app_Some in Hn as [Hn|[Hge Hn]].
    + rewrite lookup_map in Hn. destruct (zs !! n); [|done]. by injection Hn as ->.
    + destruct (existsb isna y); [|done].
      destruct (n - length (map CNum zs))%nat; done.
  - intros i Hi. destruct (encode_lookup _ _ _ _ _ He Hi) as (n & Hn & Hc).
    rewrite Hc. do 3 f_equal. apply index_of_lookup in Hn.
    apply lookup_app_Some in Hn as [Hn|[Hge Hn]].
    + rewrite lookup_map in Hn. destruct (zs !! n); done.
    + rewrite length_map in *. apply lookup_lt_Some in Hn as Hlt.
      destruct (existsb isna y); cbn in Hlt; lia.
Qed.

(** X12.  The [order_week_day] column of the returned table does not hold
    the weekday but its rank among the weekdays that occur in the table:
    the code of a dated row is the position of its weekday in the
    increasing list of the weekdays present, so it is at most the weekday
    and follows the order of the weekdays; an undated row gets the count of
    the weekdays present. *)
Theorem week_day_codes_are_ranks parse guess strptime ds data :
  preprocess_data parse guess strptime ds = Ok data ->
  exists d ix codes days,
    getitem ds "order date (DateOrders)" = Ok d /\
    DatetimeIndex parse d = Ok ix /\
    getitem data "order_week_day" = Ok codes /\
    StronglySorted Z.le days /\ NoDup days /\
    (forall wd, wd ∈ days <->
       exists i ns, ix !! i = Some (Some ns) /\ dt_weekday ns = wd) /\
    (forall i ns, ix !! i = Some (Some ns) ->
       exists n, codes !! i = Some (CNum (Z.of_nat n)) /\
                 days !! n = Some (dt_weekday ns) /\
                 Z.of_nat n <= dt_weekday ns <= 6) /\
    (forall i, ix !! i = Some None ->
       codes !! i = Some (CNum (Z.of_nat (length days)))) /\
    (forall i j ns ns' a b,
       ix !! i = Some (Some ns) -> ix !! j = Some (Some ns') ->
       codes !! i = Some (CNum a) -> codes !! j = Some (CNum b) ->
       (a <= b <-> dt_weekday ns <= dt_weekday ns')).
Proof.
  intros H.
  apply preprocess_data_inv in H
    as (fname & lname & zipcode & d & ix & qty & tot & price & status & delivery & pre
        & _ & _ & _ & Hod & Hix & _ & _ & _ & _ & _ & _ & Hd & _ & _ & _ & Hcols).
  destruct (Hcols "order_week_day") as (orig & classes & codes & Hg & Hu & He & Hg').
  { apply (bool_decide_unpack _). vm_compute. reflexivity. }
  rewrite Hd in Hg. unfold derived in Hg. frame_simpl_in Hg. injection Hg as <-.
  assert (existsb is_str (map (dt_field dt_weekday) ix) = false) as Hstr.
  { clear. induction ix as [|[ns|] ix IH]; cbn; done. }
  destruct (encode_numeric _ _ _ Hstr Hu He) as (days & Hs & Hnd & Hdays & Hnum & Hnat).
  assert (forall wd, wd ∈ days <->
            exists i ns, ix !! i = Some (Some ns) /\ dt_weekday ns = wd) as Hmem.
  { intros wd. rewrite Hdays. split.
    - intros [i Hi]%list_elem_of_lookup_1. rewrite lookup_map in Hi.
      destruct (ix !! i) as [[ns|]|] eqn:E; try done. injection Hi as <-. eauto.
    - intros (i & ns & Hi & <-). apply (list_elem_of_lookup_2 _ i).
      by rewrite lookup_map, Hi. }
  assert (Forall (fun z => 0 <= z) days) as Hpos.
  { apply Forall_forall. intros wd (i & ns & _ & <-)%Hmem. apply dt_weekday_range. }
  assert (forall i ns, ix !! i = Some (Some ns) ->
            exists n, codes !! i = Some (CNum (Z.of_nat n)) /\
                      days !! n = Some (dt_weekday ns)) as Hcode.
  { intros i ns Hi. apply Hnum. by rewrite lookup_map, Hi. }
  exists d, ix, codes, days. repeat (split; [done|]). split; [|split].
  - intros i ns Hi. destruct (Hcode i ns Hi) as (n & Hc & Hn).
    exists n. split; [done|]. split; [done|]. split.
    + by eapply sorted_NoDup_rank.
    + apply dt_weekday_range.
  - intros i Hi. apply Hnat. by rewrite lookup_map, Hi.
  - intros i j ns ns' a b Hi Hj Ha Hb.
    destruct (Hcode i ns Hi) as (n & Hc & Hn). destruct (Hcode j ns' Hj) as (m & Hc' & Hm).
    rewrite Ha in Hc. rewrite Hb in Hc'. injection Hc as ->. injection Hc' as ->.
    pose proof (sorted_NoDup_lookup_lt _ _ _ _ _ Hs Hnd Hm Hn). lia.
Qed.

(** ** [split_data]: how it fails and what its parts hold *)

(** The entry at a position of a selection is the entry of the column at
    the selected position. *)
Lemma take_rows_lookup {A : Type} (rows : list nat) (l r : list A) p i :
  take_rows rows l = Ok r -> rows !! p = Some i ->
  is_Some (l !! i) /\ r !! p = l !! i.
Proof.
  intros H%take_rows_Ok Hp.
  destruct (Forall2_lookup_l _ _ _ _ _ H Hp) as (x & Hx & Hi).
  rewrite Hi, Hx. eauto.
Qed.

(** A column of a selection of rows is the selection from the column. *)
Lemma iloc_getitem df rows df' k c :
  iloc df rows = Ok df' -> getitem df k = Ok c ->
  exists c', getitem df' k = Ok c' /\ take_rows rows c = Ok c'.
Proof.
  intros [_ H]%iloc_Ok Hc%getitem_Ok. unfold getitem.
  induction H as [|[k0 c0] [k1 c1] cols cols' [Hk Hc0] _ IH]; cbn in *; [done|].
  subst k1. destruct (String.eqb k0 k).
  - injection Hc as <-. eauto.
  - by apply IH.
Qed.

Section SplitMore.

Variable rng : Type.
Variable RandomState : Z -> rng.
Variable random_interval : rng -> nat -> nat * rng.

Local Abbreviation split := (split_data rng RandomState random_interval).
Local Abbreviation train := (train_rows rng RandomState random_interval).
Local Abbreviation test := (test_rows rng RandomState random_interval).

(** X13.  How [split_data] ends: with a [KeyError] when the target is not a
    column of the table, with a [ValueError] when the target is a column
    and the table has fewer than two rows, and with four parts otherwise
    (on a table in which every column is as long as the index); when it
    returns, neither the train part nor the test part is empty. *)
Theorem split_data_outcome data t :
  (t ∉ names data -> split data t = Raise (KeyError t)) /\
  (t ∈ names data -> (nrows data < 2)%nat ->
   split data t = Raise (ValueError "the resulting train set will be empty")) /\
  (wf_frame data = true -> t ∈ names data -> (2 <= nrows data)%nat ->
   is_Ok (split data t) = true) /\
  (wf_frame data = true ->
   (is_Ok (split data t) = true <-> t ∈ names data /\ (2 <= nrows data)%nat)) /\
  (forall X_train X_test y_train y_test,
     split data t = Ok (X_train, X_test, y_train, y_test) ->
     (0 < length (index X_train))%nat /\ (0 < length (index X_test))%nat).
Proof.
  assert (t ∉ names data -> split data t = Raise (KeyError t)) as Hkey.
  { intros Hk. rewrite split_data_unfold, getitem_missing by done. done. }
  assert (wf_frame data = true -> t ∈ names data -> (2 <= nrows data)%nat ->
          is_Ok (split data t) = true) as Hok.
  { intros Hwf Ht Hn.
    by destruct (split_data_total rng RandomState random_interval data t Hwf Ht Hn)
      as [parts ->]. }
  split; [done|]. split; [apply split_data_small|]. split; [done|]. split.
  - intros Hwf. split; [|intros []; by apply Hok].
    intros H. destruct (decide (t ∈ names data)) as [Ht|Ht].
    + split; [done|]. destruct (decide (2 <= nrows data)%nat) as [|Hn]; [done|].
      rewrite split_data_small in H by (done || lia). done.
    + by rewrite Hkey in H.
  - intros X_train X_test y_train y_test H.
    pose proof (split_data_inv _ _ _ _ _ _ _ _ _ H) as (y & _ & Hn & _).
    destruct (split_labels_inv _ _ _ _ _ _ _ _ _ H) as (H1%take_rows_length & H2%take_rows_length & _).
    rewrite H1, H2, train_rows_length, test_rows_length.
    pose proof (n_test_of_fifth_lt _ Hn). lia.
Qed.

(** X14.  The parts [split_data] returns hold rows of the table, unchanged
    and aligned: the row at a position of the train part (of the test part)
    has the label of one row of the table, the label series has that row's
    label and its target value at the same position, and every feature
    column has that row's value there. *)
Theorem split_data_rows_aligned data t X_train X_test y_train y_test :
  split data t = Ok (X_train, X_test, y_train, y_test) ->
  exists y,
    getitem data t = Ok y /\
    length (index X_train) = length (train (nrows data)) /\
    length (index X_test) = length (test (nrows data)) /\
    (forall p r, train (nrows data) !! p = Some r ->
       is_Some (index data !! r) /\
       index X_train !! p = index data !! r /\
       s_index y_train !! p = index data !! r /\
       s_values y_train !! p = y !! r /\
       forall k c, k <> t -> getitem data k = Ok c ->
         exists c', getitem X_train k = Ok c' /\ c' !! p = c !! r) /\
    (forall p r, test (nrows data) !! p = Some r ->
       is_Some (index data !! r) /\
       index X_test !! p = index data !! r /\
       s_index y_test !! p = index data !! r /\
       s_values y_test !! p = y !! r /\
       forall k c, k <> t -> getitem data k = Ok c ->
         exists c', getitem X_test k = Ok c' /\ c' !! p = c !! r).
Proof.
  intros (y & Hy & _ & Htr & Hte & Hytr & Hyte)%split_data_inv.
  exists y. split; [done|].
  assert (forall rows X ys,
            iloc (features_of data t) rows = Ok X ->
            iloc_series (mkSeries (index data) y) rows = Ok ys ->
            length (index X) = length rows /\
            forall p r, rows !! p = Some r ->
              is_Some (index data !! r) /\
              index X !! p = index data !! r /\
              s_index ys !! p = index data !! r /\
              s_values ys !! p = y !! r /\
              forall k c, k <> t -> getitem data k = Ok c ->
                exists c', getitem X k = Ok c' /\ c' !! p = c !! r) as Hpart.
  { intros rows X ys HX [Hi Hv]%iloc_series_Ok. cbn [s_index s_values] in *.
    pose proof HX as [HXi _]%iloc_Ok. cbn [index features_of] in HXi.
    split; [by eapply take_rows_length|].
    intros p r Hp.
    destruct (take_rows_lookup _ _ _ _ _ HXi Hp) as [Hsome Hix].
    destruct (take_rows_lookup _ _ _ _ _ Hi Hp) as [_ Hix'].
    destruct (take_rows_lookup _ _ _ _ _ Hv Hp) as [_ Hval].
    repeat (split; [done|]).
    intros k c Hk Hc.
    assert (getitem (features_of data t) k = Ok c) as Hc'.
    { unfold features_of, getitem. cbn [columns].
      rewrite lookup_col_filter_ne by (by apply string_eqb_ne).
      by apply getitem_Ok in Hc as ->. }
    destruct (iloc_getitem _ _ _ _ _ HX Hc') as (c' & Hg & Ht).
    exists c'. split; [done|]. by destruct (take_rows_lookup _ _ _ _ _ Ht Hp). }
  destruct (Hpart _ _ _ Htr Hytr) as [L1 P1]. destruct (Hpart _ _ _ Hte Hyte) as [L2 P2].
  done.
Qed.

End SplitMore.

(** ** [standardize_data]: when it returns and the shape of what it returns *)

(** What the input validation of the scaler accepts. *)
Lemma check_array_iff X :
  is_Ok (check_array X) = true <->
  X <> [] /\ n_features X <> 0%nat /\ existsb (existsb PrimFloat.is_infinity) X = false.
Proof.
  unfold check_array, n_features. destruct X as [|row X]; [by split; [|intros []]|].
  destruct (Nat.eqb_spec (length row) 0) as [E|E].
  { split; [done|]. intros (_ & H & _). done. }
  destruct (existsb _ (row :: X)); split; try done. by intros (_ & _ & ?).
Qed.

Lemma check_array_error X e :
  check_array X = Raise e -> exists msg, e = ValueError msg.
Proof.
  unfold check_array. destruct X as [|row X]; [intros [= <-]; eauto|].
  destruct (Nat.eqb _ _); [intros [= <-]; eauto|].
  destruct (existsb _ _); [intros [= <-]; eauto | done].
Qed.

Lemma scale_row_length row means scales :
  length (scale_row row means scales)
  = Nat.min (length row) (Nat.min (length means) (length scales)).
Proof.
  revert means scales. induction row as [|x row IH]; intros [|m means] [|s scales];
    cbn; try done. by rewrite IH.
Qed.

(** [standardize_data] in one piece: the two validations, the comparison of
    the widths, and the two matrices scaled with the statistics of the
    train matrix. *)
Lemma standardize_data_unfold X_train X_test :
  standardize_data X_train X_test =
  match check_array X_train with
  | Raise e => Raise e
  | Ok _ =>
      match check_array X_test with
      | Raise e => Raise e
      | Ok _ =>
          if Nat.eqb (n_features X_test) (n_features X_train)
          then
            let cols := map (fun j => column_of j X_train) (seq 0 (n_features X_train)) in
            let means := map (col_mean (has_nan X_train)) cols in
            let scales := map (col_scale (has_nan X_train)) cols in
            Ok (map (fun row => scale_row row means scales) X_train,
                map (fun row => scale_row row means scales) X_test)
          else Raise (ValueError "X has a different number of features than the scaler was fitted with")
      end
  end.
Proof.
  unfold standardize_data, standardize_data_scaler, scaler_fit_transform, fit, transform.
  destruct (check_array X_train) as [X|e] eqn:E1; [|done].
  apply check_array_Ok in E1 as E1'. subst X.
  cbn [mbind result_bind mean_ scale_].
  rewrite !length_map, length_seq, Nat.eqb_refl. cbn [negb mbind result_bind].
  destruct (check_array X_test) as [X|e] eqn:E2; [|done].
  apply check_array_Ok in E2 as E2'. subst X. cbn [mbind result_bind mean_ scale_].
  rewrite !length_map, length_seq.
  destruct (Nat.eqb (n_features X_test) (n_features X_train)); done.
Qed.

(** X15.  [standardize_data] returns exactly when both matrices have at
    least one row, the train matrix has at least one column, the test
    matrix has as many columns as the train matrix, and neither holds an
    infinite entry; when it raises, it raises a [ValueError]. *)
Theorem standardize_data_returns_iff X_train X_test :
  (is_Ok (standardize_data X_train X_test) = true <->
   X_train <> [] /\ X_test <> [] /\ n_features X_train <> 0%nat /\
   n_features X_test = n_features X_train /\
   existsb (existsb PrimFloat.is_infinity) X_train = false /\
   existsb (existsb PrimFloat.is_infinity) X_test = false) /\
  (forall e, standardize_data X_train X_test = Raise e -> exists msg, e = ValueError msg).
Proof.
  rewrite standardize_data_unfold.
  pose proof (check_array_iff X_train) as H1. pose proof (check_array_iff X_test) as H2.
  pose proof (check_array_error X_train) as R1. pose proof (check_array_error X_test) as R2.
  destruct (check_array X_train) as [X|e1]; cbn [is_Ok] in H1.
  2:{ split; [|intros e [= <-]; eauto]. split; [done|]. intros (? & ? & ? & ? & ? & ?).
      assert (false = true) by (apply H1; done). done. }
  destruct (check_array X_test) as [X'|e2]; cbn [is_Ok] in H2.
  2:{ split; [|intros e [= <-]; eauto]. split; [done|]. intros (? & ? & ? & E & ? & ?).
      assert (false = true) by (apply H2; rewrite E; done). done. }
  destruct H1 as [(? & ? & ?) _]; [done|]. destruct H2 as [(? & ? & ?) _]; [done|].
  destruct (Nat.eqb_spec (n_features X_test) (n_features X_train)) as [E|E].
  - split; [|done]. split; done.
  - split; [|intros e [= <-]; eauto]. split; [done|]. by intros (? & ? & ? & ? & _).
Qed.

(** X16.  [standardize_data] keeps the shapes: each returned matrix has the
    rows of its input, one for one, and a row as wide as the train matrix
    stays as wide. *)
Theorem standardize_keeps_shape X_train X_test Xs_train Xs_test :
  standardize_data X_train X_test = Ok (Xs_train, Xs_test) ->
  length Xs_train = length X_train /\ length Xs_test = length X_test /\
  (forall i row, X_train !! i = Some row ->
     exists row', Xs_train !! i = Some row' /\
                  length row' = Nat.min (length row) (n_features X_train)) /\
  (forall i row, X_test !! i = Some row ->
     exists row', Xs_test !! i = Some row' /\
                  length row' = Nat.min (length row) (n_features X_train)).
Proof.
  rewrite standardize_data_unfold.
  destruct (check_array X_train); [|done]. destruct (check_array X_test); [|done].
  destruct (Nat.eqb _ _); [|done]. cbv zeta. intros [= <- <-].
  rewrite !length_map. split; [done|]. split; [done|].
  split; intros i row Hi; rewrite lookup_map, Hi; cbn; eexists; (split; [done|]);
    rewrite scale_row_length, !length_map, length_seq; lia.
Qed.

(** ** [run_models]: the numbers of the results rows *)

Section RunnerMore.

Variable params : Type.
Variable entropy : Type.
Variable learn : classifier -> entropy -> ndarray -> Series -> entropy * result params.
Variable predict_with : classifier -> params -> ndarray -> result (list cell).
Variable accuracy_score : Series -> list cell -> result float.
Variable recall_score : Series -> list cell -> result float.
Variable f1_score : Series -> list cell -> result float.
Variable confusion_matrix : Series -> list cell -> result (list (list nat)).

Local Abbreviation world := (world params entropy).
Local Abbreviation model_obj := (model_obj params).
Local Abbreviation evaluate :=
  (evaluate_model params entropy learn predict_with accuracy_score recall_score
     f1_score confusion_matrix).

(** A call of [evaluate_model] that returns: the object at the address was
    fitted on the train data with the generator as it stood, the scores are
    those of its predictions on the test matrix against the test labels,
    and the object holds what the fit learned. *)
Lemma evaluate_model_Ok m X_train X_test y_train y_test target (w w' : world) a r f :
  evaluate m X_train X_test y_train y_test target w = (w', Ok (a, r, f)) ->
  exists c old p y_pred,
    heap _ _ w !! m = Some (mkModel params c old) /\
    snd (learn c (np_random _ _ w) X_train y_train) = Ok p /\
    predict_with c p X_test = Ok y_pred /\
    accuracy_score y_test y_pred = Ok a /\
    recall_score y_test y_pred = Ok r /\
    f1_score y_test y_pred = Ok f /\
    np_random _ _ w' = fst (learn c (np_random _ _ w) X_train y_train) /\
    heap _ _ w' = <[m := mkModel params c (Some p)]> (heap _ _ w).
Proof.
  unfold evaluate_model, model_fit, model_predict, relearn, deref, emit, lift.
  unfold mbind, M_bind, mret, M_ret. cbn [heap np_random trace].
  destruct (heap _ _ w !! m) as [[c old]|] eqn:Hm; [|by intros [=]].
  pose proof (lookup_lt_Some _ _ _ Hm) as Hlt.
  cbn [cls learned heap np_random trace].
  destruct (learn c (np_random _ _ w) X_train y_train) as [g [p|e]] eqn:Hlearn; [|by intros [=]].
  cbn [heap np_random trace]. rewrite list_lookup_insert_eq by done.
  cbn [cls learned heap np_random trace].
  destruct (predict_with c p X_test) as [y_pred|e] eqn:Hpred; [|by intros [=]].
  destruct (accuracy_score y_test y_pred) as [a'|] eqn:Ha; [|by intros [=]].
  destruct (recall_score y_test y_pred) as [r'|] eqn:Hr; [|by intros [=]].
  destruct (f1_score y_test y_pred) as [f'|] eqn:Hf; [|by intros [=]].
  destruct (confusion_matrix y_test y_pred); [|by intros [=]].
  intros [= <- <- <- <-]. cbn [heap np_random]. exists c, old, p, y_pred.
  rewrite Hlearn. done.
Qed.

Local Abbreviation call_raises :=
  (call_raises params entropy learn predict_with accuracy_score recall_score
     f1_score confusion_matrix).

(** A call of [evaluate_model] on an object of the store that raises:
    the exception is the one its fit, its prediction or one of the four
    metrics raised. *)
Lemma evaluate_model_Raise m c old X_train X_test y_train y_test target
    (w w' : world) e :
  heap _ _ w !! m = Some (mkModel params c old) ->
  evaluate m X_train X_test y_train y_test target w = (w', Raise e) ->
  call_raises c X_train X_test y_train y_test e.
Proof.
  intros Hm. pose proof (lookup_lt_Some _ _ _ Hm) as Hlt.
  unfold evaluate_model, model_fit, model_predict, relearn, deref, emit, lift.
  unfold mbind, M_bind, mret, M_ret. cbn [heap np_random trace].
  rewrite Hm. cbn [cls learned heap np_random trace].
  destruct (learn c (np_random _ _ w) X_train y_train) as [g [p|e0]] eqn:Hlearn.
  2:{ intros [= _ <-]. left. exists (np_random _ _ w). by rewrite Hlearn. }
  cbn [heap np_random trace]. rewrite list_lookup_insert_eq by done.
  cbn [cls learned heap np_random trace].
  destruct (predict_with c p X_test) as [y_pred|e0] eqn:Hpred.
  2:{ intros [= _ <-]. right. left. eauto. }
  destruct (accuracy_score y_test y_pred) as [a|e0] eqn:Ha.
  2:{ intros [= _ <-]. right. right. exists y_pred. tauto. }
  destruct (recall_score y_test y_pred) as [r|e0] eqn:Hr.
  2:{ intros [= _ <-]. right. right. exists y_pred. tauto. }
  destruct (f1_score y_test y_pred) as [f|e0] eqn:Hf.
  2:{ intros [= _ <-]. right. right. exists y_pred. tauto. }
  destruct (confusion_matrix y_test y_pred) as [cm|e0] eqn:Hc.
  2:{ intros [= _ <-]. right. right. exists y_pred. tauto. }
  intros [=].
Qed.

Section LoopMore.

Variables X_train_f X_test_f : ndarray.
Variables y_train_f y_test_f : Series.
Variables X_train_l X_test_l : ndarray.
Variables y_train_l y_test_l : Series.

Local Abbreviation loop :=
  (run_loop params entropy learn predict_with accuracy_score recall_score
     f1_score confusion_matrix X_train_f X_test_f y_train_f y_test_f
     X_train_l X_test_l y_train_l y_test_l).
Local Abbreviation run :=
  (run_models params entropy learn predict_with accuracy_score recall_score
     f1_score confusion_matrix X_train_f X_test_f y_train_f y_test_f
     X_train_l X_test_l y_train_l y_test_l).
Local Abbreviation scored :=
  (scored params entropy learn predict_with accuracy_score recall_score f1_score
     X_train_f X_test_f y_train_f y_test_f X_train_l X_test_l y_train_l y_test_l).

(** The rows the loop adds, one per model, each with the scores of its own
    model on the two targets. *)
Lemma run_loop_scored models : forall results (w w' : world) rows,
  NoDup models ->
  Forall (fun m => exists c, heap _ _ w !! m = Some (mkModel params c None)) models ->
  loop models results w = (w', Ok rows) ->
  exists new_rows,
    rows = results ++ new_rows /\
    Forall2 (fun m row => exists c,
               heap _ _ w !! m = Some (mkModel params c None) /\
               Model row = class_name c /\ scored c row) models new_rows.
Proof.
  induction models as [|m rest IH]; intros results w w' rows Hnd Hun Hrun.
  - cbn in Hrun. injection Hrun as <- <-. exists []. by rewrite (right_id_L [] (++)).
  - apply NoDup_cons in Hnd as [Hm Hnd]. apply Forall_cons in Hun as [[c Hc] Hun].
    rewrite run_loop_unfold in Hrun.
    destruct (evaluate m X_train_f X_test_f y_train_f y_test_f "fraud" w)
      as [w1 [[[acc_f recall_f] f1_f]|e1]] eqn:E1; [|done].
    apply evaluate_model_Ok in E1
      as (c1 & old1 & p1 & yp1 & Hh1 & Hl1 & Hp1 & Ha1 & Hr1 & Hf1 & Hg1 & Hw1).
    rewrite Hc in Hh1. injection Hh1 as <- <-.
    destruct (evaluate m X_train_l X_test_l y_train_l y_test_l "late_delivery" w1)
      as [w2 [[[acc_l recall_l] f1_l]|e2]] eqn:E2; [|done].
    apply evaluate_model_Ok in E2
      as (c2 & old2 & p2 & yp2 & Hh2 & Hl2 & Hp2 & Ha2 & Hr2 & Hf2 & Hg2 & Hw2).
    pose proof (lookup_lt_Some _ _ _ Hc) as Hlt.
    rewrite Hw1, list_lookup_insert_eq in Hh2 by done. injection Hh2 as <- <-.
    rewrite Hw2, Hw1, list_insert_insert_eq, list_lookup_insert_eq in Hrun by done.
    cbn [cls] in Hrun.
    assert (Forall (fun m0 => exists c0, heap _ _ w2 !! m0 = Some (mkModel params c0 None))
              rest) as Hun2.
    { apply Forall_forall. intros m0 Hm0. rewrite Forall_forall in Hun.
      destruct (Hun m0 Hm0) as [c0 Hc0]. exists c0.
      rewrite Hw2, Hw1, list_insert_insert_eq, list_lookup_insert_ne; [done|].
      intros ->. done. }
    destruct (IH _ _ _ _ Hnd Hun2 Hrun) as (new_rows & -> & Hrows).
    eexists (_ :: new_rows). split; [by rewrite <- (assoc_L (++))|].
    constructor.
    + exists c. split; [done|]. split; [done|].
      exists (np_random _ _ w), p1, yp1, p2, yp2. cbn.
      rewrite <- Hg1. done.
    + eapply Forall2_impl; [exact Hrows|]. intros m0 row (c0 & Ha & Hb).
      exists c0. split; [|done].
      rewrite Hw2, Hw1, list_insert_insert_eq in Ha.
      destruct (decide (m0 = m)) as [->|Hne].
      * rewrite list_lookup_insert_eq in Ha by done. done.
      * by rewrite list_lookup_insert_ne in Ha.
Qed.

(** X17.  When [run_models] returns, the results have one row per roster
    entry, in roster order; the three fraud numbers of a row are the scores,
    against the fraud test labels, of the predictions on the fraud test
    matrix of what the entry's fit on the fraud train data learned, and the
    three late-delivery numbers are the same for the late-delivery data,
    the second fit starting from the generator state the first left. *)
Theorem results_rows_scores (w w' : world) r rows :
  run w = (w', r) -> r = Ok rows ->
  length rows = length roster /\
  Forall2 (fun c row => Model row = class_name c /\ scored c row) roster rows.
Proof.
  intros Hrun ->. revert Hrun. rewrite run_models_unfold.
  destruct (loop _ _ _) as [w1 [rows1|e]] eqn:Hloop; [|done].
  intros [= <- <-].
  pose proof (fresh_models_unfitted params (heap _ _ w)) as Hfresh.
  apply run_loop_scored in Hloop as (new_rows & -> & Hrows).
  2:{ apply NoDup_seq. }
  2:{ eapply Forall_impl; [exact Hfresh|]. intros m (c & Hc & _). by exists c. }
  cbn [heap app] in *.
  assert (Forall2 (fun c row => Model row = class_name c /\ scored c row) roster new_rows)
    as H; [|split; [symmetry; by eapply Forall2_length | done]].
  apply Forall2_same_length_lookup. split.
  { apply Forall2_length in Hrows. by rewrite length_seq in Hrows. }
  intros i c row Hc Hrow.
  assert (seq (length (heap _ _ w)) (length roster) !! i
          = Some (length (heap _ _ w) + i)%nat) as Hm.
  { apply lookup_seq_lt. by eapply lookup_lt_Some. }
  destruct (Forall2_lookup_lr _ _ _ _ _ _ Hrows Hm Hrow) as (c' & Hc' & Hmod & Hsc).
  rewrite lookup_app_r, lookup_map in Hc' by lia.
  replace (length (heap _ _ w) + i - length (heap _ _ w))%nat with i in Hc' by lia.
  rewrite Hc in Hc'. injection Hc' as <-. done.
Qed.

(** A loop that raises: the exception comes from a call made for one of
    its models. *)
Lemma run_loop_raises models : forall results (w w' : world) e,
  NoDup models ->
  Forall (fun m => exists c, heap _ _ w !! m = Some (mkModel params c None)) models ->
  loop models results w = (w', Raise e) ->
  exists m c,
    m ∈ models /\ heap _ _ w !! m = Some (mkModel params c None) /\
    (call_raises c X_train_f X_test_f y_train_f y_test_f e \/
     call_raises c X_train_l X_test_l y_train_l y_test_l e).
Proof.
  induction models as [|m rest IH]; intros results w w' e Hnd Hun Hrun.
  - cbn in Hrun. discriminate.
  - apply NoDup_cons in Hnd as [Hm Hnd]. apply Forall_cons in Hun as [[c Hc] Hun].
    rewrite run_loop_unfold in Hrun.
    destruct (evaluate m X_train_f X_test_f y_train_f y_test_f "fraud" w)
      as [w1 [[[acc_f recall_f] f1_f]|e1]] eqn:E1.
    2:{ injection Hrun as _ ->. exists m, c. split; [left|]. split; [done|]. left.
        by eapply evaluate_model_Raise. }
    apply evaluate_model_Ok in E1
      as (c1 & old1 & p1 & yp1 & Hh1 & Hl1 & Hp1 & Ha1 & Hr1 & Hf1 & Hg1 & Hw1).
    rewrite Hc in Hh1. injection Hh1 as <- <-.
    pose proof (lookup_lt_Some _ _ _ Hc) as Hlt.
    assert (heap _ _ w1 !! m = Some (mkModel params c (Some p1))) as Hh1.
    { rewrite Hw1. by apply list_lookup_insert_eq. }
    destruct (evaluate m X_train_l X_test_l y_train_l y_test_l "late_delivery" w1)
      as [w2 [[[acc_l recall_l] f1_l]|e2]] eqn:E2.
    2:{ injection Hrun as _ ->. exists m, c. split; [left|]. split; [done|]. right.
        by eapply evaluate_model_Raise. }
    apply evaluate_model_Ok in E2
      as (c2 & old2 & p2 & yp2 & Hh2 & Hl2 & Hp2 & Ha2 & Hr2 & Hf2 & Hg2 & Hw2).
    rewrite Hh1 in Hh2. injection Hh2 as <- <-.
    rewrite Hw2, Hw1, list_insert_insert_eq, list_lookup_insert_eq in Hrun by done.
    cbn [cls] in Hrun.
    assert (Forall (fun m0 => exists c0, heap _ _ w2 !! m0 = Some (mkModel params c0 None))
              rest) as Hun2.
    { apply Forall_forall. intros m0 Hm0. rewrite Forall_forall in Hun.
      destruct (Hun m0 Hm0) as [c0 Hc0]. exists c0.
      rewrite Hw2, Hw1, list_insert_insert_eq, list_lookup_insert_ne; [done|].
      intros ->. done. }
    destruct (IH _ _ _ _ Hnd Hun2 Hrun) as (m0 & c0 & Hm0 & Hc0 & Hcall).
    exists m0, c0. split; [by right|]. split; [|done].
    rewrite Hw2, Hw1, list_insert_insert_eq, list_lookup_insert_ne in Hc0; [done|].
    intros ->. done.
Qed.

(** X18.  [run_models] handles no exception: when it raises, the exception
    is the one that the fit, the prediction or a metric of some roster
    entry raised, on the fraud data or on the late-delivery data; it raises
    nothing of its own. *)
Theorem run_models_propagates (w w' : world) r e :
  run w = (w', r) -> r = Raise e ->
  exists c,
    c ∈ roster /\
    (call_raises c X_train_f X_test_f y_train_f y_test_f e \/
     call_raises c X_train_l X_test_l y_train_l y_test_l e).
Proof.
  intros Hrun ->. revert Hrun. rewrite run_models_unfold.
  destruct (loop _ _ _) as [w1 [rows1|e1]] eqn:Hloop; [done|].
  intros [= _ ->].
  pose proof (fresh_models_unfitted params (heap _ _ w)) as Hfresh.
  apply run_loop_raises in Hloop as (m & c & Hm & Hc & Hcall).
  2:{ apply NoDup_seq. }
  2:{ eapply Forall_impl; [exact Hfresh|]. intros m (c & Hc & _). by exists c. }
  exists c. split; [|done].
  rewrite Forall_forall in Hfresh. destruct (Hfresh m Hm) as (c' & Hc' & Hroster).
  cbn [heap] in Hc. rewrite Hc in Hc'. injection Hc' as <-.
  by eapply list_elem_of_lookup_2.
Qed.

(** A run writes the results file exactly when it returns. *)
Lemma run_models_files (w w' : world) r :
  run w = (w', r) ->
  exists evs,
    trace _ _ w' = trace _ _ w ++ evs /\
    files_written evs = (if is_Ok r then ["model_results.txt"] else []) /\
    files_content evs
    = match r with Ok rows => [("model_results.txt", rows)] | Raise _ => [] end /\
    forall rows, r = Ok rows -> map Model rows = map class_name roster.
Proof.
  intros (evs & Ht & Hr)%run_models_spec. exists evs. split; [done|].
  destruct r as [rows|e]; cbn [is_Ok].
  - destruct Hr as (-> & Hrows). split; [|split].
    + by rewrite files_written_app, files_written_model_events.
    + by rewrite files_content_app, files_content_model_events.
    + intros rows' [= <-].
      destruct (roster_rows _ _ _ _ _ _ _ _ _ _ _ _ _ Hrows) as [Hroster _].
      clear -Hroster. induction Hroster as [|c row l k [Hm _] _ IH]; cbn; [done|].
      by rewrite Hm, IH.
  - destruct Hr as (finished & failing & rest & p & Hm & -> & Hp & Hne).
    split; [|split; [|done]].
    + rewrite files_written_app, files_written_model_events.
      destruct (prefix_model_events _ _ Hp) as [->|[->|[->|[->| ->]]]]; done.
    + rewrite files_content_app, files_content_model_events.
      destruct (prefix_model_events _ _ Hp) as [->|[->|[->|[->| ->]]]]; done.
Qed.

End LoopMore.

End RunnerMore.

(** ** [main]: the script as a whole *)

Section MainSpec.

Variable read_csv : string -> result DataFrame.
Variable float_of_string : string -> option float.
Variable parse_datetime : string -> option Z.
Variable guess_datetime_format : string -> option string.
Variable strptime : string -> string -> option Z.
Variable rng : Type.
Variable RandomState : Z -> rng.
Variable random_interval : rng -> nat -> nat * rng.
Variable params : Type.
Variable entropy : Type.
Variable learn : classifier -> entropy -> ndarray -> Series -> entropy * result params.
Variable predict_with : classifier -> params -> ndarray -> result (list cell).
Variable accuracy_score : Series -> list cell -> result float.
Variable recall_score : Series -> list cell -> result float.
Variable f1_score : Series -> list cell -> result float.
Variable confusion_matrix : Series -> list cell -> result (list (list nat)).

Local Abbreviation world := (world params entropy).
Local Abbreviation script :=
  (main read_csv float_of_string parse_datetime guess_datetime_format strptime rng RandomState random_interval
     params entropy learn predict_with accuracy_score recall_score f1_score
     confusion_matrix).
Local Abbreviation split := (split_data rng RandomState random_interval).

(** A step that does not touch the world. *)
Lemma bind_lift {A B : Type} (r : result A) (k : A -> M params entropy B) (w : world) :
  (lift params entropy r ≫= k) w
  = match r with Ok a => k a w | Raise e => (w, Raise e) end.
Proof. unfold mbind, M_bind, lift. by destruct r. Qed.

(** [main], step by step: the preparation does not touch the world, and
    the run of the roster starts from the world as it was. *)
Lemma main_unfold (w : world) :
  script w =
  match load_data read_csv "数据集/DataCoSupplyChainDataset.csv" with
  | Raise e => (w, Raise e)
  | Ok dataset =>
  match preprocess_data parse_datetime guess_datetime_format strptime dataset with
  | Raise e => (w, Raise e)
  | Ok processed_data =>
  match split processed_data "fraud" with
  | Raise e => (w, Raise e)
  | Ok (X_train_f, X_test_f, y_train_f, y_test_f) =>
  match (a ← to_ndarray float_of_string X_train_f;
         b ← to_ndarray float_of_string X_test_f; standardize_data a b) with
  | Raise e => (w, Raise e)
  | Ok (Xs_train_f, Xs_test_f) =>
  match split processed_data "late_delivery" with
  | Raise e => (w, Raise e)
  | Ok (X_train_l, X_test_l, y_train_l, y_test_l) =>
  match (a ← to_ndarray float_of_string X_train_l;
         b ← to_ndarray float_of_string X_test_l; standardize_data a b) with
  | Raise e => (w, Raise e)
  | Ok (Xs_train_l, Xs_test_l) =>
      run_models params entropy learn predict_with accuracy_score recall_score
        f1_score confusion_matrix Xs_train_f Xs_test_f y_train_f y_test_f
        Xs_train_l Xs_test_l y_train_l y_test_l w
  end end end end end end.
Proof.
  unfold main. rewrite bind_lift.
  destruct (load_data _ _) as [dataset|e]; [|done]. rewrite bind_lift.
  destruct (preprocess_data _ _) as [data|e]; [|done]. rewrite bind_lift.
  destruct (split data "fraud") as [[[[a b] c] d]|e]; [|done]. rewrite bind_lift.
  destruct (_ ≫= _) as [[a' b']|e]; [|done]. rewrite bind_lift.
  destruct (split data "late_delivery") as [[[[a2 b2] c2] d2]|e]; [|done]. rewrite bind_lift.
  destruct (_ ≫= _) as [[a3 b3]|e]; done.
Qed.

(** X19.  [main] writes the results file exactly when it returns.  A run
    that returns wrote one file and nothing else, [model_results.txt], and
    what it wrote there are the rows of the results table it goes on to
    print (the value of the run here), one per classifier with the
    classifiers' names in roster order; a run that raises, at whatever
    step, wrote no file. *)
Theorem main_writes_file_iff_returns (w w' : world) r :
  script w = (w', r) ->
  exists evs,
    trace _ _ w' = trace _ _ w ++ evs /\
    files_written evs = (if is_Ok r then ["model_results.txt"] else []) /\
    files_content evs
    = match r with Ok rows => [("model_results.txt", rows)] | Raise _ => [] end /\
    forall rows, r = Ok rows -> map Model rows = map class_name roster.
Proof.
  rewrite main_unfold.
  assert (forall e, (w, @Raise (list result_row) e) = (w', r) ->
            exists evs,
              trace _ _ w' = trace _ _ w ++ evs /\
              files_written evs = (if is_Ok r then ["model_results.txt"] else []) /\
              files_content evs
              = match r with Ok rows => [("model_results.txt", rows)] | Raise _ => [] end /\
              forall rows, r = Ok rows -> map Model rows = map class_name roster) as Hraise.
  { intros e [= <- <-]. exists []. by rewrite (right_id_L [] (++)). }
  destruct (load_data _ _) as [dataset|e]; [|apply Hraise].
  destruct (preprocess_data _ _ _ _) as [data|e]; [|apply Hraise].
  destruct (split data "fraud") as [[[[a b] c] d]|e]; [|apply Hraise].
  destruct (_ ≫= _) as [[a' b']|e]; [|apply Hraise].
  destruct (split data "late_delivery") as [[[[a2 b2] c2] d2]|e]; [|apply Hraise].
  destruct (_ ≫= _) as [[a3 b3]|e]; [|apply Hraise].
  apply run_models_files.
Qed.

(** X20.  [main] fails before any model is built when the data cannot be
    prepared: if the file cannot be read, or preprocessing raises, [main]
    raises the same exception, and on a file of fewer than two rows that
    preprocesses it raises the [ValueError] of the split; in each case the
    model store, the generator and the record of calls are as they were. *)
Theorem main_fails_before_models (w : world) :
  (forall e, read_csv "数据集/DataCoSupplyChainDataset.csv" = Raise e ->
     script w = (w, Raise e)) /\
  (forall ds e,
     read_csv "数据集/DataCoSupplyChainDataset.csv" = Ok ds ->
     preprocess_data parse_datetime guess_datetime_format strptime ds = Raise e ->
     script w = (w, Raise e)) /\
  (forall ds data,
     read_csv "数据集/DataCoSupplyChainDataset.csv" = Ok ds ->
     preprocess_data parse_datetime guess_datetime_format strptime ds = Ok data ->
     (nrows ds < 2)%nat ->
     script w = (w, Raise (ValueError "the resulting train set will be empty"))).
Proof.
  split; [|split].
  - intros e He. rewrite main_unfold. unfold load_data. by rewrite He.
  - intros ds e Hds He. rewrite main_unfold. unfold load_data. by rewrite Hds, He.
  - intros ds data Hds Hdata Hn. rewrite main_unfold. unfold load_data.
    rewrite Hds, Hdata.
    destruct (label_column _ _ _ _ _ "fraud" Hdata) as
      (status & delivery & _ & _ & _ & _ & Hf%getitem_names & _); [by left|].
    apply preprocess_data_inv in Hdata
      as (fname & lname & zipcode & d & ix & qty & tot & price & st & dl & pre
          & _ & _ & _ & _ & _ & _ & _ & _ & _ & _ & _ & _ & Hix & _).
    rewrite split_data_small; [done | done |]. unfold nrows in *. by rewrite Hix.
Qed.

End MainSpec.

(** * The statements at the sample inputs *)

(** The calendar fields of 2018-01-31 22:56, a Wednesday. *)
Example sample_calendar_fields :
  (dt_year 1517439360000000000, dt_month 1517439360000000000,
   dt_weekday 1517439360000000000, dt_hour 1517439360000000000)
  = (2018, 1, 2, 22).
Proof. vm_compute. reflexivity. Qed.

(** The codes of a column: positions in the sorted distinct values, the
    missing value last. *)
Example sample_codes :
  fit_transform LabelEncoder_new [CStr "b"; CNaN; CStr "a"; CStr "b"]
  = Ok (mkLabelEncoder (Some [CStr "a"; CStr "b"; CNaN]),
        [CNum 1; CNum 2; CNum 0; CNum 1]).
Proof. vm_compute. reflexivity. Qed.

(** The labels of the five sample orders. *)
Example sample_labels :
  getitem Samples.processed_orders "fraud"
  = Ok [CNum 0; CNum 1; CNum 0; CNum 0; CNum 1] /\
  getitem Samples.processed_orders "late_delivery"
  = Ok [CNum 1; CNum 0; CNum 0; CNum 1; CNum 0].
Proof. vm_compute. split; reflexivity. Qed.

(** The whole script on the five sample orders writes the results file
    once, with one row per classifier in roster order. *)
Example sample_main_runs :
  files_written (trace _ _ (fst Samples.sample_main)) = ["model_results.txt"] /\
  map Model <$> snd Samples.sample_main = Ok (map class_name roster).
Proof. vm_compute. split; reflexivity. Qed.

(** C1 at the five sample orders. *)
Lemma fraud_label_sample :
  preprocess_data Samples.parse_datetime Samples.guess_datetime_format
    Samples.strptime Samples.orders = Ok Samples.processed_orders /\
  exists status labels,
    getitem Samples.orders "Order Status" = Ok status /\
    getitem Samples.processed_orders "fraud" = Ok labels /\
    length status = nrows Samples.orders /\ length labels = nrows Samples.orders /\
    forall i c, status !! i = Some c ->
      exists l, labels !! i = Some (CNum l) /\
                (l = 1 <-> c = CStr "SUSPECTED_FRAUD") /\
                (l = 0 <-> c <> CStr "SUSPECTED_FRAUD").
Proof.
  split; [vm_compute; reflexivity|].
  apply (fraud_label_iff_status Samples.parse_datetime Samples.guess_datetime_format
           Samples.strptime Samples.orders
           Samples.processed_orders).
  vm_compute. reflexivity.
Defined.

(** C2 at the five sample orders. *)
Lemma late_delivery_label_sample :
  preprocess_data Samples.parse_datetime Samples.guess_datetime_format
    Samples.strptime Samples.orders = Ok Samples.processed_orders /\
  exists delivery labels,
    getitem Samples.orders "Delivery Status" = Ok delivery /\
    getitem Samples.processed_orders "late_delivery" = Ok labels /\
    length delivery = nrows Samples.orders /\ length labels = nrows Samples.orders /\
    forall i c, delivery !! i = Some c ->
      exists l, labels !! i = Some (CNum l) /\
                (l = 1 <-> c = CStr "Late delivery") /\
                (l = 0 <-> c <> CStr "Late delivery").
Proof.
  split; [vm_compute; reflexivity|].
  apply (late_delivery_label_iff_status Samples.parse_datetime Samples.guess_datetime_format
           Samples.strptime Samples.orders
           Samples.processed_orders).
  vm_compute. reflexivity.
Defined.


(** The text [NaT] in the date field is read as no date: the order is
    preprocessed, and its year, month and hour are missing. *)
Example nat_text_has_missing_fields :
  getitem Samples.processed_unread_dates "order_year" = Ok [CNum 2018; CNaN; CNaN] /\
  getitem Samples.processed_unread_dates "order_month" = Ok [CNum 1; CNaN; CNaN] /\
  getitem Samples.processed_unread_dates "order_hour" = Ok [CNum 22; CNaN; CNaN] /\
  getitem Samples.processed_unread_dates "order_week_day" = Ok [CNum 0; CNum 1; CNum 1].
Proof. vm_compute. repeat split; reflexivity. Qed.


(** C7 at the five sample orders. *)
Lemma label_encoding_round_trip_sample :
  preprocess_data Samples.parse_datetime Samples.guess_datetime_format
    Samples.strptime Samples.orders = Ok Samples.processed_orders /\
  exists pre,
    derive_columns Samples.parse_datetime Samples.guess_datetime_format
    Samples.strptime Samples.orders = Ok pre /\
    length categorical_columns = 16%nat /\
    forall col, col ∈ categorical_columns ->
      exists orig codes le_col,
        getitem pre col = Ok orig /\
        getitem Samples.processed_orders col = Ok codes /\
        (forall le0, fit_transform le0 orig = Ok (le_col, codes)) /\
        inverse_transform le_col codes = Ok orig.
Proof.
  split; [vm_compute; reflexivity|].
  apply (label_encoding_round_trip Samples.parse_datetime Samples.guess_datetime_format
           Samples.strptime Samples.orders
           Samples.processed_orders).
  vm_compute. reflexivity.
Defined.

(** C3, as stated, fails: the table of a single processed order has the
    target column, and [split_data] raises on it instead of returning a
    partition. *)
Lemma single_order_split_raises :
  exists data,
    preprocess_data Samples.parse_datetime Samples.guess_datetime_format
    Samples.strptime Samples.single_order = Ok data /\
    nrows data = 1%nat /\
    split_data Z Samples.lcg_seed Samples.lcg_interval data "fraud"
    = Raise (ValueError "the resulting train set will be empty") /\
    split_data Z Samples.lcg_seed Samples.lcg_interval data "late_delivery"
    = Raise (ValueError "the resulting train set will be empty").
Proof.
  eexists. split; [vm_compute; reflexivity|]. vm_compute. repeat split; reflexivity. Qed.

(** The split of the five sample orders: one test row, four train rows. *)
Example sample_split_rows :
  split_labels <$> split_data Z Samples.lcg_seed Samples.lcg_interval
                     Samples.processed_orders "fraud"
  = Ok ([1; 4; 3; 2], [0], [1; 4; 3; 2], [0])%nat.
Proof. vm_compute. reflexivity. Qed.

(** C3, as the code has it, at the processed sample orders. *)
Lemma split_data_partition_sample :
  wf_frame Samples.processed_orders = true /\
  "fraud" ∈ names Samples.processed_orders /\
  (2 <= nrows Samples.processed_orders)%nat /\
  exists X_train X_test y_train y_test,
    split_data Z Samples.lcg_seed Samples.lcg_interval Samples.processed_orders "fraud"
    = Ok (X_train, X_test, y_train, y_test) /\
    index X_train ++ index X_test ≡ₚ index Samples.processed_orders /\
    (NoDup (index Samples.processed_orders) ->
     forall i, i ∈ index X_train -> i ∉ index X_test) /\
    s_index y_train = index X_train /\ s_index y_test = index X_test /\
    (nrows Samples.processed_orders <= 5 * length (index X_test)
     < nrows Samples.processed_orders + 5)%nat /\
    length (index X_train)
    = (nrows Samples.processed_orders - length (index X_test))%nat.
Proof.
  assert (wf_frame Samples.processed_orders = true) as Hwf
    by (vm_compute; reflexivity).
  assert ("fraud" ∈ names Samples.processed_orders) as Ht
    by (apply (bool_decide_unpack _); vm_compute; reflexivity).
  assert (2 <= nrows Samples.processed_orders)%nat as Hn by (vm_compute; lia).
  split; [exact Hwf|]. split; [exact Ht|]. split; [exact Hn|].
  destruct (split_data_partition Z Samples.lcg_seed Samples.lcg_interval
              Samples.processed_orders "fraud" Hwf Ht Hn)
    as (X_train & X_test & y_train & y_test & H1 & _ & _ & _ & _ & H2 & H3 & H4 & H5
        & H6 & H7 & _).
  exists X_train, X_test, y_train, y_test.
  exact (conj H1 (conj H2 (conj H3 (conj H4 (conj H5 (conj H6 H7)))))).
Defined.

(** C10 at the five sample orders. *)
Lemma splits_share_rows_sample :
  wf_frame Samples.orders = true /\
  preprocess_data Samples.parse_datetime Samples.guess_datetime_format
    Samples.strptime Samples.orders = Ok Samples.processed_orders /\
  split_labels <$> split_data Z Samples.lcg_seed Samples.lcg_interval
                     Samples.processed_orders "fraud"
  = split_labels <$> split_data Z Samples.lcg_seed Samples.lcg_interval
                       Samples.processed_orders "late_delivery" /\
  is_Ok (split_data Z Samples.lcg_seed Samples.lcg_interval
           Samples.processed_orders "fraud") = true.
Proof.
  assert (wf_frame Samples.orders = true) as Hwf by (vm_compute; reflexivity).
  assert (preprocess_data Samples.parse_datetime Samples.guess_datetime_format
    Samples.strptime Samples.orders
          = Ok Samples.processed_orders) as Hp by (vm_compute; reflexivity).
  split; [exact Hwf|]. split; [exact Hp|].
  destruct (fraud_and_late_splits_share_rows Samples.parse_datetime Samples.guess_datetime_format
           Samples.strptime Z Samples.lcg_seed
              Samples.lcg_interval Samples.orders Samples.processed_orders Hwf Hp)
    as (H1 & H2 & _).
  split; [exact H1|]. apply H2. vm_compute. lia.
Defined.

(** C9 at the processed sample orders. *)
Lemma features_keep_other_label_sample :
  preprocess_data Samples.parse_datetime Samples.guess_datetime_format
    Samples.strptime Samples.orders = Ok Samples.processed_orders /\
  ("fraud", "late_delivery") ∈ [("fraud", "late_delivery"); ("late_delivery", "fraud")] /\
  names (features_of Samples.processed_orders "fraud")
  = List.filter (fun k => negb (String.eqb k "fraud")) (names Samples.processed_orders) /\
  "late_delivery" ∈ names (features_of Samples.processed_orders "fraud") /\
  forall X_train X_test y_train y_test,
    split_data Z Samples.lcg_seed Samples.lcg_interval Samples.processed_orders "fraud"
    = Ok (X_train, X_test, y_train, y_test) ->
    "late_delivery" ∈ names X_train /\ "late_delivery" ∈ names X_test.
Proof.
  assert (preprocess_data Samples.parse_datetime Samples.guess_datetime_format
    Samples.strptime Samples.orders
          = Ok Samples.processed_orders) as Hp by (vm_compute; reflexivity).
  assert (("fraud", "late_delivery")
          ∈ [("fraud", "late_delivery"); ("late_delivery", "fraud")]) as Ht by left.
  split; [exact Hp|]. split; [exact Ht|].
  destruct (features_keep_other_label Samples.parse_datetime Samples.guess_datetime_format
           Samples.strptime Z Samples.lcg_seed
              Samples.lcg_interval Samples.orders Samples.processed_orders
              "fraud" "late_delivery" Hp Ht) as (H1 & _ & _ & H2 & H3).
  split; [exact H1|]. split; [exact H2|].
  intros X_train X_test y_train y_test Hs.
  destruct (H3 _ _ _ _ Hs) as (_ & _ & H4 & H5). by split.
Defined.

(** The scaled sample matrices. *)
Example sample_scaling :
  standardize_data [[1%float; 10%float]; [3%float; 10%float]] [[5%float; 12%float]]
  = Ok ([[(-1)%float; 0%float]; [1%float; 0%float]], [[3%float; 2%float]]).
Proof. vm_compute. reflexivity. Qed.

(** Eight numbers are added in pairs, not one after the other: the ones
    that a sum from left to right would lose against the first number are
    kept. *)
Example sample_np_sum :
  np_sum [0x1p+53; 1; 1; 1; 1; 1; 1; 1]%float = (0x1p+53 + 6)%float /\
  fold_left PrimFloat.add [0x1p+53; 1; 1; 1; 1; 1; 1; 1]%float 0%float = 0x1p+53%float.
Proof. vm_compute. split; reflexivity. Qed.

(** C4 at the sample matrices. *)
Lemma standardize_sample :
  exists scaler Xs_train Xs_test,
    standardize_data_scaler Samples.X_train Samples.X_test
    = Ok (scaler, (Xs_train, Xs_test)) /\
    exists means scales,
      scaler = Some (mkStats means scales) /\
      length means = 2%nat /\ length scales = 2%nat /\
      (forall i j row x,
         Samples.X_train !! i = Some row -> row !! j = Some x -> (j < 2)%nat ->
         exists row' m s,
           Xs_train !! i = Some row' /\ means !! j = Some m /\ scales !! j = Some s /\
           row' !! j = Some ((x - m) / s)%float) /\
      (forall i j row x,
         Samples.X_test !! i = Some row -> row !! j = Some x -> (j < 2)%nat ->
         exists row' m s,
           Xs_test !! i = Some row' /\ means !! j = Some m /\ scales !! j = Some s /\
           row' !! j = Some ((x - m) / s)%float) /\
      forall X_test' scaler' Xs_train' Xs_test',
        standardize_data_scaler Samples.X_train X_test'
        = Ok (scaler', (Xs_train', Xs_test')) ->
        scaler' = scaler /\ Xs_train' = Xs_train.
Proof.
  destruct (standardize_data_scaler Samples.X_train Samples.X_test)
    as [[scaler [Xs_train Xs_test]]|e] eqn:Hrun; [|vm_compute in Hrun; discriminate].
  exists scaler, Xs_train, Xs_test. split; [reflexivity|].
  destruct (standardize_uses_train_statistics Samples.X_train Samples.X_test
              scaler Xs_train Xs_test Hrun)
    as (means & scales & H1 & H2 & H3 & _ & _ & _ & H4 & H5 & _ & H6 & _).
  exists means, scales.
  exact (conj H1 (conj H2 (conj H3 (conj H4 (conj H5 H6))))).
Defined.

(** C5, as stated, fails: in the sample run the object at address 0 is
    fitted for the fraud target and then, already fitted, for the
    late-delivery target, and so is each of the nine objects. *)
Lemma sample_run_refits_each_object :
  take 4 (trace _ _ (fst (Samples.sample_run None)))
  = [EvFit 0 "fraud" false; EvPredict 0 "fraud";
     EvFit 0 "late_delivery" true; EvPredict 0 "late_delivery"] /\
  fit_addresses "fraud" (trace _ _ (fst (Samples.sample_run None)))
  = [0; 1; 2; 3; 4; 5; 6; 7; 8]%nat /\
  fit_addresses "late_delivery" (trace _ _ (fst (Samples.sample_run None)))
  = [0; 1; 2; 3; 4; 5; 6; 7; 8]%nat.
Proof. vm_compute. repeat split; reflexivity. Qed.

(** C5, as the code has it, at the sample run. *)
Lemma roster_objects_refitted_sample :
  exists evs,
    trace _ _ (fst (Samples.sample_run None)) = [] ++ evs /\
    (forall m,
       calls_on m evs `prefix_of`
         [EvFit m "fraud" false; EvPredict m "fraud";
          EvFit m "late_delivery" true; EvPredict m "late_delivery"]) /\
    (forall m b, EvFit m "late_delivery" b ∈ evs ->
       b = true /\ EvFit m "fraud" false ∈ evs) /\
    NoDup (fit_addresses "fraud" evs) /\
    NoDup (fit_addresses "late_delivery" evs) /\
    is_Ok (snd (Samples.sample_run None)) = true.
Proof.
  destruct (roster_objects_refitted_per_target cell unit (Samples.learn_last None)
              Samples.predict_const Samples.accuracy Samples.recall Samples.f1
              Samples.confusion Samples.X_train Samples.X_test Samples.y_train_f
              Samples.y_test_f Samples.X_train Samples.X_test Samples.y_train_l
              Samples.y_test_l
              Samples.empty_world (fst (Samples.sample_run None))
              (snd (Samples.sample_run None)))
    as (evs & H1 & H0 & H2 & H3 & H4 & _).
  { unfold Samples.sample_run. apply surjective_pairing. }
  exists evs. split; [exact H1|]. split; [exact H0|]. split; [exact H2|].
  split; [exact H3|]. split; [exact H4|]. vm_compute. reflexivity.
Defined.

(** A run in which the fit of the third classifier raises: two entries are
    completed, the third is fitted once, nothing is written. *)
Example sample_failing_run :
  trace _ _ (fst (Samples.sample_run (Some LinearSVC)))
  = model_events 0 ++ model_events 1 ++ [EvFit 2 "fraud" false] /\
  files_written (trace _ _ (fst (Samples.sample_run (Some LinearSVC)))) = [] /\
  snd (Samples.sample_run (Some LinearSVC))
  = Raise (ValueError "could not convert string to float").
Proof. vm_compute. repeat split; reflexivity. Qed.

(** C8 at the sample run. *)
Lemma results_file_sample :
  (exists evs rows,
     snd (Samples.sample_run None) = Ok rows /\
     trace _ _ (fst (Samples.sample_run None)) = [] ++ evs /\
     evs = flat_map model_events (seq 0 (length roster))
           ++ [EvToCsv "model_results.txt" rows] /\
     files_written evs = ["model_results.txt"] /\ length rows = 9%nat).
Proof.
  destruct (results_file_written_once cell unit (Samples.learn_last None)
              Samples.predict_const Samples.accuracy Samples.recall Samples.f1
              Samples.confusion Samples.X_train Samples.X_test Samples.y_train_f
              Samples.y_test_f Samples.X_train Samples.X_test Samples.y_train_l
              Samples.y_test_l
              Samples.empty_world (fst (Samples.sample_run None))
              (snd (Samples.sample_run None)))
    as (evs & H1 & _ & H2 & _).
  { unfold Samples.sample_run. apply surjective_pairing. }
  destruct (snd (Samples.sample_run None)) as [rows|e] eqn:Hr;
    [|vm_compute in Hr; discriminate].
  destruct H2 as (H2 & H3 & H4 & _).
  exists evs, rows. exact (conj eq_refl (conj H1 (conj H2 (conj H3 H4)))).
Defined.

(** X1 at the five sample orders. *)
Lemma preprocess_requires_columns_sample :
  preprocess_data Samples.parse_datetime Samples.guess_datetime_format
    Samples.strptime Samples.orders = Ok Samples.processed_orders /\
  "Market" ∈ names Samples.orders /\ "Late_delivery_risk" ∈ names Samples.orders.
Proof.
  assert (preprocess_data Samples.parse_datetime Samples.guess_datetime_format
    Samples.strptime Samples.orders
          = Ok Samples.processed_orders) as Hp by (vm_compute; reflexivity).
  split; [exact Hp|]. split.
  - apply (preprocess_requires_columns Samples.parse_datetime Samples.guess_datetime_format
           Samples.strptime Samples.orders
             Samples.processed_orders Hp "Market").
    + apply (bool_decide_unpack _). vm_compute. reflexivity.
    + discriminate.
    + discriminate.
  - apply (preprocess_requires_columns Samples.parse_datetime Samples.guess_datetime_format
           Samples.strptime Samples.orders
             Samples.processed_orders Hp "Late_delivery_risk").
    + apply (bool_decide_unpack _). vm_compute. reflexivity.
    + discriminate.
    + discriminate.
Defined.

(** X2 at the five sample orders. *)
Lemma preprocess_requires_clean_cells_sample :
  preprocess_data Samples.parse_datetime Samples.guess_datetime_format
    Samples.strptime Samples.orders = Ok Samples.processed_orders /\
  (forall d i s,
     getitem Samples.orders "order date (DateOrders)" = Ok d -> d !! i = Some (CStr s) ->
     is_Some (Samples.parse_datetime s)) /\
  (forall col c,
     col ∈ categorical_columns ->
     col <> "Customer Full Name" -> col <> "order_week_day" ->
     getitem Samples.orders col = Ok c ->
     existsb is_str c && existsb is_num c = false).
Proof.
  assert (preprocess_data Samples.parse_datetime Samples.guess_datetime_format
    Samples.strptime Samples.orders
          = Ok Samples.processed_orders) as Hp by (vm_compute; reflexivity).
  split; [exact Hp|].
  destruct (preprocess_requires_clean_cells Samples.parse_datetime Samples.guess_datetime_format
           Samples.strptime Samples.orders
              Samples.processed_orders Hp) as (H1 & _ & H3).
  exact (conj H1 H3).
Defined.


(** X4 at the five sample orders. *)
Lemma preprocess_output_columns_sample :
  preprocess_data Samples.parse_datetime Samples.guess_datetime_format
    Samples.strptime Samples.orders = Ok Samples.processed_orders /\
  forall k,
    k ∈ names Samples.processed_orders <->
    (k ∈ names Samples.orders \/
     k ∈ ["Customer Full Name"; "order_year"; "order_month"; "order_week_day";
          "order_hour"; "TotalPrice"; "fraud"; "late_delivery"]) /\
    (k ∉ dropped_first) /\ (k ∉ dropped_second).
Proof.
  assert (preprocess_data Samples.parse_datetime Samples.guess_datetime_format
    Samples.strptime Samples.orders
          = Ok Samples.processed_orders) as Hp by (vm_compute; reflexivity).
  split; [exact Hp|].
  exact (proj1 (preprocess_output_columns Samples.parse_datetime Samples.guess_datetime_format
           Samples.strptime Samples.orders
                  Samples.processed_orders Hp)).
Defined.

(** The columns of the processed sample orders, in order. *)
Example sample_output_columns :
  names Samples.processed_orders
  = ["Customer Zipcode"; "Order Item Quantity"; "Order Item Total";
     "Customer Country"; "Market"; "Type"; "Product Name"; "Customer Segment";
     "Customer State"; "Order Region"; "Order City"; "Category Name";
     "Customer City"; "Department Name"; "Order State"; "Shipping Mode";
     "Order Country"; "Customer Full Name"; "order_year"; "order_month";
     "order_week_day"; "order_hour"; "TotalPrice"; "fraud"; "late_delivery"].
Proof. vm_compute. reflexivity. Qed.

(** X5 at the five sample orders. *)
Lemma preprocess_keeps_rows_sample :
  preprocess_data Samples.parse_datetime Samples.guess_datetime_format
    Samples.strptime Samples.orders = Ok Samples.processed_orders /\
  index Samples.processed_orders = index Samples.orders /\
  nrows Samples.processed_orders = nrows Samples.orders.
Proof.
  assert (preprocess_data Samples.parse_datetime Samples.guess_datetime_format
    Samples.strptime Samples.orders
          = Ok Samples.processed_orders) as Hp by (vm_compute; reflexivity).
  split; [exact Hp|].
  destruct (preprocess_keeps_rows Samples.parse_datetime Samples.guess_datetime_format
           Samples.strptime Samples.orders
              Samples.processed_orders Hp) as (H1 & H2 & _).
  exact (conj H1 H2).
Defined.

(** X6 at the five sample orders: the quantity column passes through. *)
Lemma preprocess_passes_other_columns_sample :
  preprocess_data Samples.parse_datetime Samples.guess_datetime_format
    Samples.strptime Samples.orders = Ok Samples.processed_orders /\
  getitem Samples.processed_orders "Order Item Quantity"
  = getitem Samples.orders "Order Item Quantity".
Proof.
  assert (preprocess_data Samples.parse_datetime Samples.guess_datetime_format
    Samples.strptime Samples.orders
          = Ok Samples.processed_orders) as Hp by (vm_compute; reflexivity).
  split; [exact Hp|].
  apply (preprocess_passes_other_columns Samples.parse_datetime Samples.guess_datetime_format
           Samples.strptime Samples.orders
           Samples.processed_orders Hp "Order Item Quantity").
  apply (bool_decide_unpack _). vm_compute. reflexivity.
Defined.

(** X7 at the five sample orders. *)
Lemma preprocess_fills_zipcode_sample :
  preprocess_data Samples.parse_datetime Samples.guess_datetime_format
    Samples.strptime Samples.orders = Ok Samples.processed_orders /\
  exists zipcode filled,
    getitem Samples.orders "Customer Zipcode" = Ok zipcode /\
    getitem Samples.processed_orders "Customer Zipcode" = Ok filled /\
    length filled = length zipcode /\
    forall i c, zipcode !! i = Some c ->
      filled !! i = Some (if isna c then CNum 0 else c).
Proof.
  assert (preprocess_data Samples.parse_datetime Samples.guess_datetime_format
    Samples.strptime Samples.orders
          = Ok Samples.processed_orders) as Hp by (vm_compute; reflexivity).
  split; [exact Hp|].
  exact (preprocess_fills_zipcode Samples.parse_datetime Samples.guess_datetime_format
           Samples.strptime Samples.orders
           Samples.processed_orders Hp).
Defined.

(** X8 at the five sample orders. *)
Lemma calendar_columns_in_range_sample :
  preprocess_data Samples.parse_datetime Samples.guess_datetime_format
    Samples.strptime Samples.orders = Ok Samples.processed_orders /\
  exists months hours,
    getitem Samples.processed_orders "order_month" = Ok months /\
    getitem Samples.processed_orders "order_hour" = Ok hours /\
    Forall (fun c => c = CNaN \/ exists z, c = CNum z /\ 1 <= z <= 12) months /\
    Forall (fun c => c = CNaN \/ exists z, c = CNum z /\ 0 <= z <= 23) hours.
Proof.
  assert (preprocess_data Samples.parse_datetime Samples.guess_datetime_format
    Samples.strptime Samples.orders
          = Ok Samples.processed_orders) as Hp by (vm_compute; reflexivity).
  split; [exact Hp|].
  destruct (calendar_columns_in_range Samples.parse_datetime Samples.guess_datetime_format
           Samples.strptime Samples.orders
              Samples.processed_orders Hp)
    as (d & ix & years & months & hours & _ & _ & _ & H1 & H2 & _ & H3 & H4).
  exists months, hours. exact (conj H1 (conj H2 (conj H3 H4))).
Defined.

(** X9 at the five sample orders. *)
Lemma preprocess_data_not_reentrant_sample :
  preprocess_data Samples.parse_datetime Samples.guess_datetime_format
    Samples.strptime Samples.orders = Ok Samples.processed_orders /\
  preprocess_data Samples.parse_datetime Samples.guess_datetime_format
    Samples.strptime Samples.processed_orders
  = Raise (KeyError "Customer Fname").
Proof.
  assert (preprocess_data Samples.parse_datetime Samples.guess_datetime_format
    Samples.strptime Samples.orders
          = Ok Samples.processed_orders) as Hp by (vm_compute; reflexivity).
  split; [exact Hp|].
  exact (preprocess_data_not_reentrant Samples.parse_datetime Samples.guess_datetime_format
           Samples.strptime Samples.orders
           Samples.processed_orders Hp Samples.parse_datetime
           Samples.guess_datetime_format Samples.strptime).
Defined.

(** X10 at the five sample orders. *)
Lemma categorical_codes_sample :
  preprocess_data Samples.parse_datetime Samples.guess_datetime_format
    Samples.strptime Samples.orders = Ok Samples.processed_orders /\
  exists orig codes classes,
    getitem Samples.orders "Market" = Ok orig /\
    getitem Samples.processed_orders "Market" = Ok codes /\
    NoDup classes /\
    (forall v, v ∈ classes <-> v ∈ orig) /\
    (forall i j v w, orig !! i = Some v -> orig !! j = Some w ->
       (codes !! i = codes !! j <-> v = w)) /\
    (forall n, (n < length classes)%nat -> CNum (Z.of_nat n) ∈ codes).
Proof.
  assert (preprocess_data Samples.parse_datetime Samples.guess_datetime_format
    Samples.strptime Samples.orders
          = Ok Samples.processed_orders) as Hp by (vm_compute; reflexivity).
  split; [exact Hp|].
  destruct (categorical_codes_number_distinct_values Samples.parse_datetime
              Samples.guess_datetime_format Samples.strptime
              Samples.orders Samples.processed_orders Hp) as (pre & _ & Hcols).
  destruct (Hcols "Market") as (orig & codes & classes & _ & H1 & H2 & _ & H3 & H4 & H5
                                & _ & H6).
  { apply (bool_decide_unpack _). vm_compute. reflexivity. }
  exists orig, codes, classes.
  refine (conj (H2 _ _) (conj H1 (conj H3 (conj H4 (conj H5 H6))))); discriminate.
Defined.

(** X11 at the five sample orders. *)
Lemma full_name_codes_sample :
  preprocess_data Samples.parse_datetime Samples.guess_datetime_format
    Samples.strptime Samples.orders = Ok Samples.processed_orders /\
  exists fname lname codes,
    getitem Samples.orders "Customer Fname" = Ok fname /\
    getitem Samples.orders "Customer Lname" = Ok lname /\
    getitem Samples.processed_orders "Customer Full Name" = Ok codes /\
    (forall i j a b a' b',
       fname !! i = Some (CStr a) -> lname !! i = Some (CStr b) ->
       fname !! j = Some (CStr a') -> lname !! j = Some (CStr b') ->
       (codes !! i = codes !! j <-> (a ++ b)%string = (a' ++ b')%string)) /\
    (forall i j a b a' b',
       fname !! i = Some a -> lname !! i = Some b ->
       fname !! j = Some a' -> lname !! j = Some b' ->
       a = CNaN \/ b = CNaN ->
       (codes !! i = codes !! j <-> a' = CNaN \/ b' = CNaN)).
Proof.
  assert (preprocess_data Samples.parse_datetime Samples.guess_datetime_format
    Samples.strptime Samples.orders
          = Ok Samples.processed_orders) as Hp by (vm_compute; reflexivity).
  split; [exact Hp|].
  exact (full_name_codes Samples.parse_datetime Samples.guess_datetime_format
           Samples.strptime Samples.orders
           Samples.processed_orders Hp).
Defined.

(** The names and the codes of the five sample orders: the order without a
    last name has no full name, and its code is the last one. *)
Example sample_full_names :
  (exists pre, derive_columns Samples.parse_datetime Samples.guess_datetime_format
    Samples.strptime Samples.orders = Ok pre /\
     getitem pre "Customer Full Name"
     = Ok [CStr "AnnLee"; CNaN; CStr "CyKim"; CStr "DiRoe"; CStr "EdPoe"]) /\
  getitem Samples.processed_orders "Customer Full Name"
  = Ok [CNum 0; CNum 4; CNum 1; CNum 2; CNum 3].
Proof.
  split; [eexists; split; [vm_compute; reflexivity|]|]; vm_compute; reflexivity.
Qed.

(** The product of a column of strings and a column of numbers with a
    missing value cannot be taken; the product of two integer columns wraps
    around. *)
Example sample_products :
  series_mul [CStr "a"; CStr "c"] [CNaN; CNum 3]
  = Raise (TypeError "can't multiply sequence by non-int of type 'float'") /\
  series_mul [CNaN; CNum 2] [CStr "a"; CStr "c"]
  = Raise (TypeError "can't multiply sequence by non-int of type 'float'") /\
  series_mul [CStr "a"; CStr "c"] [CNum 2; CNum 3] = Ok [CStr "aa"; CStr "ccc"] /\
  series_mul [CNum (2 ^ 62); CNum 3] [CNum 2; CNum 5] = Ok [CNum (- 2 ^ 63); CNum 15].
Proof. vm_compute. repeat split; reflexivity. Qed.

(** X12 at the five sample orders. *)
Lemma week_day_codes_sample :
  preprocess_data Samples.parse_datetime Samples.guess_datetime_format
    Samples.strptime Samples.orders = Ok Samples.processed_orders /\
  exists d ix codes days,
    getitem Samples.orders "order date (DateOrders)" = Ok d /\
    DatetimeIndex Samples.parse_datetime d = Ok ix /\
    getitem Samples.processed_orders "order_week_day" = Ok codes /\
    StronglySorted Z.le days /\ NoDup days /\
    (forall i ns, ix !! i = Some (Some ns) ->
       exists n, codes !! i = Some (CNum (Z.of_nat n)) /\
                 days !! n = Some (dt_weekday ns) /\
                 Z.of_nat n <= dt_weekday ns <= 6) /\
    (forall i, ix !! i = Some None ->
       codes !! i = Some (CNum (Z.of_nat (length days)))).
Proof.
  assert (preprocess_data Samples.parse_datetime Samples.guess_datetime_format
    Samples.strptime Samples.orders
          = Ok Samples.processed_orders) as Hp by (vm_compute; reflexivity).
  split; [exact Hp|].
  destruct (week_day_codes_are_ranks Samples.parse_datetime Samples.guess_datetime_format
           Samples.strptime Samples.orders
              Samples.processed_orders Hp)
    as (d & ix & codes & days & Hd & Hix & H1 & H2 & H3 & _ & H4 & H5 & _).
  exists d, ix, codes, days.
  exact (conj Hd (conj Hix (conj H1 (conj H2 (conj H3 (conj H4 H5)))))).
Defined.

(** The weekdays of the sample orders are Wednesday (2) and Thursday (3);
    their codes are 0 and 1. *)
Example sample_week_day_codes :
  getitem Samples.processed_orders "order_week_day"
  = Ok [CNum 0; CNum 1; CNum 0; CNum 1; CNum 1].
Proof. vm_compute. reflexivity. Qed.

(** X14 at the processed sample orders. *)
Lemma split_data_rows_aligned_sample :
  exists X_train X_test y_train y_test,
    split_data Z Samples.lcg_seed Samples.lcg_interval Samples.processed_orders "fraud"
    = Ok (X_train, X_test, y_train, y_test) /\
    exists y,
      getitem Samples.processed_orders "fraud" = Ok y /\
      forall p r,
        test_rows Z Samples.lcg_seed Samples.lcg_interval
          (nrows Samples.processed_orders) !! p = Some r ->
        is_Some (index Samples.processed_orders !! r) /\
        index X_test !! p = index Samples.processed_orders !! r /\
        s_index y_test !! p = index Samples.processed_orders !! r /\
        s_values y_test !! p = y !! r /\
        forall k c, k <> "fraud" -> getitem Samples.processed_orders k = Ok c ->
          exists c', getitem X_test k = Ok c' /\ c' !! p = c !! r.
Proof.
  destruct (split_data Z Samples.lcg_seed Samples.lcg_interval
              Samples.processed_orders "fraud")
    as [[[[X_train X_test] y_train] y_test]|e] eqn:Hs; [|vm_compute in Hs; discriminate].
  exists X_train, X_test, y_train, y_test. split; [reflexivity|].
  destruct (split_data_rows_aligned Z Samples.lcg_seed Samples.lcg_interval
              Samples.processed_orders "fraud" X_train X_test y_train y_test Hs)
    as (y & Hy & _ & _ & _ & Hte).
  exists y. exact (conj Hy Hte).
Defined.

(** X16 at the sample matrices. *)
Lemma standardize_keeps_shape_sample :
  exists Xs_train Xs_test,
    standardize_data Samples.X_train Samples.X_test = Ok (Xs_train, Xs_test) /\
    length Xs_train = length Samples.X_train /\
    length Xs_test = length Samples.X_test.
Proof.
  destruct (standardize_data Samples.X_train Samples.X_test)
    as [[Xs_train Xs_test]|e] eqn:Hrun; [|vm_compute in Hrun; discriminate].
  exists Xs_train, Xs_test. split; [reflexivity|].
  destruct (standardize_keeps_shape Samples.X_train Samples.X_test Xs_train Xs_test Hrun)
    as (H1 & H2 & _).
  exact (conj H1 H2).
Defined.

(** X17 at the sample run. *)
Lemma results_rows_scores_sample :
  exists rows,
    snd (Samples.sample_run None) = Ok rows /\
    length rows = length roster /\
    Forall2 (fun c row =>
               Model row = class_name c /\
               scored cell unit (Samples.learn_last None) Samples.predict_const
                 Samples.accuracy Samples.recall Samples.f1
                 Samples.X_train Samples.X_test Samples.y_train_f Samples.y_test_f
                 Samples.X_train Samples.X_test Samples.y_train_l Samples.y_test_l c row)
      roster rows.
Proof.
  destruct (snd (Samples.sample_run None)) as [rows|e] eqn:Hr;
    [|vm_compute in Hr; discriminate].
  exists rows. split; [reflexivity|].
  apply (results_rows_scores cell unit (Samples.learn_last None) Samples.predict_const
           Samples.accuracy Samples.recall Samples.f1 Samples.confusion
           Samples.X_train Samples.X_test Samples.y_train_f Samples.y_test_f
           Samples.X_train Samples.X_test Samples.y_train_l Samples.y_test_l
           Samples.empty_world (fst (Samples.sample_run None))
           (snd (Samples.sample_run None)) rows).
  - unfold Samples.sample_run. apply surjective_pairing.
  - exact Hr.
Defined.

(** X18 at the sample run in which the fit of the third classifier
    raises. *)
Lemma run_models_propagates_sample :
  exists c,
    snd (Samples.sample_run (Some LinearSVC))
    = Raise (ValueError "could not convert string to float") /\
    c ∈ roster /\
    (call_raises cell unit (Samples.learn_last (Some LinearSVC)) Samples.predict_const
       Samples.accuracy Samples.recall Samples.f1 Samples.confusion
       c Samples.X_train Samples.X_test Samples.y_train_f Samples.y_test_f
       (ValueError "could not convert string to float") \/
     call_raises cell unit (Samples.learn_last (Some LinearSVC)) Samples.predict_const
       Samples.accuracy Samples.recall Samples.f1 Samples.confusion
       c Samples.X_train Samples.X_test Samples.y_train_l Samples.y_test_l
       (ValueError "could not convert string to float")).
Proof.
  assert (snd (Samples.sample_run (Some LinearSVC))
          = Raise (ValueError "could not convert string to float")) as Hr
    by (vm_compute; reflexivity).
  destruct (run_models_propagates cell unit (Samples.learn_last (Some LinearSVC))
              Samples.predict_const Samples.accuracy Samples.recall Samples.f1
              Samples.confusion Samples.X_train Samples.X_test Samples.y_train_f
              Samples.y_test_f Samples.X_train Samples.X_test Samples.y_train_l
              Samples.y_test_l Samples.empty_world
              (fst (Samples.sample_run (Some LinearSVC)))
              (snd (Samples.sample_run (Some LinearSVC)))
              (ValueError "could not convert string to float"))
    as (c & Hc & Hcall).
  { unfold Samples.sample_run. apply surjective_pairing. }
  { exact Hr. }
  exists c. exact (conj Hr (conj Hc Hcall)).
Defined.

(** X19 at the whole script on the five sample orders. *)
Lemma main_writes_file_sample :
  exists evs rows,
    trace _ _ (fst Samples.sample_main) = [] ++ evs /\
    snd Samples.sample_main = Ok rows /\
    files_written evs = ["model_results.txt"] /\
    files_content evs = [("model_results.txt", rows)] /\
    map Model rows = map class_name roster.
Proof.
  destruct (main_writes_file_iff_returns (fun _ => Ok Samples.orders) (fun _ => None)
              Samples.parse_datetime Samples.guess_datetime_format
              Samples.strptime Z Samples.lcg_seed Samples.lcg_interval
              cell unit (Samples.learn_last None) Samples.predict_const
              Samples.accuracy Samples.recall Samples.f1 Samples.confusion
              Samples.empty_world (fst Samples.sample_main) (snd Samples.sample_main))
    as (evs & H1 & H2 & H3 & H4).
  { unfold Samples.sample_main. apply surjective_pairing. }
  assert (is_Ok (snd Samples.sample_main) = true) as Hok by (vm_compute; reflexivity).
  destruct (snd Samples.sample_main) as [rows|e]; [|discriminate Hok].
  exists evs, rows.
  exact (conj H1 (conj eq_refl (conj H2 (conj H3 (H4 rows eq_refl))))).
Defined.

(** A target that is not a column: [split_data] raises its [KeyError]. *)
Example sample_split_unknown_target :
  split_data Z Samples.lcg_seed Samples.lcg_interval Samples.processed_orders "price"
  = Raise (KeyError "price").
Proof. vm_compute. reflexivity. Qed.

(** A test matrix narrower than the train matrix, and an empty one:
    [standardize_data] raises. *)
Example sample_standardize_raises :
  standardize_data Samples.X_train [[1%float]]
  = Raise (ValueError "X has a different number of features than the scaler was fitted with") /\
  standardize_data Samples.X_train [] = Raise (ValueError "Found array with 0 sample(s)").
Proof. vm_compute. split; reflexivity. Qed.

(** The whole script on a file that cannot be read, and on a file with one
    order: nothing is built and nothing is written. *)
Example sample_main_fails :
  main (fun _ => Raise (ValueError "No such file")) (fun _ => None)
    Samples.parse_datetime Samples.guess_datetime_format
           Samples.strptime Z Samples.lcg_seed Samples.lcg_interval
    cell unit (Samples.learn_last None) Samples.predict_const Samples.accuracy
    Samples.recall Samples.f1 Samples.confusion Samples.empty_world
  = (Samples.empty_world, Raise (ValueError "No such file")) /\
  main (fun _ => Ok Samples.single_order) (fun _ => None)
    Samples.parse_datetime Samples.guess_datetime_format
           Samples.strptime Z Samples.lcg_seed Samples.lcg_interval
    cell unit (Samples.learn_last None) Samples.predict_const Samples.accuracy
    Samples.recall Samples.f1 Samples.confusion Samples.empty_world
  = (Samples.empty_world, Raise (ValueError "the resulting train set will be empty")).
Proof. vm_compute. split; reflexivity. Qed.
